(** * The learned dynamics models of Black-DROPS (medrops/gp_model.hpp)

    A shallow embedding of [medrops::GPModel] (one scalar regressor per
    predicted dimension: [learn], [save_data], [predict], [predictm] and
    the accessors) and of [blackdrops::MIModel] (a single parametric mean
    function: [learn], [save_data], [predict] and the objective of its
    optimiser), with the properties of these members.

    Conventions of the embedding:
    - a [double] is a binary64 [float]; an [Eigen::VectorXd] is the list of
      its coefficients; an [Eigen::MatrixXd] is its column count with the
      list of its rows;
    - an index past the end of a [std::vector] (undefined behaviour) and a
      failing [eigen_assert] are failures of the [result] monad;
    - members that assign to fields run in a state monad over the object
      and the files it writes, and keep the state reached when they fail;
    - the iterations of a [tbb::parallel_for] touch distinct elements, so
      they take effect one after the other in some order. In [learn],
      whose iterations may throw, that order is a parameter (a schedule);
      in [predictm], whose iterations do not, the loop runs in index order
      and its iterations are shown to commute. Console output is left
      out. *)

From Stdlib Require Import ZArith Floats.PrimFloat.
From Stdlib Require Numbers.Cyclic.Int63.Uint63.
From stdpp Require Import base list strings gmap.

(** ** Failures and the two monads *)

(** What a pure computation dies of, and what a member may end with. *)
Inductive fault : Type :=
| OutOfRange          (* operator[] of a std::vector past its end *)
| Assertion.          (* a failing assert or eigen_assert *)

Inductive error : Type :=
| Abort (f : fault)
| Thrown (i : nat).   (* the regressor of dimension [i] threw *)

Inductive outcome (E A : Type) : Type :=
| Ok (a : A)
| Err (e : E).
Arguments Ok {E A} a.
Arguments Err {E A} e.

Abbreviation result := (outcome fault).

#[global] Instance outcome_ret {E} : MRet (outcome E) := λ A, Ok.
#[global] Instance outcome_bind {E} : MBind (outcome E) :=
  λ A B f r, match r with Ok a => f a | Err e => Err e end.

Definition ensure (b : bool) (e : fault) : result unit :=
  if b then Ok () else Err e.

(** [for (size_t i = start; i < start + n; ++i) body] over a loop state. *)
Fixpoint for_ {A : Type} (body : nat → A → result A) (start n : nat) (a : A)
  : result A :=
  match n with
  | 0 => Ok a
  | S n' => a' ← body start a; for_ body (S start) n' a'
  end.

(** The same loop with its iterations taken in a given order. *)
Fixpoint for_each {A : Type} (body : nat → A → result A) (order : list nat) (a : A)
  : result A :=
  match order with
  | [] => Ok a
  | i :: order' => a' ← body i a; for_each body order' a'
  end.

(** State and failure: the state reached is kept on both outcomes. *)
Definition M (St A : Type) : Type := St → outcome error A * St.

#[global] Instance M_ret {St} : MRet (M St) := λ A a s, (Ok a, s).
#[global] Instance M_bind {St} : MBind (M St) :=
  λ A B f m s, match m s with
               | (Ok a, s') => f a s'
               | (Err e, s') => (Err e, s')
               end.

Definition get {St} : M St St := λ s, (Ok s, s).
Definition modify {St} (f : St → St) : M St unit := λ s, (Ok (), f s).
Definition lift {St A} (r : result A) : M St A :=
  λ s, (match r with Ok a => Ok a | Err f => Err (Abort f) end, s).

Fixpoint forM_ {St : Type} (body : nat → M St unit) (start n : nat) : M St unit :=
  match n with
  | 0 => mret ()
  | S n' => body start ≫= λ _, forM_ body (S start) n'
  end.

(** The same loop with its iterations taken in a given order. *)
Fixpoint forM_each {St : Type} (body : nat → M St unit) (order : list nat) : M St unit :=
  match order with
  | [] => mret ()
  | i :: order' => body i ≫= λ _, forM_each body order'
  end.

(** What [tbb::parallel_for] does is outside this header: the scheduler is
    a parameter. For a loop of [n] iterations a schedule gives the order in
    which the iterations take effect and how many of those that follow the
    first one that throws were started before it did. *)
Class Schedule : Type := schedule : nat → list nat * nat.

(** The state left by iterations whose outcome nobody looks at. *)
Fixpoint drain {St : Type} (body : nat → M St unit) (started : list nat) (s : St) : St :=
  match started with
  | [] => s
  | i :: started' => drain body started' (body i s).2
  end.

(** The iterations of a parallel loop in the order given. When one fails,
    the [started] next ones still run to their end, whatever it is, the
    others are cancelled, and the first failure is the one reported. *)
Fixpoint par_each {St : Type} (body : nat → M St unit) (order : list nat) (started : nat)
  : M St unit :=
  match order with
  | [] => mret ()
  | i :: order' =>
      λ s, match body i s with
           | (Ok _, s') => par_each body order' started s'
           | (Err e, s') => (Err e, drain body (take started order') s')
           end
  end.

(** [tbb::parallel_for(size_t(0), n, size_t(1), body)] *)
Definition parallel_for `{Schedule} {St : Type} (n : nat) (body : nat → M St unit)
  : M St unit :=
  par_each body (schedule n).1 (schedule n).2.

(** ** The part of Eigen the models use *)

Module Eigen.

Abbreviation VectorXd := (list float).

Record MatrixXd : Type := Matrix { cols : nat; coeffs : list VectorXd }.

Definition rows (m : MatrixXd) : nat := length (coeffs m).

(** Every row of a matrix has [cols] coefficients. *)
Definition wf (m : MatrixXd) : Prop :=
  Forall (λ r, length r = cols m) (coeffs m).

(** The content of storage that was allocated and not yet assigned. *)
Class Indeterminate : Type := junk : float.

(** [VectorXd v(n)] and [MatrixXd m(r, c)]: sized, not initialised. *)
Definition Vector `{Indeterminate} (n : nat) : VectorXd := replicate n junk.
Definition Matrix_ `{Indeterminate} (r c : nat) : MatrixXd :=
  Matrix c (replicate r (replicate c junk)).

(** A default-constructed matrix is 0 x 0. *)
Definition Matrix0 : MatrixXd := Matrix 0 [].

Definition Zero (n : nat) : VectorXd := replicate n 0%float.
Definition Constant (n : nat) (x : float) : VectorXd := replicate n x.

(** [v.head(n) = u] and [v.tail(n) = u] with [n] the size of [u] *)
Definition set_head (v u : VectorXd) : result VectorXd :=
  _ ← ensure (bool_decide (length u ≤ length v)) Assertion;
  Ok (u ++ drop (length u) v).
Definition set_tail (v u : VectorXd) : result VectorXd :=
  _ ← ensure (bool_decide (length u ≤ length v)) Assertion;
  Ok (take (length v - length u) v ++ u).

(** [v(i) = x] *)
Definition set_at (v : VectorXd) (i : nat) (x : float) : result VectorXd :=
  _ ← ensure (bool_decide (i < length v)) Assertion;
  Ok (<[i := x]> v).

(** [v(i)] *)
Definition at_ (v : VectorXd) (i : nat) : result float :=
  match v !! i with Some x => Ok x | None => Err Assertion end.

(** [m.row(i)] read *)
Definition row (m : MatrixXd) (i : nat) : result VectorXd :=
  match coeffs m !! i with Some r => Ok r | None => Err Assertion end.

(** [m(i, j)] *)
Definition coeff (m : MatrixXd) (i j : nat) : result float :=
  _ ← ensure (bool_decide (j < cols m)) Assertion;
  r ← row m i; at_ r j.

(** [m.row(i) = v] *)
Definition set_row (m : MatrixXd) (i : nat) (v : VectorXd) : result MatrixXd :=
  _ ← ensure (bool_decide (i < rows m)) Assertion;
  _ ← ensure (bool_decide (length v = cols m)) Assertion;
  Ok (Matrix (cols m) (<[i:=v]> (coeffs m))).

(** [m.col(j)], an n x 1 matrix *)
Definition col (m : MatrixXd) (j : nat) : result MatrixXd :=
  _ ← ensure (bool_decide (j < cols m)) Assertion;
  c ← mapM (λ r, x ← at_ r j; Ok [x]) (coeffs m);
  Ok (Matrix 1 c).

(** [m.block(i, j, r, c)] read *)
Definition block (m : MatrixXd) (i j r c : nat) : result MatrixXd :=
  _ ← ensure (bool_decide (i + r ≤ rows m)) Assertion;
  _ ← ensure (bool_decide (j + c ≤ cols m)) Assertion;
  Ok (Matrix c ((λ x, take c (drop j x)) <$> take r (drop i (coeffs m)))).

(** [m.block(i, j, 1, c) = v] for a row (or transposed) vector [v] *)
Definition set_block_row (m : MatrixXd) (i j c : nat) (v : VectorXd)
  : result MatrixXd :=
  _ ← ensure (bool_decide (i + 1 ≤ rows m)) Assertion;
  _ ← ensure (bool_decide (j + c ≤ cols m)) Assertion;
  _ ← ensure (bool_decide (length v = c)) Assertion;
  old ← row m i;
  Ok (Matrix (cols m) (<[i := take j old ++ v ++ drop (j + c) old]> (coeffs m))).

(** [Scalar(n)] for a size [n] *)
Definition of_size (n : nat) : float :=
  PrimFloat.of_uint63 (Uint63.of_Z (Z.of_nat n)).

(** [v.sum()] of a non-empty vector: a reduction from its first
    coefficient (the order in which Eigen adds is left to right here). *)
Definition redux_sum (x : float) (v : VectorXd) : float :=
  foldl PrimFloat.add x v.

(** [v.mean()]: the sum over the size; Eigen asserts that [v] is not empty. *)
Definition mean (v : VectorXd) : result float :=
  match v with
  | [] => Err Assertion
  | x :: v' => Ok (redux_sum x v' / of_size (length v))%float
  end.

(** [m.colwise().mean().transpose()] *)
Definition colwise_mean (m : MatrixXd) : result VectorXd :=
  mapM (λ j, c ← col m j; mean (concat (coeffs c))) (seq 0 (cols m)).

(** [m.array().abs()] *)
Definition cwise_abs (m : MatrixXd) : MatrixXd :=
  Matrix (cols m) (map PrimFloat.abs <$> coeffs m).

(** [std::max] on doubles *)
Definition maxi (a b : float) : float := if (a <? b)%float then b else a.

(** [(a - b).squaredNorm()]; the sum of no coefficient is zero. *)
Definition squaredNorm_diff (a b : VectorXd) : result float :=
  _ ← ensure (bool_decide (length a = length b)) Assertion;
  Ok (foldl PrimFloat.add 0%float (zip_with (λ x y, (x - y) * (x - y))%float a b)).

(** [a.array().max(b.array())] *)
Definition cwise_max (a b : VectorXd) : result VectorXd :=
  _ ← ensure (bool_decide (length a = length b)) Assertion;
  Ok (zip_with maxi a b).

End Eigen.

Import Eigen.

(** [v[i]] of a [std::vector]: past the end is undefined behaviour. *)
Definition vector_at {A : Type} (v : list A) (i : nat) : result A :=
  match v !! i with Some x => Ok x | None => Err OutOfRange end.

(** ** What the models are instantiated with *)

(** The [Params] template argument, with the [MEDROPS_GP] macro (defined:
    the regressor's [compute] takes no noise vector). *)
Class Params : Type := {
  model_pred_dim : nat;
  model_input_dim : nat;
  action_dim : nat;
  gp_model_noise : float;
  MEDROPS_GP : bool
}.

(** The [GP] template argument, a scalar regressor of limbo. A member that
    throws returns [None]; the object is then taken as it was before the
    call. *)
Class GP (G : Type) : Type := {
  gp_new : nat → nat → G;
  gp_compute : G → list VectorXd → list VectorXd → option VectorXd → bool → option G;
  gp_optimize_hyperparams : G → option G;
  gp_query : G → VectorXd → VectorXd * float;
  gp_samples : G → list VectorXd;
  gp_h_params : G → VectorXd
}.

(** [Eigen::colwise_sig] and [Eigen::percentile] are defined in
    binary_matrix.hpp, outside this header: they are parameters. *)
Class BinaryMatrix : Type := {
  colwise_sig : MatrixXd → VectorXd;
  percentile : MatrixXd → nat → VectorXd
}.

(** Files: a binary matrix ([Eigen::write_binary]) or the sequence of what
    was inserted into a [std::ofstream]. *)
Inductive token : Type :=
| Num (x : float)
| Str (s : string)
| Endl.

Inductive file : Type :=
| Binary (m : MatrixXd)
| Text (t : list token).

Abbreviation transition := (VectorXd * VectorXd * VectorXd)%type.

(** ** medrops::GPModel *)

Module GPModel.
Section GPModel.
Context `{Params} `{Indeterminate} `{BinaryMatrix} {G : Type} `{GP G}.
Context `{Schedule}.

Record t : Type := Build {
  _gp_models : list G;
  _initialized : bool;
  _observations : MatrixXd;
  _means : VectorXd;
  _sigmas : VectorXd;
  _limits : VectorXd
}.

(** The object together with the files written so far. *)
Record World : Type := { this : t; disk : gmap string file }.

Definition set_gp_models (v : list G) (w : World) : World :=
  let m := this w in
  {| this := Build v (_initialized m) (_observations m) (_means m) (_sigmas m) (_limits m);
     disk := disk w |}.
Definition set_observations (v : MatrixXd) (w : World) : World :=
  let m := this w in
  {| this := Build (_gp_models m) (_initialized m) v (_means m) (_sigmas m) (_limits m);
     disk := disk w |}.
Definition set_means (v : VectorXd) (w : World) : World :=
  let m := this w in
  {| this := Build (_gp_models m) (_initialized m) (_observations m) v (_sigmas m) (_limits m);
     disk := disk w |}.
Definition set_sigmas (v : VectorXd) (w : World) : World :=
  let m := this w in
  {| this := Build (_gp_models m) (_initialized m) (_observations m) (_means m) v (_limits m);
     disk := disk w |}.
Definition set_limits (v : VectorXd) (w : World) : World :=
  let m := this w in
  {| this := Build (_gp_models m) (_initialized m) (_observations m) (_means m) (_sigmas m) v;
     disk := disk w |}.
Definition write_file (name : string) (f : file) (w : World) : World :=
  {| this := this w; disk := <[name := f]> (disk w) |}.

(** [init()]: one new regressor per predicted dimension. *)
Definition init (w : World) : World :=
  set_gp_models (replicate model_pred_dim (gp_new model_input_dim 1)) w.

(** [GPModel()] *)
Definition new (d : gmap string file) : World :=
  init {| this := Build [] false Matrix0 [] [] []; disk := d |}.

(** [_to_vector] and [_to_matrix] on a const reference; the overloads on a
    non-const reference are selected by no call of the header. *)
Definition _to_vector (m : MatrixXd) : result (list VectorXd) :=
  for_ (λ i result,
          _ ← vector_at result i;
          r ← row m i;
          Ok (<[i := r]> result))
       0 (rows m) (replicate (rows m) []).

Definition _to_matrix (xs : list VectorXd) : result MatrixXd :=
  x0 ← vector_at xs 0;
  let result := Matrix_ (length xs) (length x0) in
  for_ (λ i result, x ← vector_at xs i; set_row result i x) 0 (rows result) result.

(** Lines 26-42 of [learn]: the samples and the matrix of targets. *)
Definition assemble (observations : list transition)
  : result (list VectorXd * MatrixXd) :=
  o0 ← vector_at observations 0;
  let obs := Matrix_ (length observations) (length o0.2) in
  for_ (λ i '(samples, obs),
          o ← vector_at observations i;
          let '(st, act, pred) := o in
          let s := Vector (length st + length act) in
          s ← set_head s st;
          s ← set_tail s act;
          obs ← set_row obs i pred;
          Ok (samples ++ [s], obs))
       0 (length observations) ([], obs).

(** Lines 45-51: the statistics of the samples. *)
Definition statistics (samples : list VectorXd) : M World unit :=
  data ← lift (_to_matrix samples);
  samp ← lift (block data 0 0 (rows data) (model_input_dim + action_dim));
  means ← lift (colwise_mean samp);
  _ ← modify (set_means means);
  _ ← modify (set_sigmas (colwise_sig samp));
  let pl := percentile (cwise_abs samp) 5 in
  let ph := percentile (cwise_abs samp) 95 in
  limits ← lift (cwise_max pl ph);
  modify (set_limits limits).

(** Lines 56-60: the matrix written to medrops_data.bin. *)
Definition snapshot (samples : list VectorXd) (obs : MatrixXd) : result MatrixXd :=
  s0 ← vector_at samples 0;
  let data2 := Matrix_ (length samples) (length s0 + cols obs) in
  for_ (λ i data2,
          s ← vector_at samples i;
          data2 ← set_block_row data2 i 0 (model_input_dim + action_dim) s;
          r ← row obs i;
          set_block_row data2 i (model_input_dim + action_dim) model_pred_dim r)
       0 (length samples) data2.

Definition throws {A : Type} (i : nat) (o : option A) : M World A :=
  λ w, (match o with Some a => Ok a | None => Err (Thrown i) end, w).

(** The body of the [parallel_for] of [learn] (lines 68-75). *)
Definition fit (samples : list VectorXd) (obs : MatrixXd)
    (noises : option VectorXd) (i : nat) : M World unit :=
  w ← get;
  g ← lift (vector_at (_gp_models (this w)) i);
  c ← lift (col obs i);
  ys ← lift (_to_vector c);
  g ← throws i (gp_compute g samples ys noises false);
  _ ← modify (λ w, set_gp_models (<[i := g]> (_gp_models (this w))) w);
  g ← throws i (gp_optimize_hyperparams g);
  modify (λ w, set_gp_models (<[i := g]> (_gp_models (this w))) w).

(** The [parallel_for] of [learn] with its iterations taken in the order
    given. *)
Definition fit_in (order : list nat) (samples : list VectorXd) (obs : MatrixXd)
    (noises : option VectorXd) : M World unit :=
  forM_each (fit samples obs noises) order.

(** The body of the loop that prints the hyperparameters (lines 86-93):
    [p.segment(0, p.size() - 2)] needs two coefficients. *)
Definition print_h_params (i : nat) : M World unit :=
  w ← get;
  g ← lift (vector_at (_gp_models (this w)) i);
  lift (ensure (bool_decide (2 ≤ length (gp_h_params g))) Assertion).

(** Lines 56-93: the snapshot file, new regressors and their fit. *)
Definition refit (samples : list VectorXd) (obs : MatrixXd) : M World unit :=
  data2 ← lift (snapshot samples obs);
  _ ← modify (write_file "medrops_data.bin" (Binary data2));
  let noises := if MEDROPS_GP then None
                else Some (Constant (length samples) gp_model_noise) in
  _ ← modify init;
  _ ← parallel_for (cols obs) (fit samples obs noises);
  forM_ print_h_params 0 (cols obs).

Definition learn (observations : list transition) (only_limits : bool)
  : M World unit :=
  '(samples, obs) ← lift (assemble observations);
  _ ← modify (set_observations obs);
  _ ← statistics samples;
  if only_limits then mret () else refit samples obs.

(** The tokens [save_data] inserts into its stream. *)
Definition save_rows (samples : list VectorXd) (observations : MatrixXd)
  : result (list token) :=
  for_ (λ i out,
          let out := if bool_decide (i ≠ 0) then out ++ [Endl] else out in
          s0 ← vector_at samples 0;
          out ← for_ (λ j out,
                        s ← vector_at samples i;
                        x ← at_ s j;
                        Ok (out ++ [Num x; Str " "]))
                     0 (length s0) out;
          for_ (λ j out,
                  let out := if bool_decide (j ≠ 0) then out ++ [Str " "] else out in
                  x ← coeff observations i j;
                  Ok (out ++ [Num x]))
               0 (cols observations) out)
       0 (length samples) [].

(** [save_data(filename)]: opening the stream creates the file; what was
    inserted reaches it when the member returns. *)
Definition save_data (filename : string) : M World unit :=
  w ← get;
  g ← lift (vector_at (_gp_models (this w)) 0);
  let samples := gp_samples g in
  let observations := _observations (this w) in
  _ ← modify (write_file filename (Text []));
  out ← lift (save_rows samples observations);
  modify (write_file filename (Text out)).

(** The body of the [parallel_for] of [predictm]. *)
Definition query_one (m : t) (x : VectorXd) (i : nat) (r : VectorXd * VectorXd)
  : result (VectorXd * VectorXd) :=
  let '(ms, ss) := r in
  g ← vector_at (_gp_models m) i;
  let '(mu, s) := gp_query g x in
  m0 ← at_ mu 0;
  ms ← set_at ms i m0;
  ss ← set_at ss i s;
  Ok (ms, ss).

Definition predictm (m : t) (x : VectorXd) : result (VectorXd * VectorXd) :=
  let n := length (_gp_models m) in
  for_ (query_one m x) 0 n (Vector n, Vector n).

(** [predictm] with the iterations of its loop taken in the order given. *)
Definition predictm_in (order : list nat) (m : t) (x : VectorXd)
  : result (VectorXd * VectorXd) :=
  let n := length (_gp_models m) in
  for_each (query_one m x) order (Vector n, Vector n).

Definition predict (m : t) (x : VectorXd) : result (VectorXd * float) :=
  '(ms, ss) ← predictm m x;
  u ← mean ss;
  Ok (ms, u).

Definition samples (m : t) : result MatrixXd :=
  g ← vector_at (_gp_models m) 0;
  _to_matrix (gp_samples g).

Definition observations (m : t) : MatrixXd := _observations m.

Definition limits (m : t) : VectorXd := _limits m.

End GPModel.
End GPModel.

(** ** blackdrops::MIModel *)

(** The [MeanFunction] template argument: default and sized construction,
    evaluation [operator()(v, gp)] and its hyperparameters. *)
Class MeanFunction (F : Type) : Type := {
  mf_default : F;
  mf_new : nat → F;
  mf_eval : F → VectorXd → VectorXd → VectorXd;
  mf_h_params : F → VectorXd;
  mf_set_h_params : F → VectorXd → F
}.

(** [limbo::opt::eval_t] and [limbo::opt::no_grad] *)
Definition eval_t : Type := float * option VectorXd.
Definition no_grad (x : float) : eval_t := (x, None).

(** The [Optimizer] template argument, called on an objective, a starting
    point and a flag. *)
Class Optimizer : Type :=
  optimizer : (VectorXd → bool → result eval_t) → VectorXd → bool → result VectorXd.

Module MIModel.
Section MIModel.
Context `{Indeterminate} {F : Type} `{MeanFunction F} `{Optimizer}.

Record t : Type := Build {
  _samples : list VectorXd;
  _observations : list VectorXd;
  _mean : F;
  _init : bool
}.

(** [MIModel()] *)
Definition new : t := Build [] [] mf_default false.

Definition _optimize_model (m : t) (params : VectorXd) (eval_grad : bool)
  : result eval_t :=
  _ ← ensure (bool_decide (length (_samples m) ≠ 0)) Assertion;
  s0 ← vector_at (_samples m) 0;
  let mean := mf_set_h_params (mf_new (length s0)) params in
  mse ← for_ (λ i mse,
                s ← vector_at (_samples m) i;
                let mu := mf_eval mean s s in
                val ← vector_at (_observations m) i;
                d ← squaredNorm_diff mu val;
                Ok (mse + d)%float)
             0 (length (_samples m)) 0%float;
  Ok (no_grad (- mse)%float).

(** Lines 274-287 of [learn]: the samples and the targets. *)
Definition assemble (observations : list transition)
  : result (list VectorXd * list VectorXd) :=
  for_ (λ i '(samples, observs),
          o ← vector_at observations i;
          let '(st, act, pred) := o in
          let s := Vector (length st + length act) in
          s ← set_head s st;
          s ← set_tail s act;
          Ok (samples ++ [s], observs ++ [pred]))
       0 (length observations) ([], []).

Definition learn (observations : list transition) (only_limits : bool)
  : M t unit :=
  '(samples, observs) ← lift (assemble observations);
  _ ← modify (λ m, Build samples observs (_mean m) (_init m));
  m ← get;
  _ ← (if _init m then mret ()
       else s0 ← lift (vector_at (_samples m) 0);
            modify (λ m, Build (_samples m) (_observations m) (mf_new (length s0)) true));
  m ← get;
  best_params ← lift (optimizer (_optimize_model m) (mf_h_params (_mean m)) true);
  modify (λ m, Build (_samples m) (_observations m)
                     (mf_set_h_params (_mean m) best_params) (_init m)).

(** The tokens [save_data] inserts into its stream. *)
Definition save_rows (m : t) : result (list token) :=
  for_ (λ i out,
          let out := if bool_decide (i ≠ 0) then out ++ [Endl] else out in
          s0 ← vector_at (_samples m) 0;
          out ← for_ (λ j out,
                        s ← vector_at (_samples m) i;
                        x ← at_ s j;
                        Ok (out ++ [Num x; Str " "]))
                     0 (length s0) out;
          o0 ← vector_at (_observations m) 0;
          for_ (λ j out,
                  o ← vector_at (_observations m) i;
                  x ← at_ o j;
                  Ok (out ++ [Num x; Str " "]))
               0 (length o0) out)
       0 (length (_samples m)) [].

(** [save_data(filename)], a const member: the state it runs in is the
    files. *)
Definition save_data (m : t) (filename : string) : M (gmap string file) unit :=
  _ ← modify (insert filename (Text []));
  out ← lift (save_rows m);
  modify (insert filename (Text out)).

Definition predict (m : t) (x : VectorXd) (_ : bool) : VectorXd * VectorXd :=
  let mu := mf_eval (_mean m) x x in
  let ss := Zero (length mu) in
  (mu, ss).

End MIModel.
End MIModel.

(** ** Notions of the statements *)

(** The sample and the target of a transition. *)
Definition sample_of (o : transition) : VectorXd := o.1.1 ++ o.1.2.
Definition target_of (o : transition) : VectorXd := o.2.

(** The transitions agree with the first one on the three lengths. *)
Definition same_dims (o0 o : transition) : bool :=
  bool_decide (length o.1.1 = length o0.1.1)
  && bool_decide (length o.1.2 = length o0.1.2)
  && bool_decide (length o.2 = length o0.2).

Definition consistent (observations : list transition) : bool :=
  match observations with
  | [] => true
  | o0 :: _ => forallb (same_dims o0) observations
  end.

(** The targets have the length of the first one. *)
Definition targets_agree (observations : list transition) : bool :=
  match observations with
  | [] => true
  | o0 :: _ => forallb (λ o, bool_decide (length o.2 = length o0.2)) observations
  end.

(** Modelled from the spec: [Eigen::percentile] of binary_matrix.hpp, which
    this header only includes, has one entry per column of its argument
    ("each a vector of length D_s+D_a"). *)
Class BinaryMatrixSpec `{BinaryMatrix} : Prop :=
  percentile_length : ∀ m p, length (percentile m p) = cols m.

(** Modelled from the spec: the regressor is a template argument; its
    [samples()] "returns the training inputs it was fit on", and optimising
    the hyperparameters keeps them. *)
Class GPSpec {G : Type} `{GP G} : Prop := {
  compute_samples : ∀ g s o n b g',
    gp_compute g s o n b = Some g' → gp_samples g' = s;
  optimize_samples : ∀ g g',
    gp_optimize_hyperparams g = Some g' → gp_samples g' = gp_samples g
}.

(** Modelled from the contract of [tbb::parallel_for], a library outside
    this header: the iterations it runs are those of the range, each one
    once. *)
Class ScheduleSpec `{Schedule} : Prop :=
  schedule_perm : ∀ n, (schedule n).1 ≡ₚ seq 0 n.

(** Tokens with a blank between two of them, and lines with a line end
    between two of them. *)
Fixpoint spaced (l : list token) : list token :=
  match l with
  | [] => []
  | x :: l' => match l' with [] => [x] | _ :: _ => x :: Str " " :: spaced l' end
  end.

Fixpoint unlines (ls : list (list token)) : list token :=
  match ls with
  | [] => []
  | l :: ls' => match ls' with [] => l | _ :: _ => l ++ Endl :: unlines ls' end
  end.

(** The line of [save_data] for a sample and a row of targets, and the
    whole file. *)
Definition dump_line (s o : VectorXd) : list token :=
  flat_map (λ x, [Num x; Str " "]) s ++ spaced (Num <$> o).

Definition dump (samples targets : list VectorXd) : list token :=
  unlines (zip_with dump_line samples targets).

(** The text dump in the words of the specification: one line per sample,
    the components of the sample followed by those of its target row, a
    blank between two values. *)
Definition text_dump (samples targets : list VectorXd) : list token :=
  unlines (zip_with (λ s o, spaced (Num <$> (s ++ o))) samples targets).

(** The line of [MIModel::save_data] for a sample and its target: every
    value, the last one included, is followed by a blank. *)
Definition mi_line (s o : VectorXd) : list token :=
  flat_map (λ x, [Num x; Str " "]) (s ++ o).

Definition mi_dump (samples targets : list VectorXd) : list token :=
  unlines (zip_with mi_line samples targets).

(** The squared distance of two vectors of one length, as [squaredNorm]
    sums it. *)
Definition sq_dist (a b : VectorXd) : float :=
  foldl PrimFloat.add 0%float (zip_with (λ x y, (x - y) * (x - y))%float a b).

Section Notions.
Context `{Params} `{Indeterminate} `{BinaryMatrix} {G : Type} `{GP G}.
Context `{Schedule}.

Local Abbreviation World := (@GPModel.World G).
Local Abbreviation gps w := (GPModel._gp_models (GPModel.this w)).

(** The first coefficient of the mean a regressor answers. *)
Definition mean0 (x : VectorXd) (g : G) : float := default junk (head (gp_query g x).1).

(** The vector a partly run [predictm] has filled: the coefficients of the
    regressors taken so far have their value, the others hold what the
    storage held. *)
Definition filled (visited : list nat) (f : G → float) (gs : list G) : VectorXd :=
  imap (λ i g, if bool_decide (i ∈ visited) then f g else junk) gs.

(** The noise vector [learn] hands to [compute]. *)
Definition noises_of (samples : list VectorXd) : option VectorXd :=
  if MEDROPS_GP then None else Some (Constant (length samples) gp_model_noise).

(** A new regressor after [compute] on column [i] of the targets, and after
    [optimize_hyperparams] as well. *)
Definition computed_on (samples : list VectorXd) (obs : MatrixXd) (i : nat) (g : G)
  : Prop :=
  ∃ c ys, col obs i = Ok c ∧ GPModel._to_vector c = Ok ys ∧
    gp_compute (gp_new model_input_dim 1) samples ys (noises_of samples) false = Some g.

Definition fitted_on (samples : list VectorXd) (obs : MatrixXd) (i : nat) (g : G)
  : Prop :=
  ∃ g1, computed_on samples obs i g1 ∧ gp_optimize_hyperparams g1 = Some g.

(** Two states that differ at most in their regressors. *)
Definition same_cache (w w' : World) : Prop :=
  GPModel.set_gp_models [] w = GPModel.set_gp_models [] w'.

(** The object of [w] with the files [d]. *)
Definition with_disk (d : gmap string file) (w : World) : World :=
  {| GPModel.this := GPModel.this w; GPModel.disk := d |}.

(** The state a new ensemble is in after a sequence of calls of [learn],
    each with its transitions and its flag, however each of them ended. *)
Definition after_learns (d : gmap string file) (calls : list (list transition * bool))
  : World :=
  foldl (λ w c, (GPModel.learn c.1 c.2 w).2) (GPModel.new d) calls.

(** The regressors when the fit of dimension [k] was reached: fitted below
    [k], new above. *)
Definition fit_upto (samples : list VectorXd) (obs : MatrixXd) (k : nat) (w : World)
  : Prop :=
  length (gps w) = model_pred_dim ∧
  ∀ j g, gps w !! j = Some g →
    (j < k → fitted_on samples obs j g) ∧
    (k ≤ j → g = gp_new model_input_dim 1).

(** The regressors when dimension [k] threw, whatever the schedule: each is
    a new one, possibly computed or fitted on the new data by its own
    iteration; that of dimension [k] was not fitted. *)
Definition fit_interrupted (samples : list VectorXd) (obs : MatrixXd) (k : nat) (w : World)
  : Prop :=
  k < cols obs ∧ length (gps w) = model_pred_dim ∧
  ∀ j g, gps w !! j = Some g →
    (g = gp_new model_input_dim 1 ∨ computed_on samples obs j g ∨
     fitted_on samples obs j g) ∧
    (j = k → g = gp_new model_input_dim 1 ∨ computed_on samples obs k g).

End Notions.

(** ** Instances for evaluating the models *)

Module Example.

Definition params (pred input action : nat) : Params :=
  {| model_pred_dim := pred; model_input_dim := input; action_dim := action;
     gp_model_noise := 0.25%float; MEDROPS_GP := false |}.

#[export] Instance junk_nan : Indeterminate := nan.

Fixpoint insert_sorted (x : float) (l : list float) : list float :=
  match l with
  | [] => [x]
  | y :: l' => if (x <=? y)%float then x :: l else y :: insert_sorted x l'
  end.

Definition column (m : MatrixXd) (j : nat) : list float :=
  omap (λ r, r !! j) (coeffs m).

(** Nearest-rank percentile of every column. *)
Definition nearest_rank (m : MatrixXd) (p : nat) : VectorXd :=
  (λ j, let c := foldr insert_sorted [] (column m j) in
        default 0%float (c !! ((p * (length c - 1) + 50) / 100)))
    <$> seq 0 (cols m).

(** Population standard deviation of every column. *)
Definition std_dev (m : MatrixXd) : VectorXd :=
  (λ j, let c := column m j in
        let n := of_size (length c) in
        let mu := (foldr PrimFloat.add 0 c / n)%float in
        sqrt (foldr (λ x a, (x - mu) * (x - mu) + a) 0 c / n)%float)
    <$> seq 0 (cols m).

#[export] Instance stats : BinaryMatrix :=
  {| colwise_sig := std_dev; percentile := nearest_rank |}.

(** A regressor that answers the average of the targets it was given, with
    no variance, and zero with unit variance before any fit; a fit throws
    when a target is not a number. *)
Record avg : Type := Avg { xs : list VectorXd; ys : list VectorXd }.

#[export] Instance avg_gp : GP avg :=
  {| gp_new := λ _ _, Avg [] [];
     gp_compute := λ g s o _ _,
       if existsb is_nan (concat o) then None else Some (Avg s o);
     gp_optimize_hyperparams := Some;
     gp_query := λ g _,
       match concat (ys g) with
       | [] => ([0%float], 1%float)
       | y :: l => ([(foldl PrimFloat.add y l / of_size (S (length l)))%float], 0%float)
       end;
     gp_samples := xs;
     gp_h_params := λ _, [0%float; 0%float; 0%float] |}.

(** A linear mean function [x ↦ a * x] on every coordinate. *)
Record scale : Type := Scale { dim : nat; factor : float }.

#[export] Instance scale_mf : MeanFunction scale :=
  {| mf_default := Scale 0 0%float;
     mf_new := λ n, Scale n 0%float;
     mf_eval := λ f x _, (λ v, factor f * v)%float <$> x;
     mf_h_params := λ f, [factor f];
     mf_set_h_params := λ f p, Scale (dim f) (default 0%float (p !! 0)) |}.

Definition three : list transition :=
  [([0%float], [0%float], [0%float]);
   ([1%float], [0%float], [1%float]);
   ([2%float], [0%float], [2%float])].

(** One state, one action, one predicted dimension. *)
#[export] Instance p111 : Params := params 1 1 1.

(** Two schedules: the iterations in index order, and from the last to the
    first; both cancel what follows the first iteration that throws. *)
#[export] Instance in_order : Schedule := λ n, (seq 0 n, 0).

Definition reversed : Schedule := λ n, (reverse (seq 0 n), 0).

Definition fresh : GPModel.World := GPModel.new ∅.

(** The ensemble after [learn] on the three transitions. *)
Definition fitted : GPModel.World := (GPModel.learn three false fresh).2.

Definition query : VectorXd := [1.5%float; 0%float].

(** Three later transitions, and one whose target is not a number. *)
Definition later : list transition :=
  [([4%float], [1%float], [7%float]);
   ([5%float], [1%float], [8%float]);
   ([6%float], [1%float], [9%float])].

Definition broken : list transition := [([3%float], [0%float], [nan])].

(** The fitted ensemble after [learn] on the later transitions with
    [only_limits] set. *)
Definition refreshed : GPModel.World := (GPModel.learn later true fitted).2.

(** A sequence whose states and actions differ in length from one
    transition to the next, for two states and one action. *)
Definition uneven : list transition :=
  [([1%float; 2%float], [3%float], [4%float]);
   ([5%float], [6%float; 7%float], [8%float])].

(** The fitted ensemble after a second [learn], on the later transitions,
    and after a [learn] with [only_limits] set on a single transition. *)
Definition relearned : GPModel.World := (GPModel.learn later false fitted).2.

Definition shorter : list transition := [([4%float], [1%float], [7%float])].

Definition shortened : GPModel.World := (GPModel.learn shorter true fitted).2.

(** Two predicted dimensions, and two sequences that differ in the second
    coefficient of their targets only. *)
Definition p211 : Params := params 2 1 1.

Definition two_dims : list transition :=
  [([0%float], [0%float], [0%float; 5%float]);
   ([1%float], [0%float], [1%float; 7%float])].

Definition two_dims_b : list transition :=
  [([0%float], [0%float], [0%float; 6%float]);
   ([1%float], [0%float], [1%float; 9%float])].

Definition fresh2 : GPModel.World := @GPModel.new p211 avg avg_gp ∅.

Definition fitted2 : GPModel.World :=
  (@GPModel.learn p211 _ _ avg avg_gp in_order two_dims false fresh2).2.

Definition fitted2_b : GPModel.World :=
  (@GPModel.learn p211 _ _ avg avg_gp in_order two_dims_b false fresh2).2.

(** A transition whose first target is not a number, and the ensemble of
    two dimensions after a [learn] on it from the last dimension to the
    first: dimension 1 is fitted when dimension 0 throws. *)
Definition broken2 : list transition := [([3%float], [0%float], [nan; 1%float])].

Definition interrupted : GPModel.World :=
  (@GPModel.learn p211 _ _ avg avg_gp reversed broken2 false fitted2).2.

(** Transitions with negative coefficients. *)
Definition signed : list transition :=
  [([(-3)%float], [1%float], [0%float]);
   ([1%float], [(-2)%float], [1%float]);
   ([2%float], [0.5%float], [2%float])].

(** Samples of three coefficients, one more than the two of [p111]. *)
Definition wide : list transition :=
  [([1%float; 2%float], [3%float], [4%float]);
   ([5%float; 6%float], [7%float], [8%float])].

(** A regressor that keeps what it is given and never throws. *)
Record kept : Type := Kept { kept_xs : list VectorXd; kept_ys : list VectorXd }.

Definition kept_gp : GP kept :=
  {| gp_new := λ _ _, Kept [] [];
     gp_compute := λ _ s o _ _, Some (Kept s o);
     gp_optimize_hyperparams := Some;
     gp_query := λ _ _, ([0%float], 1%float);
     gp_samples := kept_xs;
     gp_h_params := λ _, [0%float; 0%float] |}.

Definition fresh_kept : @GPModel.World kept := @GPModel.new p111 kept kept_gp ∅.

(** A regressor that answers the first target it was given, as its mean
    and as its variance, and the ensemble of three of them after [learn]
    on one transition. *)
Definition echo_gp : GP kept :=
  {| gp_new := λ _ _, Kept [] [];
     gp_compute := λ _ s o _ _, Some (Kept s o);
     gp_optimize_hyperparams := Some;
     gp_query := λ g _,
       (default [0%float] (head (kept_ys g)),
        default 1%float (head (concat (kept_ys g))));
     gp_samples := kept_xs;
     gp_h_params := λ _, [0%float; 0%float] |}.

Definition p311 : Params := params 3 1 1.

Definition echoed : @GPModel.World kept :=
  (@GPModel.learn p311 _ _ kept echo_gp in_order
     [([1%float], [0%float], [2%float; 4%float; 9%float])] false
     (@GPModel.new p311 kept echo_gp ∅)).2.

(** An optimiser that tries the starting point and three candidates, and
    answers the one with the largest value. *)
#[export] Instance pick : Optimizer := λ f start eval_grad,
  r ← foldl (λ acc p,
               '(b, vb) ← acc;
               '(v, _) ← f p eval_grad;
               Ok (if (vb <? v)%float then (p, v) else (b, vb)))
            ('(v, _) ← f start eval_grad; Ok (start, v))
            [[1%float]; [2%float]; [3%float]];
  Ok r.1.

(** Transitions whose target is twice the sample, and the mean-function
    model after [learn] on them. *)
Definition doubled : list transition :=
  [([1%float], [0%float], [2%float; 0%float]);
   ([2%float], [0%float], [4%float; 0%float])].

Definition learned_mi : @MIModel.t scale := (MIModel.learn doubled false MIModel.new).2.

End Example.

(** * Properties *)

(** ** Loops and the monads *)

Lemma for_inv {A : Type} (I : nat → A → Prop) (body : nat → A → result A)
    (start n : nat) (a : A) :
  I start a →
  (∀ i a, start ≤ i < start + n → I i a → ∃ a', body i a = Ok a' ∧ I (S i) a') →
  ∃ a', for_ body start n a = Ok a' ∧ I (start + n) a'.
Proof.
  revert start a. induction n as [|n IH]; intros start a Ha Hstep; simpl.
  - exists a. by rewrite Nat.add_0_r.
  - destruct (Hstep start a) as (a' & -> & Ha'); [lia | done |]. simpl.
    destruct (IH (S start) a') as (a'' & -> & Ha''); [done | |].
    + intros i b Hi Hb. apply Hstep; [lia | done].
    + exists a''. split; [done |]. by replace (start + S n) with (S start + n) by lia.
Qed.

Lemma head_nonempty {A : Type} (l : list A) : l ≠ [] → ∃ x, head l = Some x.
Proof. destruct l as [|x l]; [done |]. by exists x. Qed.

Lemma vector_at_lookup {A : Type} (v : list A) (i : nat) (x : A) :
  v !! i = Some x → vector_at v i = Ok x.
Proof. unfold vector_at. by intros ->. Qed.

Lemma at_lookup (v : VectorXd) (i : nat) (x : float) :
  v !! i = Some x → at_ v i = Ok x.
Proof. unfold at_. by intros ->. Qed.

Lemma ensure_true (P : Prop) `{Decision P} (e : fault) :
  P → ensure (bool_decide P) e = Ok ().
Proof. intros HP. by rewrite bool_decide_eq_true_2. Qed.

(** ** Assembly *)

Section Assembly.
Context `{Indeterminate}.

Lemma head_tail (st act : VectorXd) :
  (s ← set_head (Vector (length st + length act)) st; set_tail s act)
  = Ok (st ++ act).
Proof.
  unfold set_head, set_tail, Vector.
  rewrite ensure_true by (rewrite length_replicate; lia). simpl.
  rewrite ensure_true by (rewrite length_app, length_drop, length_replicate; lia).
  simpl. f_equal.
  rewrite take_app_le by (rewrite length_app, length_drop, length_replicate; lia).
  rewrite length_app, length_drop, length_replicate.
  by rewrite take_ge by lia.
Qed.

Lemma set_row_fill (c n i : nat) (done_ : list VectorXd) (v : VectorXd) :
  length done_ = i → i < n → length v = c →
  set_row (Matrix c (done_ ++ replicate (n - i) (replicate c junk))) i v
  = Ok (Matrix c ((done_ ++ [v]) ++ replicate (n - S i) (replicate c junk))).
Proof.
  intros Hd Hi Hv. unfold set_row, rows. simpl.
  rewrite (ensure_true (i < _)) by (rewrite length_app, length_replicate; lia).
  simpl. rewrite ensure_true by done. simpl. do 2 f_equal.
  replace (n - i) with (S (n - S i)) by lia. simpl.
  rewrite <- (Nat.add_0_r i) at 1. rewrite <- Hd at 1.
  rewrite insert_app_r. simpl. by rewrite <- app_assoc.
Qed.

(** The loop of [learn] that builds the samples and the targets, in
    closed form: it only needs the targets to have one length. *)
Lemma assemble_eq (observations : list transition) (o0 : transition) :
  head observations = Some o0 →
  (∀ o, o ∈ observations → length (target_of o) = length (target_of o0)) →
  GPModel.assemble observations
  = Ok (sample_of <$> observations,
        Matrix (length (target_of o0)) (target_of <$> observations)).
Proof.
  intros Hhd Hlen. unfold GPModel.assemble.
  rewrite (vector_at_lookup _ _ o0) by (by rewrite <- head_lookup). simpl.
  set (n := length observations). set (c := length o0.2).
  edestruct (for_inv
    (λ i '(samples, obs),
       samples = sample_of <$> take i observations ∧
       obs = Matrix c ((target_of <$> take i observations)
                       ++ replicate (n - i) (replicate c junk))))
    as ([samples obs] & -> & Hs & Ho).
  - split; [done |]. by rewrite Nat.sub_0_r.
  - intros i [samples obs] Hi [-> ->].
    destruct (lookup_lt_is_Some_2 observations i) as [[[st act] pred] Ho]; [lia |].
    rewrite (vector_at_lookup _ _ _ Ho). simpl.
    pose proof (head_tail st act) as Hht. simpl in Hht.
    destruct (set_head _ st) as [s|]; [| done]. simpl in *. rewrite Hht. simpl.
    rewrite set_row_fill; [| by rewrite length_fmap, length_take; lia | lia |].
    + simpl. eexists. split; [done |].
      rewrite (take_S_r _ _ _ Ho), !fmap_app. done.
    + apply (Hlen (st, act, pred)). by eapply list_elem_of_lookup_2.
  - simpl in *. replace (n - n) with 0 in Ho by lia. simpl in Ho.
    rewrite app_nil_r in Ho. subst. unfold n. by rewrite firstn_all.
Qed.

End Assembly.

Lemma targets_agree_spec (observations : list transition) (o0 o : transition) :
  targets_agree observations = true → head observations = Some o0 →
  o ∈ observations → length (target_of o) = length (target_of o0).
Proof.
  destruct observations as [|o1 l]; [done |]. intros Hc [= ->] Ho.
  unfold targets_agree in Hc. rewrite forallb_forall in Hc.
  apply list_elem_of_In, Hc in Ho. by apply bool_decide_eq_true in Ho.
Qed.

Lemma consistent_targets_agree (observations : list transition) :
  consistent observations = true → targets_agree observations = true.
Proof.
  destruct observations as [|o0 l]; [done |]. unfold consistent, targets_agree.
  rewrite !forallb_forall. intros Hc o Ho. apply Hc in Ho. unfold same_dims in Ho.
  by apply andb_prop in Ho as [_ Ho].
Qed.

Lemma consistent_targets (observations : list transition) (o0 o : transition) :
  consistent observations = true → head observations = Some o0 →
  o ∈ observations → length (target_of o) = length (target_of o0).
Proof. intros Hc. by apply targets_agree_spec, consistent_targets_agree. Qed.

Section AssemblyClaim.
Context `{Indeterminate}.

(** C1. For a non-empty sequence of transitions with consistent
    dimensions, the assembly step of [learn] returns as many samples as
    there are transitions and a target matrix with as many rows; sample
    [i] is the state of transition [i] followed by its action, and row
    [i] of the matrix is its target. *)
Theorem assemble_spec (observations : list transition) :
  observations ≠ [] → consistent observations = true →
  ∃ samples obs,
    GPModel.assemble observations = Ok (samples, obs) ∧
    length samples = length observations ∧
    rows obs = length observations ∧
    ∀ i (o : transition), observations !! i = Some o →
      samples !! i = Some (o.1.1 ++ o.1.2) ∧ row obs i = Ok o.2.
Proof.
  intros Hne Hc. destruct (head_nonempty observations Hne) as [o0 Hhd].
  eexists _, _. split; [| split; [| split]].
  - apply (assemble_eq _ o0 Hhd). intros o. by apply consistent_targets.
  - by rewrite length_fmap.
  - unfold rows. simpl. by rewrite length_fmap.
  - intros i o Hi. unfold row. simpl.
    by rewrite !list_lookup_fmap, Hi.
Qed.

End AssemblyClaim.

(** ** Loops that may fail *)

Lemma for_inv_total {A : Type} (I : nat → A → Prop) (J : fault → Prop)
    (body : nat → A → result A) (start n : nat) (a : A) :
  I start a →
  (∀ i a, start ≤ i < start + n → I i a →
     match body i a with Ok a' => I (S i) a' | Err e => J e end) →
  match for_ body start n a with Ok a' => I (start + n) a' | Err e => J e end.
Proof.
  revert start a. induction n as [|n IH]; intros start a Ha Hstep; simpl.
  - by rewrite Nat.add_0_r.
  - specialize (Hstep start a) as Hs. destruct (body start a) as [a'|e]; simpl.
    + replace (start + S n) with (S start + n) by lia. apply IH.
      * apply Hs; [lia | done].
      * intros i b Hi Hb. apply Hstep; [lia | done].
    + apply Hs; [lia | done].
Qed.

Lemma forM_inv {St : Type} (I : nat → St → Prop) (J : error → St → Prop)
    (body : nat → M St unit) (start n : nat) (s : St) :
  I start s →
  (∀ i s, start ≤ i < start + n → I i s →
     match body i s with (Ok _, s') => I (S i) s' | (Err e, s') => J e s' end) →
  match forM_ body start n s with
  | (Ok _, s') => I (start + n) s'
  | (Err e, s') => J e s'
  end.
Proof.
  revert start s. induction n as [|n IH]; intros start s Hs Hstep; simpl.
  - by rewrite Nat.add_0_r.
  - unfold mbind, M_bind. specialize (Hstep start s) as H0.
    destruct (body start s) as [[[]|e] s'].
    + replace (start + S n) with (S start + n) by lia. apply IH.
      * apply H0; [lia | done].
      * intros i b Hi Hb. apply Hstep; [lia | done].
    + apply H0; [lia | done].
Qed.

(** *** The parallel loop *)

Lemma drain_pres {St : Type} (R : St → Prop) (body : nat → M St unit)
    (l : list nat) (s : St) :
  R s → (∀ i s, R s → R (body i s).2) → R (drain body l s).
Proof.
  revert s. induction l as [|i l IH]; intros s Hs Hb; simpl; [done |].
  apply IH; [by apply Hb | done].
Qed.

(** What every iteration keeps, whatever its outcome, the loop keeps. *)
Lemma par_each_pres {St : Type} (R : St → Prop) (body : nat → M St unit)
    (order : list nat) (started : nat) (s : St) :
  R s → (∀ i s, R s → R (body i s).2) → R (par_each body order started s).2.
Proof.
  revert s. induction order as [|i order IH]; intros s Hs Hb; simpl; [done |].
  specialize (Hb i s Hs) as Hi. destruct (body i s) as [[[]|e] s']; simpl in *.
  - by apply IH.
  - by apply drain_pres.
Qed.

Lemma drain_inv {St : Type} (J : list nat → St → Prop) (body : nat → M St unit)
    (l visited : list nat) (s : St) :
  NoDup l → (∀ i, i ∈ l → i ∉ visited) → J visited s →
  (∀ visited i s, i ∈ l → i ∉ visited → J visited s → J (i :: visited) (body i s).2) →
  ∃ visited', J visited' (drain body l s).
Proof.
  revert visited s. induction l as [|i l IH]; intros visited s Hnd Hv HJ Hstep; simpl.
  - by exists visited.
  - apply NoDup_cons in Hnd as [Hi Hnd]. apply (IH (i :: visited)); [done | | |].
    + intros j Hj. rewrite not_elem_of_cons. split; [by intros -> | apply Hv; by right].
    + apply Hstep; [by left | apply Hv; by left | done].
    + intros v j t Hj. apply Hstep. by right.
Qed.

(** The loop over iterations that are taken once each: [I] holds of the
    iterations taken so far while none has failed, [J] from the first
    failure on. *)
Lemma par_each_inv {St : Type} (I : list nat → St → Prop)
    (J : error → list nat → St → Prop) (body : nat → M St unit)
    (order : list nat) (started : nat) (visited : list nat) (s : St) :
  NoDup order → (∀ i, i ∈ order → i ∉ visited) → I visited s →
  (∀ visited i s, i ∈ order → i ∉ visited → I visited s →
     match body i s with
     | (Ok _, s') => I (i :: visited) s'
     | (Err e, s') => J e (i :: visited) s'
     end) →
  (∀ e visited i s, i ∈ order → i ∉ visited → J e visited s →
     J e (i :: visited) (body i s).2) →
  match par_each body order started s with
  | (Ok _, s') => I (reverse order ++ visited) s'
  | (Err e, s') => ∃ visited', J e visited' s'
  end.
Proof.
  revert visited s.
  induction order as [|i order IH]; intros visited s Hnd Hv HI Hstep Hdrain; simpl.
  - done.
  - apply NoDup_cons in Hnd as [Hi Hnd].
    assert (∀ j, j ∈ order → j ∉ i :: visited) as Hv'.
    { intros j Hj. rewrite not_elem_of_cons. split; [by intros -> | apply Hv; by right]. }
    specialize (Hstep visited i s) as Hs.
    destruct (body i s) as [[[]|e] s'].
    + rewrite reverse_cons, <- app_assoc. simpl. apply IH; [done | done | | |].
      * apply Hs; [by left | apply Hv; by left | done].
      * intros v j t Hj. apply Hstep. by right.
      * intros e v j t Hj. apply Hdrain. by right.
    + apply (drain_inv (J e) body (take started order) (i :: visited)).
      * eapply sublist_NoDup; [exact Hnd | apply sublist_take].
      * intros j Hj. apply Hv'. apply elem_of_take in Hj as (n & Hn & _).
        by eapply list_elem_of_lookup_2.
      * apply Hs; [by left | apply Hv; by left | done].
      * intros v j t Hj. apply Hdrain. right.
        apply elem_of_take in Hj as (n & Hn & _). by eapply list_elem_of_lookup_2.
Qed.

(** The loop returns when every iteration it is given does. *)
Lemma par_each_ok {St : Type} (R : St → Prop) (body : nat → M St unit)
    (order : list nat) (started : nat) (s : St) :
  R s → (∀ i s, i ∈ order → R s → ∃ s', body i s = (Ok (), s') ∧ R s') →
  ∃ s', par_each body order started s = (Ok (), s') ∧ R s'.
Proof.
  revert s. induction order as [|i order IH]; intros s Hs Hb; simpl.
  - by exists s.
  - destruct (Hb i s) as (s' & -> & Hs'); [by left | done |].
    apply IH; [done |]. intros j t Hj. apply Hb. by right.
Qed.

(** Running a member: its binds down to the matches on outcomes. *)
Tactic Notation "run" reference(member) :=
  unfold member, mbind, M_bind, lift, modify, get, GPModel.throws.

Lemma set_row_cases (m : MatrixXd) (i : nat) (v : VectorXd) :
  match set_row m i v with
  | Ok m' => i < rows m ∧ length v = cols m ∧ cols m' = cols m ∧ rows m' = rows m
  | Err e => e = Assertion
  end.
Proof.
  unfold set_row, ensure. repeat case_bool_decide; simpl; try done.
  unfold rows. simpl. by rewrite length_insert.
Qed.

Section Matrices.
Context `{Indeterminate}.

Lemma _to_matrix_eq (xs : list VectorXd) (x0 : VectorXd) :
  head xs = Some x0 → Forall (λ x, length x = length x0) xs →
  GPModel._to_matrix xs = Ok (Matrix (length x0) xs).
Proof.
  intros Hhd Hlen. unfold GPModel._to_matrix.
  rewrite (vector_at_lookup _ _ x0) by (by rewrite <- head_lookup). simpl.
  set (n := length xs). set (c := length x0).
  replace (rows (Matrix_ n c)) with n by (unfold rows; simpl; by rewrite length_replicate).
  edestruct (for_inv
    (λ i result, result = Matrix c (take i xs ++ replicate (n - i) (replicate c junk))))
    as (m & -> & Hm).
  - unfold Matrix_. by rewrite Nat.sub_0_r.
  - intros i result Hi ->.
    destruct (lookup_lt_is_Some_2 xs i) as [x Hx]; [lia |].
    rewrite (vector_at_lookup _ _ _ Hx). simpl.
    rewrite set_row_fill; [| by rewrite length_take; lia | lia |].
    + eexists. split; [done |]. by rewrite (take_S_r _ _ _ Hx).
    + rewrite Forall_forall in Hlen. apply Hlen. by eapply list_elem_of_lookup_2.
  - simpl in Hm. replace (n - n) with 0 in Hm by lia. simpl in Hm.
    rewrite app_nil_r in Hm. subst. unfold n. by rewrite firstn_all.
Qed.

Lemma _to_matrix_total (xs : list VectorXd) (x0 : VectorXd) :
  head xs = Some x0 →
  match GPModel._to_matrix xs with
  | Ok m => Forall (λ x, length x = length x0) xs
  | Err e => e = Assertion
  end.
Proof.
  intros Hhd. unfold GPModel._to_matrix.
  rewrite (vector_at_lookup _ _ x0) by (by rewrite <- head_lookup). simpl.
  set (n := length xs). set (c := length x0).
  assert (rows (Matrix_ n c) = n) as Hrows
    by (unfold rows; simpl; by rewrite length_replicate).
  rewrite Hrows.
  set (I := λ i result, cols result = c ∧ rows result = n ∧
                        Forall (λ x, length x = c) (take i xs)).
  assert (I 0 (Matrix_ n c)) as Hinit by done.
  assert (∀ i result, 0 ≤ i < 0 + n → I i result →
          match x ← vector_at xs i; set_row result i x with
          | Ok result' => I (S i) result'
          | Err e => e = Assertion
          end) as Hstep.
  { intros i result Hi (Hc & Hr & Hall). unfold I.
    destruct (lookup_lt_is_Some_2 xs i) as [x Hx]; [lia |].
    rewrite (vector_at_lookup _ _ _ Hx). simpl.
    pose proof (set_row_cases result i x) as Hsr.
    destruct (set_row result i x); [| done].
    destruct Hsr as (_ & Hl & -> & ->). split; [done |]. split; [done |].
    rewrite (take_S_r _ _ _ Hx). apply Forall_app. split; [done |].
    apply Forall_singleton. congruence. }
  pose proof (for_inv_total I (λ e, e = Assertion) _ 0 n _ Hinit Hstep) as Hfor.
  destruct (for_ _ 0 n _) as [m|e]; [| done].
  destruct Hfor as (_ & _ & Hall). unfold n in Hall. simpl in Hall.
  by rewrite firstn_all in Hall.
Qed.

Lemma assemble_total (observations : list transition) (o0 : transition) :
  head observations = Some o0 →
  match GPModel.assemble observations with
  | Ok _ => Forall (λ o, length (target_of o) = length (target_of o0)) observations
  | Err e => e = Assertion
  end.
Proof.
  intros Hhd. unfold GPModel.assemble.
  rewrite (vector_at_lookup _ _ o0) by (by rewrite <- head_lookup). simpl.
  set (n := length observations). set (c := length o0.2).
  match goal with |- context [for_ ?b 0 n ?a] =>
    pose proof (for_inv_total
      (λ i '(samples, obs), cols obs = c ∧ rows obs = n ∧
         Forall (λ o, length (target_of o) = c) (take i observations))
      (λ e, e = Assertion) b 0 n a) as Hfor
  end.
  simpl in Hfor.
  assert (∀ i a, 0 ≤ i < n →
    (let '(_, obs) := a in cols obs = c ∧ rows obs = n ∧
       Forall (λ o, length (target_of o) = c) (take i observations)) →
    match (let '(samples, obs) := a in
           o ← vector_at observations i;
           let '(st, act, pred) := o in
           s ← set_head (Vector (length st + length act)) st;
           s ← set_tail s act;
           obs ← set_row obs i pred;
           Ok (samples ++ [s], obs))
    with
    | Ok (_, obs) => cols obs = c ∧ rows obs = n ∧
                     Forall (λ o, length (target_of o) = c) (take (S i) observations)
    | Err e => e = Assertion
    end) as Hstep.
  { intros i [samples obs] Hi (Hc & Hr & Hall).
    destruct (lookup_lt_is_Some_2 observations i) as [[[st act] pred] Ho]; [lia |].
    rewrite (vector_at_lookup _ _ _ Ho). simpl.
    pose proof (head_tail st act) as Hht. simpl in Hht.
    destruct (set_head _ st) as [s|]; [| done]. simpl in *. rewrite Hht. simpl.
    pose proof (set_row_cases obs i pred) as Hsr.
    destruct (set_row obs i pred); [| done]. simpl.
    destruct Hsr as (_ & Hl & -> & ->). split; [done |]. split; [done |].
    rewrite (take_S_r _ _ _ Ho). apply Forall_app. split; [done |].
    apply Forall_singleton. unfold target_of. simpl. congruence. }
  assert (cols (Matrix_ n c) = c ∧ rows (Matrix_ n c) = n ∧
          Forall (λ o, length (target_of o) = c) (take 0 observations)) as Hinit.
  { split; [done |]. split; [| done]. unfold rows. simpl. by rewrite length_replicate. }
  specialize (Hfor Hinit Hstep).
  destruct (for_ _ 0 n _) as [[samples obs]|e]; [| done].
  destruct Hfor as (_ & _ & Hall). unfold n in Hall. by rewrite firstn_all in Hall.
Qed.

End Matrices.

(** ** Column statistics *)

Lemma mapM_result_ok {A B : Type} (f : A → result B) (l : list A) :
  (∀ x, x ∈ l → ∃ y, f x = Ok y) →
  ∃ k, mapM f l = Ok k ∧ length k = length l.
Proof.
  induction l as [|x l IH]; intros Hf; simpl.
  - by exists [].
  - destruct (Hf x) as [y ->]; [by left |]. simpl.
    destruct IH as (k & -> & Hk); [intros z Hz; apply Hf; by right |]. simpl.
    exists (y :: k). simpl. by rewrite Hk.
Qed.

Lemma col_ok (m : MatrixXd) (j : nat) :
  wf m → j < cols m →
  ∃ c, col m j = Ok c ∧ length (concat (coeffs c)) = rows m.
Proof.
  intros Hwf Hj. unfold col. rewrite ensure_true by done. simpl.
  unfold wf, rows in *. induction (coeffs m) as [|r l IH]; simpl.
  - by exists (Matrix 1 []).
  - apply Forall_cons in Hwf as [Hr Hl].
    destruct (lookup_lt_is_Some_2 r j) as [x Hx]; [lia |].
    rewrite (at_lookup _ _ _ Hx). simpl.
    destruct (IH Hl) as (c & Hc & Hlen).
    destruct (mapM _ l) as [k|]; [| done]. simpl in *.
    injection Hc as <-. simpl in Hlen.
    eexists. split; [done |]. simpl. by rewrite Hlen.
Qed.

Lemma colwise_mean_ok (m : MatrixXd) :
  wf m → rows m ≠ 0 → ∃ v, colwise_mean m = Ok v ∧ length v = cols m.
Proof.
  intros Hwf Hr. unfold colwise_mean.
  destruct (mapM_result_ok
    (λ j, c ← col m j; mean (concat (coeffs c))) (seq 0 (cols m)))
    as (k & Hk & Hlen).
  - intros j Hj. apply elem_of_seq in Hj.
    destruct (col_ok m j) as (c & -> & Hc); [done | lia |]. simpl.
    destruct (concat (coeffs c)) as [|x v]; [simpl in Hc; lia |].
    by eexists.
  - exists k. split; [done |]. by rewrite Hlen, length_seq.
Qed.

Lemma mapM_result_lookup {A B : Type} (f : A → result B) (l : list A) (k : list B)
    (i : nat) (x : A) :
  mapM f l = Ok k → l !! i = Some x → ∃ y, f x = Ok y ∧ k !! i = Some y.
Proof.
  revert k i. induction l as [|a l IH]; intros k i Hk Hi; [done |]. simpl in Hk.
  destruct (f a) as [b|] eqn:Hb; [| done]. simpl in Hk.
  destruct (mapM f l) as [k'|] eqn:Hk'; [| done]. simpl in Hk. injection Hk as <-.
  destruct i as [|i]; simpl in *.
  - injection Hi as <-. by exists b.
  - by apply IH.
Qed.

Lemma col_column (m : MatrixXd) (j : nat) (l : list float) :
  j < cols m → (λ r, r !! j) <$> coeffs m = Some <$> l →
  col m j = Ok (Matrix 1 ((λ x, [x]) <$> l)).
Proof.
  intros Hj Hl. unfold col. rewrite ensure_true by done. simpl.
  assert (mapM (λ r, x ← at_ r j; Ok [x]) (coeffs m) = Ok ((λ x, [x]) <$> l)) as ->;
    [| done].
  revert l Hl. induction (coeffs m) as [|r rs IH]; intros [|x l] Hl; try done.
  simpl in Hl. injection Hl as Hr Hl. simpl. rewrite (IH l Hl).
  unfold at_. by rewrite Hr.
Qed.

(** An entry of the column means: the sum of the column, from its first
    coefficient on, over the number of rows. *)
Lemma colwise_mean_entry (m : MatrixXd) (means : VectorXd) (j : nat)
    (x0 : float) (xs : list float) :
  colwise_mean m = Ok means → j < cols m →
  (λ r, r !! j) <$> coeffs m = Some <$> (x0 :: xs) →
  means !! j
  = Some (foldl PrimFloat.add x0 xs
          / PrimFloat.of_uint63 (Uint63.of_Z (Z.of_nat (rows m))))%float.
Proof.
  intros Hm Hj Hcol. unfold colwise_mean in Hm.
  destruct (mapM_result_lookup _ _ _ j j Hm) as (y & Hy & ->);
    [by apply lookup_seq_lt |].
  rewrite (col_column m j (x0 :: xs) Hj Hcol) in Hy. simpl in Hy.
  assert (concat (list_fmap float VectorXd (λ x, [x]) xs) = xs) as Hc.
  { clear. induction xs as [|x xs IH]; [done |]. simpl. by rewrite IH. }
  rewrite Hc in Hy. injection Hy as <-. unfold redux_sum, of_size.
  assert (rows m = S (length xs)) as ->; [| done].
  unfold rows. rewrite <- (length_fmap (λ r, r !! j)), Hcol. simpl.
  by rewrite length_fmap.
Qed.

Lemma block_all (c : nat) (xs : list VectorXd) :
  Forall (λ x, length x = c) xs →
  block (Matrix c xs) 0 0 (rows (Matrix c xs)) c = Ok (Matrix c xs).
Proof.
  intros Hxs. unfold block, rows. simpl.
  rewrite (ensure_true (_ ≤ length xs)) by done. simpl.
  rewrite ensure_true by done. simpl. do 2 f_equal.
  rewrite firstn_all, drop_0. induction Hxs as [|x l Hx _ IH]; [done |].
  rewrite fmap_cons, IH, drop_0, take_ge; [done | lia].
Qed.

(** ** [learn]: the cached targets and the statistics *)

Section Statistics.
Context `{Params} `{Indeterminate} `{BinaryMatrix} {G : Type} `{GP G}.
Context `{Schedule}.

Local Abbreviation D := (model_input_dim + action_dim).
Local Abbreviation World := (@GPModel.World G).

Lemma statistics_frame (samples : list VectorXd) (w : World) :
  let w' := (GPModel.statistics samples w).2 in
  GPModel._gp_models (GPModel.this w') = GPModel._gp_models (GPModel.this w) ∧
  GPModel._observations (GPModel.this w') = GPModel._observations (GPModel.this w) ∧
  GPModel.disk w' = GPModel.disk w.
Proof.
  run GPModel.statistics. simpl.
  destruct (GPModel._to_matrix samples) as [data|]; [| done].
  destruct (block data 0 0 _ _) as [samp|]; [| done].
  destruct (colwise_mean samp) as [means|]; [| done].
  by destruct (cwise_max _ _).
Qed.

Lemma statistics_abort (samples : list VectorXd) (w w' : World) (e : error) :
  GPModel.statistics samples w = (Err e, w') → ∃ f, e = Abort f.
Proof.
  run GPModel.statistics.
  destruct (GPModel._to_matrix samples) as [data|]; [| intros [= <- _]; eauto].
  destruct (block data 0 0 _ _) as [samp|]; [| intros [= <- _]; eauto].
  destruct (colwise_mean samp) as [means|]; [| intros [= <- _]; eauto].
  destruct (cwise_max _ _); [done | intros [= <- _]; eauto].
Qed.

Lemma statistics_eq `{!BinaryMatrixSpec} (samples : list VectorXd) (w : World) :
  samples ≠ [] → Forall (λ x, length x = D) samples →
  let samp := Matrix D samples in
  ∃ means, colwise_mean samp = Ok means ∧ length means = D ∧
    GPModel.statistics samples w
    = (Ok (),
       GPModel.set_limits
         (zip_with maxi (percentile (cwise_abs samp) 5) (percentile (cwise_abs samp) 95))
         (GPModel.set_sigmas (colwise_sig samp) (GPModel.set_means means w))).
Proof.
  intros Hne Hlen. destruct samples as [|s0 l] eqn:E; [done |]. rewrite <- E in *.
  assert (head samples = Some s0) as Hhd by (by subst).
  assert (length s0 = D) as Hs0.
  { rewrite Forall_forall in Hlen. apply Hlen. subst. by left. }
  destruct (colwise_mean_ok (Matrix D samples)) as (means & Hm & Hml).
  { done. }
  { unfold rows. simpl. subst. done. }
  exists means. split; [done |]. split; [done |].
  run GPModel.statistics.
  rewrite (_to_matrix_eq samples s0 Hhd) by (by rewrite Hs0).
  rewrite Hs0, block_all by done. rewrite Hm.
  unfold cwise_max. rewrite ensure_true by (by rewrite !percentile_length).
  done.
Qed.

Lemma only_limits_unfold (observations : list transition) (w : World) :
  GPModel.learn observations true w
  = match GPModel.assemble observations with
    | Ok (samples, obs) =>
        GPModel.statistics samples (GPModel.set_observations obs w)
    | Err e => (Err (Abort e), w)
    end.
Proof.
  run GPModel.learn.
  destruct (GPModel.assemble observations) as [[samples obs]|]; [| done].
  by destruct (GPModel.statistics samples _) as [[[]|] ?].
Qed.

Lemma only_limits_frame (observations : list transition) (w : World) :
  let w' := (GPModel.learn observations true w).2 in
  GPModel._gp_models (GPModel.this w') = GPModel._gp_models (GPModel.this w) ∧
  GPModel.disk w' = GPModel.disk w.
Proof.
  rewrite only_limits_unfold.
  destruct (GPModel.assemble observations) as [[samples obs]|]; [| done].
  destruct (statistics_frame samples (GPModel.set_observations obs w)) as (Hg & _ & Hd).
  done.
Qed.

(** C6. [learn] with [only_limits] set leaves every regressor and the
    files as they were, whatever the transitions; for a non-empty sequence
    whose targets have one length and whose samples have
    [model_input_dim + action_dim] coefficients it returns, having stored
    the column means, the column deviations and the limits of the new
    samples. Entry by entry, a mean is the sum of the column (from its
    first coefficient on) over the number of samples, and a limit is the
    larger of the two percentiles of the absolute values. *)
Theorem learn_only_limits (observations : list transition) (w : World) :
  let w' := (GPModel.learn observations true w).2 in
  GPModel._gp_models (GPModel.this w') = GPModel._gp_models (GPModel.this w) ∧
  GPModel.disk w' = GPModel.disk w ∧
  (BinaryMatrixSpec → observations ≠ [] → targets_agree observations = true →
   Forall (λ o, length (sample_of o) = D) observations →
   let samp := Matrix D (sample_of <$> observations) in
   GPModel.learn observations true w = (Ok (), w') ∧
   colwise_mean samp = Ok (GPModel._means (GPModel.this w')) ∧
   GPModel._sigmas (GPModel.this w') = colwise_sig samp ∧
   cwise_max (percentile (cwise_abs samp) 5) (percentile (cwise_abs samp) 95)
   = Ok (GPModel._limits (GPModel.this w')) ∧
   (∀ j x0 xs,
      (λ s, s !! j) <$> (sample_of <$> observations) = Some <$> (x0 :: xs) →
      GPModel._means (GPModel.this w') !! j
      = Some (foldl PrimFloat.add x0 xs
              / PrimFloat.of_uint63 (Uint63.of_Z (Z.of_nat (length observations))))%float) ∧
   (let abs_samp := Matrix D (map PrimFloat.abs <$> (sample_of <$> observations)) in
    ∀ j a b, percentile abs_samp 5 !! j = Some a → percentile abs_samp 95 !! j = Some b →
      GPModel._limits (GPModel.this w') !! j = Some (if (a <? b)%float then b else a))).
Proof.
  destruct (only_limits_frame observations w) as [Hg Hd].
  split; [done |]. split; [done |]. clear Hg Hd.
  intros Hspec Hne Hc Hlen. rewrite only_limits_unfold.
  destruct observations as [|o0 l] eqn:E; [done |]. rewrite <- E in *.
  assert (head observations = Some o0) as Hhd by (by subst).
  rewrite (assemble_eq _ o0 Hhd) by (intros o; by apply targets_agree_spec).
  edestruct (statistics_eq (sample_of <$> observations)) as (means & Hm & _ & ->).
  { subst. done. }
  { by apply Forall_fmap. }
  simpl. split; [done |]. split; [done |]. split; [done |].
  split; [unfold cwise_max; by rewrite ensure_true by (by rewrite !percentile_length) |].
  split.
  - intros j x0 xs Hcol.
    rewrite (colwise_mean_entry _ means j x0 xs Hm); [| | done].
    + unfold rows. simpl. by rewrite length_fmap.
    + simpl. assert (length (sample_of o0) = D) as <-.
      { rewrite Forall_forall in Hlen. apply Hlen. subst. by left. }
      rewrite E in Hcol. simpl in Hcol. injection Hcol as Hx _.
      by eapply lookup_lt_Some.
  - intros j a b Ha Hb. unfold cwise_abs in *. simpl in *.
    by rewrite lookup_zip_with, Ha, Hb.
Qed.

End Statistics.

(** ** [learn]: the snapshot, the new regressors and their fit *)

Section Refit.
Context `{Params} `{Indeterminate} `{BinaryMatrix} {G : Type} `{GP G}.
Context `{Schedule}.

Local Abbreviation D := (model_input_dim + action_dim).
Local Abbreviation World := (@GPModel.World G).
Local Abbreviation gps w := (GPModel._gp_models (GPModel.this w)).

Lemma same_cache_trans (w1 w2 w3 : World) :
  same_cache w1 w2 → same_cache w2 w3 → same_cache w1 w3.
Proof. unfold same_cache. congruence. Qed.

(** One iteration of the fit, whatever its outcome: it touches its own
    regressor only, and only an iteration that found a regressor and its
    column can throw. *)
Lemma fit_cases (samples : list VectorXd) (obs : MatrixXd) (i : nat) (w : World) :
  match GPModel.fit samples obs (noises_of samples) i w with
  | (r, w') =>
      same_cache w w' ∧ length (gps w') = length (gps w) ∧
      (∀ j, j ≠ i → gps w' !! j = gps w !! j) ∧
      (∀ k, r = Err (Thrown k) → k = i ∧ i < cols obs) ∧
      match gps w !! i with
      | None => gps w' !! i = None ∧ r ≠ Ok ()
      | Some g =>
          g = gp_new model_input_dim 1 →
          ∃ g', gps w' !! i = Some g' ∧
            match r with
            | Ok _ => fitted_on samples obs i g'
            | Err _ => g' = gp_new model_input_dim 1 ∨ computed_on samples obs i g'
            end
      end
  end.
Proof.
  run GPModel.fit.
  destruct (gps w !! i) as [g|] eqn:Hg; unfold vector_at; rewrite Hg; simpl.
  2:{ repeat (split; [done |]). done. }
  assert (i < length (gps w)) as Hlt by (by eapply lookup_lt_Some).
  destruct (col obs i) as [c|f] eqn:Hcol; simpl.
  2:{ repeat (split; [done |]). intros ->. exists (gp_new model_input_dim 1). by split; [| left]. }
  assert (i < cols obs) as Hi.
  { revert Hcol. unfold col, ensure. by case_bool_decide. }
  destruct (GPModel._to_vector c) as [ys|f] eqn:Hys; simpl.
  2:{ repeat (split; [done |]). intros ->. exists (gp_new model_input_dim 1). by split; [| left]. }
  destruct (gp_compute g samples ys _ false) as [g1|] eqn:Hg1; simpl.
  2:{ split; [done |]. split; [done |]. split; [done |].
      split; [by intros k [= <-] |].
      intros ->. exists (gp_new model_input_dim 1). by split; [| left]. }
  destruct (gp_optimize_hyperparams g1) as [g2|] eqn:Hg2; simpl.
  - split; [done |]. split; [by rewrite !length_insert |].
    split; [intros j Hj; by rewrite !list_lookup_insert_ne |]. split; [done |].
    intros ->. exists g2. rewrite list_insert_insert_eq.
    split; [by rewrite list_lookup_insert_eq |]. exists g1. split; [by exists c, ys | done].
  - split; [done |]. split; [by rewrite length_insert |].
    split; [intros j Hj; by rewrite list_lookup_insert_ne |].
    split; [by intros k [= <-] |].
    intros ->. exists g1. split; [by rewrite list_lookup_insert_eq |].
    right. by exists c, ys.
Qed.

(** What the loop of the fit keeps, whatever the schedule. *)
Lemma fit_par_frame (samples : list VectorXd) (obs : MatrixXd) (order : list nat)
    (started : nat) (w0 : World) :
  let w' := (par_each (GPModel.fit samples obs (noises_of samples)) order started w0).2 in
  same_cache w0 w' ∧ length (gps w') = length (gps w0).
Proof.
  apply (par_each_pres (λ w', same_cache w0 w' ∧ length (gps w') = length (gps w0)));
    [done |].
  intros i w [Hc Hl]. pose proof (fit_cases samples obs i w) as Hf.
  destruct (GPModel.fit samples obs _ i w) as [r w']. simpl.
  destruct Hf as (Hc' & Hl' & _). split; [by eapply same_cache_trans | congruence].
Qed.

(** The loop of the fit over iterations taken once each, from new
    regressors: those of the iterations taken are fitted when it returns;
    when an iteration throws, each regressor is new, computed or fitted,
    and the one that threw is not fitted. *)
Lemma fit_par (samples : list VectorXd) (obs : MatrixXd) (order : list nat)
    (started : nat) (w0 : World) :
  NoDup order → fit_upto samples obs 0 w0 →
  match par_each (GPModel.fit samples obs (noises_of samples)) order started w0 with
  | (Ok _, w') =>
      ∀ j g, gps w' !! j = Some g →
        (j ∈ order → fitted_on samples obs j g) ∧
        (j ∉ order → g = gp_new model_input_dim 1)
  | (Err e, w') => ∀ k, e = Thrown k → fit_interrupted samples obs k w'
  end.
Proof.
  intros Hnd [Hlen Hnew].
  set (I := λ (visited : list nat) (w : World),
    length (gps w) = model_pred_dim ∧
    ∀ j g, gps w !! j = Some g →
      (j ∈ visited → fitted_on samples obs j g) ∧
      (j ∉ visited → g = gp_new model_input_dim 1)).
  set (J := λ (e : error) (visited : list nat) (w : World),
    length (gps w) = model_pred_dim ∧
    (∀ j g, gps w !! j = Some g →
       (g = gp_new model_input_dim 1 ∨ computed_on samples obs j g ∨
        fitted_on samples obs j g) ∧
       (j ∉ visited → g = gp_new model_input_dim 1)) ∧
    ∀ k, e = Thrown k →
      k ∈ visited ∧ k < cols obs ∧
      ∀ g, gps w !! k = Some g →
        g = gp_new model_input_dim 1 ∨ computed_on samples obs k g).
  assert (∀ visited i w, i ∈ order → i ∉ visited → I visited w →
          match GPModel.fit samples obs (noises_of samples) i w with
          | (Ok _, w') => I (i :: visited) w'
          | (Err e, w') => J e (i :: visited) w'
          end) as Hstep.
  { intros visited i w _ Hi [Hl HI].
    pose proof (fit_cases samples obs i w) as Hf.
    destruct (GPModel.fit samples obs _ i w) as [r w'].
    destruct Hf as (_ & Hl' & Hother & Hthrown & Hown).
    assert (∀ j h, j ≠ i → gps w' !! j = Some h →
            (j ∈ i :: visited → fitted_on samples obs j h) ∧
            (j ∉ i :: visited → h = gp_new model_input_dim 1)) as Hrest.
    { intros j h Hne Hh. rewrite Hother in Hh by done.
      destruct (HI j h Hh) as [Hin Hout]. split.
      - intros [->|?]%elem_of_cons; [done | by apply Hin].
      - intros Hn. apply Hout. intros ?. apply Hn. by right. }
    destruct (gps w !! i) as [g|] eqn:Hg.
    - destruct Hown as (g' & Hg' & Hr); [by apply (HI i g Hg) |].
      destruct r as [[]|e].
      + split; [congruence |]. intros j h Hh. destruct (decide (j = i)) as [->|Hne].
        * rewrite Hg' in Hh. injection Hh as <-. split; [done |]. intros []. by left.
        * by apply Hrest.
      + split; [congruence |]. split.
        * intros j h Hh. destruct (decide (j = i)) as [->|Hne].
          -- rewrite Hg' in Hh. injection Hh as <-.
             split; [destruct Hr; auto |]. intros []. by left.
          -- destruct (Hrest j h Hne Hh) as [Hin Hout]. split; [| done].
             destruct (decide (j ∈ i :: visited)); [right; right; by apply Hin |].
             left. by apply Hout.
        * intros k ->. destruct (Hthrown k eq_refl) as [-> Hlt]. split; [by left |].
          split; [done |]. intros h Hh. rewrite Hg' in Hh. by injection Hh as <-.
    - destruct Hown as [Hnone Hr]. destruct r as [[]|e]; [done |].
      split; [congruence |]. split.
      * intros j h Hh. assert (j ≠ i) as Hne by (intros ->; congruence).
        destruct (Hrest j h Hne Hh) as [Hin Hout]. split; [| done].
        destruct (decide (j ∈ i :: visited)); [right; right; by apply Hin |].
        left. by apply Hout.
      * intros k ->. destruct (Hthrown k eq_refl) as [-> Hlt]. split; [by left |].
        split; [done |]. intros h Hh. congruence. }
  assert (∀ e visited i w, i ∈ order → i ∉ visited → J e visited w →
          J e (i :: visited) (GPModel.fit samples obs (noises_of samples) i w).2)
    as Hdrain.
  { intros e visited i w _ Hi (Hl & HJ & Hk).
    pose proof (fit_cases samples obs i w) as Hf.
    destruct (GPModel.fit samples obs _ i w) as [r w']. simpl.
    destruct Hf as (_ & Hl' & Hother & _ & Hown).
    split; [congruence |]. split.
    - intros j h Hh. destruct (decide (j = i)) as [->|Hne].
      + split; [| intros []; by left].
        destruct (gps w !! i) as [g|] eqn:Hg; [| destruct Hown; congruence].
        destruct Hown as (g' & Hg' & Hr); [by apply (HJ i g Hg) |].
        rewrite Hg' in Hh. injection Hh as <-.
        destruct r as [[]|?]; [right; by right | destruct Hr; auto].
      + rewrite Hother in Hh by done. destruct (HJ j h Hh) as [Ha Hb].
        split; [done |]. intros Hn. apply Hb. intros ?. apply Hn. by right.
    - intros k Hk'. destruct (Hk k Hk') as (Hin & Hlt & Hg).
      split; [by right |]. split; [done |]. intros h Hh.
      assert (k ≠ i) as Hne by (by intros ->).
      rewrite Hother in Hh by done. by apply Hg. }
  assert (I [] w0) as Hinit.
  { split; [done |]. intros j g Hg. split; [by intros ?%elem_of_nil |].
    intros _. apply (Hnew j g Hg). lia. }
  pose proof (par_each_inv I J _ order started [] w0 Hnd
                (λ i _, not_elem_of_nil i) Hinit Hstep Hdrain) as Hpar.
  destruct (par_each _ order started w0) as [[[]|e] w'].
  - rewrite app_nil_r in Hpar. destruct Hpar as [_ Hpar]. intros j g Hg.
    destruct (Hpar j g Hg) as [Hin Hout]. split.
    + intros Hj. apply Hin. by apply elem_of_reverse.
    + intros Hj. apply Hout. by rewrite elem_of_reverse.
  - destruct Hpar as (visited & Hl & HJ & Hk). intros k ->.
    destruct (Hk k eq_refl) as (_ & Hlt & Hg). split; [done |]. split; [done |].
    intros j g Hj. split; [by apply (HJ j g Hj) |]. intros ->. by apply Hg.
Qed.

Lemma print_loop (n : nat) (w : World) :
  match forM_ GPModel.print_h_params 0 n w with
  | (Ok _, w') => w' = w
  | (Err e, w') => w' = w ∧ ∀ k, e ≠ Thrown k
  end.
Proof.
  apply (forM_inv (λ _ w', w' = w) (λ e w', w' = w ∧ ∀ k, e ≠ Thrown k)); [done |].
  intros i ? _ ->. run GPModel.print_h_params. unfold vector_at.
  destruct (gps w !! i) as [g|]; [| done].
  unfold ensure. by case_bool_decide.
Qed.

Lemma fit_upto_init (samples : list VectorXd) (obs : MatrixXd) (w : World) :
  fit_upto samples obs 0 (GPModel.init w).
Proof.
  split; simpl; [by rewrite length_replicate |].
  intros j g [-> _]%lookup_replicate. split; [lia | done].
Qed.

Lemma schedule_fit_upto `{!ScheduleSpec} (samples : list VectorXd) (obs : MatrixXd)
    (w : World) :
  length (gps w) = model_pred_dim →
  (∀ j g, gps w !! j = Some g →
     (j ∈ (schedule (cols obs)).1 → fitted_on samples obs j g) ∧
     (j ∉ (schedule (cols obs)).1 → g = gp_new model_input_dim 1)) →
  fit_upto samples obs (cols obs) w.
Proof.
  intros Hl Hw. split; [done |]. intros j g Hg. destruct (Hw j g Hg) as [Hin Hout].
  pose proof (schedule_perm (cols obs)) as Hp. split; intros Hj.
  - apply Hin. rewrite Hp, elem_of_seq. lia.
  - apply Hout. rewrite Hp, elem_of_seq. lia.
Qed.

(** Every way [refit] ends: before the file is written, or with the file
    written and all regressors replaced. What the regressors then are is
    known of a schedule that takes every iteration once. *)
Lemma refit_total (samples : list VectorXd) (obs : MatrixXd) (w : World) :
  match GPModel.refit samples obs w with
  | (Ok _, w') =>
      ∃ data2, GPModel.snapshot samples obs = Ok data2 ∧
        same_cache (GPModel.write_file "medrops_data.bin" (Binary data2) w) w' ∧
        length (gps w') = model_pred_dim ∧
        (ScheduleSpec → fit_upto samples obs (cols obs) w')
  | (Err e, w') =>
      (w' = w ∧ ∃ f, e = Abort f ∧ GPModel.snapshot samples obs = Err f) ∨
      (∃ data2, GPModel.snapshot samples obs = Ok data2 ∧
         same_cache (GPModel.write_file "medrops_data.bin" (Binary data2) w) w' ∧
         length (gps w') = model_pred_dim ∧
         (ScheduleSpec → ∀ k, e = Thrown k → fit_interrupted samples obs k w'))
  end.
Proof.
  run GPModel.refit.
  destruct (GPModel.snapshot samples obs) as [data2|f]; [| left; eauto].
  set (w0 := GPModel.init (GPModel.write_file _ _ w)).
  unfold parallel_for.
  pose proof (fit_par_frame samples obs (schedule (cols obs)).1 (schedule (cols obs)).2 w0)
    as [Hc Hl].
  assert (ScheduleSpec →
          match par_each (GPModel.fit samples obs (noises_of samples))
                  (schedule (cols obs)).1 (schedule (cols obs)).2 w0 with
          | (Ok _, w') => fit_upto samples obs (cols obs) w'
          | (Err e, w') => ∀ k, e = Thrown k → fit_interrupted samples obs k w'
          end) as Hfit.
  { intros Hspec.
    pose proof (fit_par samples obs (schedule (cols obs)).1 (schedule (cols obs)).2 w0)
      as Hp.
    destruct (par_each _ _ _ w0) as [[[]|e] w1]; simpl in Hl.
    - apply schedule_fit_upto; [by rewrite Hl; simpl; rewrite length_replicate |].
      apply Hp; [| apply fit_upto_init].
      rewrite (schedule_perm (cols obs)). apply NoDup_seq.
    - apply Hp; [| apply fit_upto_init].
      rewrite (schedule_perm (cols obs)). apply NoDup_seq. }
  unfold noises_of in *.
  destruct (par_each _ _ _ w0) as [[[]|e] w1]; simpl in Hc, Hl.
  - pose proof (print_loop (cols obs) w1) as Hp.
    assert (length (gps w1) = model_pred_dim) as Hn
      by (rewrite Hl; simpl; by rewrite length_replicate).
    destruct (forM_ GPModel.print_h_params _ _ w1) as [[[]|e] w2].
    + subst w2. by exists data2.
    + destruct Hp as [-> Hp]. right. exists data2. split; [done |]. split; [done |].
      split; [done |]. intros _ k ->. by destruct (Hp k).
  - right. exists data2. split; [done |]. split; [done |].
    split; [rewrite Hl; simpl; by rewrite length_replicate | done].
Qed.

Lemma refit_cache (samples : list VectorXd) (obs : MatrixXd) (w : World) :
  let w' := (GPModel.refit samples obs w).2 in
  GPModel._observations (GPModel.this w') = GPModel._observations (GPModel.this w) ∧
  GPModel._means (GPModel.this w') = GPModel._means (GPModel.this w) ∧
  GPModel._sigmas (GPModel.this w') = GPModel._sigmas (GPModel.this w) ∧
  GPModel._limits (GPModel.this w') = GPModel._limits (GPModel.this w).
Proof.
  pose proof (refit_total samples obs w) as Hr.
  destruct (GPModel.refit samples obs w) as [[[]|e] w']; simpl.
  - destruct Hr as (data2 & _ & Hc & _). unfold same_cache in Hc.
    injection Hc; intros; repeat split; congruence.
  - destruct Hr as [[-> _]|(data2 & _ & Hc & _)]; [done |]. unfold same_cache in Hc.
    injection Hc; intros; repeat split; congruence.
Qed.

End Refit.

(** ** [learn] as a whole *)

Section Learn.
Context `{Params} `{Indeterminate} `{BinaryMatrix} {G : Type} `{GP G}.
Context `{Schedule}.

Local Abbreviation D := (model_input_dim + action_dim).
Local Abbreviation World := (@GPModel.World G).
Local Abbreviation gps w := (GPModel._gp_models (GPModel.this w)).

Lemma learn_unfold (observations : list transition) (only_limits : bool) (w : World) :
  GPModel.learn observations only_limits w
  = match GPModel.assemble observations with
    | Ok (samples, obs) =>
        match GPModel.statistics samples (GPModel.set_observations obs w) with
        | (Ok _, w1) => if only_limits then (Ok (), w1) else GPModel.refit samples obs w1
        | (Err e, w1) => (Err e, w1)
        end
    | Err f => (Err (Abort f), w)
    end.
Proof.
  run GPModel.learn.
  destruct (GPModel.assemble observations) as [[samples obs]|]; [| done].
  destruct (GPModel.statistics samples _) as [[[]|] ?]; [| done]. by destruct only_limits.
Qed.

Lemma assemble_inv (observations : list transition) (samples : list VectorXd)
    (obs : MatrixXd) :
  GPModel.assemble observations = Ok (samples, obs) →
  ∃ o0, head observations = Some o0 ∧
    Forall (λ o, length (target_of o) = length (target_of o0)) observations ∧
    samples = sample_of <$> observations ∧
    obs = Matrix (length (target_of o0)) (target_of <$> observations).
Proof.
  intros Ha. destruct observations as [|o0 l] eqn:E; [done |]. rewrite <- E in *.
  assert (head observations = Some o0) as Hhd by (by subst).
  pose proof (assemble_total observations o0 Hhd) as Ht. rewrite Ha in Ht.
  exists o0. split; [done |]. split; [done |].
  rewrite (assemble_eq observations o0 Hhd) in Ha.
  - by injection Ha as <- <-.
  - intros o Ho. rewrite Forall_forall in Ht. by apply Ht.
Qed.

(** C7. After [learn] on a non-empty sequence whose targets have one length
    and whose samples have [model_input_dim + action_dim] coefficients,
    whatever [only_limits] and however the fit ends, the limits have one
    entry per column of the sample matrix: the larger of the 5th and the
    95th percentile of the matrix of the absolute values of the samples
    (the 95th when the 5th is less, else the 5th). *)
Theorem learn_limits (observations : list transition) (only_limits : bool) (w : World) :
  BinaryMatrixSpec → observations ≠ [] → targets_agree observations = true →
  Forall (λ o, length (sample_of o) = D) observations →
  let abs_samp := Matrix D (map PrimFloat.abs <$> (sample_of <$> observations)) in
  let pl := percentile abs_samp 5 in
  let ph := percentile abs_samp 95 in
  let w' := (GPModel.learn observations only_limits w).2 in
  length (GPModel.limits (GPModel.this w')) = D ∧
  length pl = D ∧ length ph = D ∧
  ∀ j a b, pl !! j = Some a → ph !! j = Some b →
    GPModel.limits (GPModel.this w') !! j = Some (if (a <? b)%float then b else a).
Proof.
  intros Hspec Hne Hc Hlen abs_samp pl ph w'.
  assert (length pl = D ∧ length ph = D) as [Hpl Hph]
    by (unfold pl, ph; by rewrite !percentile_length).
  assert (GPModel.limits (GPModel.this w')
          = zip_with (λ a b, if (a <? b)%float then b else a) pl ph) as ->.
  { unfold w'. rewrite learn_unfold.
    destruct (head_nonempty observations Hne) as [o0 Hhd].
    rewrite (assemble_eq _ o0 Hhd) by (intros o; by apply targets_agree_spec).
    edestruct (statistics_eq (sample_of <$> observations)
                 (GPModel.set_observations
                    (Matrix (length (target_of o0)) (target_of <$> observations)) w))
      as (means & Hm & _ & ->).
    { by destruct observations. }
    { by apply Forall_fmap. }
    destruct only_limits; simpl; [done |].
    match goal with |- context [GPModel.refit ?s ?o ?w1] =>
      destruct (refit_cache s o w1) as (_ & _ & _ & Hlim) end.
    unfold GPModel.limits. simpl in Hlim. by rewrite Hlim. }
  split; [rewrite length_zip_with; lia |]. split; [done |]. split; [done |].
  intros j a b Ha Hb. by rewrite lookup_zip_with, Ha, Hb.
Qed.

(** C3, as the code has it. When a regressor throws during the fit, nothing
    is restored, whatever the schedule of the parallel loop (as long as it
    takes every iteration once): the cached targets and the statistics are
    those of the new transitions, the snapshot file is written, and every
    regressor is one that [init] created during this call, possibly
    computed or fitted on the new data since; the one that threw is not
    fitted. None is a regressor of before the call. *)
Theorem learn_thrown (observations : list transition) (w w' : World) (k : nat) :
  ScheduleSpec →
  GPModel.learn observations false w = (Err (Thrown k), w') →
  ∃ o0 w1 data2,
    let samples := sample_of <$> observations in
    let obs := Matrix (length (target_of o0)) (target_of <$> observations) in
    head observations = Some o0 ∧
    GPModel.statistics samples (GPModel.set_observations obs w) = (Ok (), w1) ∧
    GPModel.snapshot samples obs = Ok data2 ∧
    same_cache (GPModel.write_file "medrops_data.bin" (Binary data2) w1) w' ∧
    GPModel._observations (GPModel.this w') = obs ∧
    fit_interrupted samples obs k w'.
Proof.
  intros Hspec. rewrite learn_unfold. intros Hl.
  destruct (GPModel.assemble observations) as [[samples obs]|] eqn:Ha; [| done].
  apply assemble_inv in Ha as (o0 & Hhd & _ & -> & ->).
  pose proof (statistics_frame (sample_of <$> observations)
    (GPModel.set_observations
       (Matrix (length (target_of o0)) (target_of <$> observations)) w)) as (_ & Ho & _).
  destruct (GPModel.statistics _ _) as [[[]|e] w1] eqn:Hs.
  2:{ injection Hl as -> ->. by apply statistics_abort in Hs as [f [=]]. }
  pose proof (refit_total (sample_of <$> observations)
    (Matrix (length (target_of o0)) (target_of <$> observations)) w1) as Hr.
  rewrite Hl in Hr. destruct Hr as [(_ & f & [=] & _)|(data2 & Hd & Hc & _ & Hk)].
  exists o0, w1, data2. simpl. split; [done |]. split; [done |]. split; [done |].
  split; [done |]. split; [| by apply Hk].
  simpl in Ho. rewrite <- Ho. unfold same_cache in Hc. injection Hc; intros; congruence.
Qed.

End Learn.

(** ** [save_data] *)

Lemma spaced_snoc (l : list token) (x : token) :
  spaced (l ++ [x]) = match l with [] => [x] | _ :: _ => spaced l ++ [Str " "; x] end.
Proof.
  induction l as [|y l IH]; [done |].
  simpl. destruct l as [|z l]; [done |]. simpl in *. by rewrite IH.
Qed.

Lemma unlines_snoc (ls : list (list token)) (l : list token) :
  unlines (ls ++ [l]) = match ls with [] => l | _ :: _ => unlines ls ++ Endl :: l end.
Proof.
  induction ls as [|k ls IH]; [done |].
  simpl. destruct ls as [|k' ls]; [done |]. simpl in *.
  by rewrite IH, <- app_assoc.
Qed.

Lemma dump_line_spaced (s o : VectorXd) :
  o ≠ [] → dump_line s o = spaced (Num <$> (s ++ o)).
Proof.
  intros Ho. unfold dump_line. induction s as [|x s IH]; [done |].
  simpl. rewrite IH. destruct (s ++ o) eqn:E; [| done].
  by apply app_eq_nil in E as [_ ->].
Qed.

Lemma dump_text_dump (samples targets : list VectorXd) :
  Forall (λ o, o ≠ []) targets → dump samples targets = text_dump samples targets.
Proof.
  intros Ht. unfold dump, text_dump. f_equal.
  revert samples. induction Ht as [|o targets Ho _ IH]; intros [|s samples]; try done.
  simpl. by rewrite IH, dump_line_spaced.
Qed.

Lemma save_samples_loop (samples : list VectorXd) (i : nat) (s : VectorXd)
    (out : list token) :
  samples !! i = Some s →
  for_ (λ j out, s ← vector_at samples i; x ← at_ s j; Ok (out ++ [Num x; Str " "]))
       0 (length s) out
  = Ok (out ++ flat_map (λ x, [Num x; Str " "]) s).
Proof.
  intros Hs.
  edestruct (for_inv
    (λ j o, o = out ++ flat_map (λ x, [Num x; Str " "]) (take j s)))
    as (o & -> & Ho).
  - simpl. by rewrite app_nil_r.
  - intros j o Hj ->. rewrite (vector_at_lookup _ _ _ Hs). simpl.
    destruct (lookup_lt_is_Some_2 s j) as [x Hx]; [lia |].
    rewrite (at_lookup _ _ _ Hx). simpl. eexists. split; [done |].
    by rewrite (take_S_r _ _ _ Hx), flat_map_app, <- app_assoc.
  - simpl in Ho. by rewrite firstn_all in Ho; subst.
Qed.

Lemma save_targets_loop (observations : MatrixXd) (i : nat) (r : VectorXd)
    (out : list token) :
  coeffs observations !! i = Some r → length r = cols observations →
  for_ (λ j out,
          let out := if bool_decide (j ≠ 0) then out ++ [Str " "] else out in
          x ← coeff observations i j;
          Ok (out ++ [Num x]))
       0 (cols observations) out
  = Ok (out ++ spaced (Num <$> r)).
Proof.
  intros Hr Hlen.
  edestruct (for_inv (λ j o, o = out ++ spaced (Num <$> take j r)))
    as (o & -> & Ho).
  - simpl. by rewrite app_nil_r.
  - intros j o Hj ->.
    destruct (lookup_lt_is_Some_2 r j) as [x Hx]; [lia |].
    unfold coeff, row. rewrite ensure_true by lia. rewrite Hr. simpl.
    rewrite (at_lookup _ _ _ Hx). simpl. eexists. split; [done |].
    rewrite (take_S_r _ _ _ Hx), fmap_app.
    change (Num <$> [x]) with [Num x]. rewrite spaced_snoc.
    destruct j as [|j]; case_bool_decide; try done.
    + rewrite take_0. simpl. by rewrite app_nil_r.
    + destruct r as [|y r]; [done |]. simpl. by rewrite <- !app_assoc.
  - simpl in Ho. rewrite <- Hlen, firstn_all in Ho. by subst.
Qed.

Section Save.
Context `{Params} `{Indeterminate} `{BinaryMatrix} {G : Type} `{GP G}.
Context `{Schedule}.

Lemma save_rows_eq (samples : list VectorXd) (observations : MatrixXd) (n : nat) :
  Forall (λ s, length s = n) samples → wf observations →
  length samples ≤ rows observations →
  GPModel.save_rows samples observations = Ok (dump samples (coeffs observations)).
Proof.
  intros Hs Hwf Hrows. unfold GPModel.save_rows.
  edestruct (for_inv
    (λ i out, out = dump (take i samples) (take i (coeffs observations))))
    as (out & -> & Hout).
  - done.
  - intros i out Hi ->.
    destruct (lookup_lt_is_Some_2 samples i) as [s Hsi]; [lia |].
    destruct (lookup_lt_is_Some_2 (coeffs observations) i) as [r Hr];
      [unfold rows in Hrows; lia |].
    destruct (lookup_lt_is_Some_2 samples 0) as [s0 Hs0]; [lia |].
    rewrite (vector_at_lookup _ _ _ Hs0). simpl.
    assert (length s0 = length s) as ->.
    { rewrite Forall_forall in Hs.
      rewrite (Hs s0), (Hs s); [done | |]; by eapply list_elem_of_lookup_2. }
    rewrite (save_samples_loop _ _ _ _ Hsi). simpl.
    rewrite (save_targets_loop _ _ r _ Hr).
    2:{ unfold wf in Hwf. rewrite Forall_forall in Hwf. apply Hwf.
        by eapply list_elem_of_lookup_2. }
    eexists. split; [done |].
    unfold dump. rewrite (take_S_r _ _ _ Hsi), (take_S_r _ _ _ Hr).
    rewrite zip_with_app by (rewrite !length_take; unfold rows in Hrows; lia).
    change (zip_with dump_line [s] [r]) with [dump_line s r]. rewrite unlines_snoc.
    destruct i as [|i]; case_bool_decide; try done.
    destruct samples as [|s1 samples]; [done |].
    destruct (coeffs observations) as [|r1 rs]; [done |]. simpl.
    generalize (zip_with dump_line (take i samples) (take i rs)). intros zs.
    rewrite <- !app_assoc. done.
  - simpl in Hout. rewrite firstn_all in Hout. subst. unfold dump.
    by rewrite zip_with_take_r.
Qed.

End Save.

(** ** The state a completed [learn] leaves *)

Lemma set_block_row_ok (m m' : MatrixXd) (i j c : nat) (v : VectorXd) :
  set_block_row m i j c v = Ok m' →
  length v = c ∧ cols m' = cols m ∧ rows m' = rows m.
Proof.
  unfold set_block_row, ensure, row. repeat case_bool_decide; simpl; try done.
  destruct (coeffs m !! i); simpl; [| done]. intros [= <-]. simpl.
  unfold rows. simpl. by rewrite length_insert.
Qed.

Section Fitted.
Context `{Params} `{Indeterminate} `{BinaryMatrix} {G : Type} `{GP G}.
Context `{Schedule}.

Local Abbreviation D := (model_input_dim + action_dim).
Local Abbreviation World := (@GPModel.World G).
Local Abbreviation gps w := (GPModel._gp_models (GPModel.this w)).

Lemma snapshot_inv (samples : list VectorXd) (obs data2 : MatrixXd) :
  GPModel.snapshot samples obs = Ok data2 →
  Forall (λ s, length s = D) samples ∧
  Forall (λ r, length r = model_pred_dim) (take (length samples) (coeffs obs)).
Proof.
  unfold GPModel.snapshot. destruct (vector_at samples 0) as [s0|]; [| done]. simpl.
  intros Hd.
  match type of Hd with for_ ?b 0 ?n ?a = _ =>
    pose proof (for_inv_total
      (λ i _, Forall (λ s, length s = D) (take i samples) ∧
              Forall (λ r, length r = model_pred_dim) (take i (coeffs obs)))
      (λ _, True) b 0 n a) as Hfor
  end.
  rewrite Hd in Hfor. simpl in Hfor. rewrite firstn_all in Hfor. apply Hfor; [done |].
  intros i d Hi [Hs Ho].
  destruct (lookup_lt_is_Some_2 samples i) as [s Hsi]; [lia |].
  rewrite (vector_at_lookup _ _ _ Hsi). simpl.
  destruct (set_block_row d i 0 _ s) as [d1|] eqn:Hb1; [| done]. simpl.
  unfold row. destruct (coeffs obs !! i) as [r|] eqn:Hr; [| done]. simpl.
  destruct (set_block_row d1 i _ _ r) as [d2|] eqn:Hb2; [| done].
  apply set_block_row_ok in Hb1 as [Hb1 _], Hb2 as [Hb2 _].
  rewrite (take_S_r _ _ _ Hsi), (take_S_r _ _ _ Hr).
  split; apply Forall_app; (split; [done |]); by apply Forall_singleton.
Qed.

(** All that later reads rely on, after a [learn] that fitted. *)
Lemma learn_fitted `{!GPSpec} `{Hsched : !ScheduleSpec} (observations : list transition)
    (w w' : World) :
  0 < model_pred_dim →
  GPModel.learn observations false w = (Ok (), w') →
  observations ≠ [] ∧
  Forall (λ o, length (sample_of o) = D) observations ∧
  Forall (λ o, length (target_of o) = model_pred_dim) observations ∧
  GPModel._observations (GPModel.this w')
  = Matrix model_pred_dim (target_of <$> observations) ∧
  ∃ g, gps w' !! 0 = Some g ∧ gp_samples g = sample_of <$> observations.
Proof.
  intros Hpos. rewrite learn_unfold. intros Hl.
  destruct (GPModel.assemble observations) as [[samples obs]|] eqn:Ha; [| done].
  apply assemble_inv in Ha as (o0 & Hhd & Hlen & -> & ->).
  pose proof (statistics_frame (sample_of <$> observations)
    (GPModel.set_observations
       (Matrix (length (target_of o0)) (target_of <$> observations)) w)) as (_ & Ho & _).
  destruct (GPModel.statistics _ _) as [[[]|e] w1] eqn:Hs; [| done].
  pose proof (refit_total (sample_of <$> observations)
    (Matrix (length (target_of o0)) (target_of <$> observations)) w1) as Hr.
  rewrite Hl in Hr. destruct Hr as (data2 & Hd & Hc & Hlenw & Hfit).
  apply snapshot_inv in Hd as [Hsl Htl]. simpl in Htl.
  rewrite length_fmap, <- (length_fmap target_of), firstn_all in Htl.
  apply Forall_fmap in Hsl, Htl.
  assert (length (target_of o0) = model_pred_dim) as Ho0.
  { rewrite Forall_forall in Htl. apply (Htl o0).
    destruct observations; [done |]. injection Hhd as ->. by left. }
  rewrite Ho0 in *.
  split; [by destruct observations |]. split; [done |]. split; [done |].
  split.
  { simpl in Ho. rewrite <- Ho. unfold same_cache in Hc. injection Hc; intros; congruence. }
  destruct (lookup_lt_is_Some_2 (gps w') 0) as [g Hg]; [lia |].
  exists g. split; [done |].
  destruct (Hfit Hsched) as [_ Hfit'].
  destruct (Hfit' 0 g Hg) as [Hfitted _].
  destruct Hfitted as (g1 & (c & ys & _ & _ & Hg1) & Hg2); [simpl; lia |].
  by rewrite (optimize_samples _ _ Hg2), (compute_samples _ _ _ _ _ _ Hg1).
Qed.

End Fitted.

Lemma save_rows_short (samples : list VectorXd) (observations : MatrixXd) (n : nat) :
  Forall (λ s, length s = n) samples → wf observations → 0 < cols observations →
  rows observations < length samples →
  GPModel.save_rows samples observations = Err Assertion.
Proof.
  intros Hs Hwf Hc Hrows.
  assert (match GPModel.save_rows samples observations with
          | Ok _ => length samples ≤ rows observations
          | Err e => e = Assertion
          end) as Hfor.
  { unfold GPModel.save_rows.
    apply (for_inv_total (λ i _, i ≤ rows observations) (λ e, e = Assertion)); [lia |].
    intros i out Hi Hle.
    destruct (lookup_lt_is_Some_2 samples i) as [s Hsi]; [lia |].
    destruct (lookup_lt_is_Some_2 samples 0) as [s0 Hs0]; [lia |].
    rewrite (vector_at_lookup _ _ _ Hs0). simpl.
    assert (length s0 = length s) as ->.
    { rewrite Forall_forall in Hs.
      rewrite (Hs s0), (Hs s); [done | |]; by eapply list_elem_of_lookup_2. }
    rewrite (save_samples_loop _ _ _ _ Hsi). simpl.
    destruct (decide (i < rows observations)) as [Hlt|Hge].
    - destruct (lookup_lt_is_Some_2 (coeffs observations) i) as [r Hr]; [done |].
      rewrite (save_targets_loop _ _ r _ Hr); [lia |].
      unfold wf in Hwf. rewrite Forall_forall in Hwf. apply Hwf.
      by eapply list_elem_of_lookup_2.
    - destruct (cols observations) as [|c] eqn:Ec; [lia |]. simpl.
      unfold coeff, row. rewrite Ec. simpl.
      rewrite lookup_ge_None_2; [done |]. unfold rows in *. lia. }
  destruct (GPModel.save_rows samples observations); [lia | by subst].
Qed.

Section SaveData.
Context `{Params} `{Indeterminate} `{BinaryMatrix} {G : Type} `{GP G}.
Context `{Schedule}.

Local Abbreviation D := (model_input_dim + action_dim).
Local Abbreviation World := (@GPModel.World G).
Local Abbreviation gps w := (GPModel._gp_models (GPModel.this w)).

Lemma save_data_eq (filename : string) (w : World) (g : G) (n : nat) :
  gps w !! 0 = Some g →
  Forall (λ s, length s = n) (gp_samples g) →
  wf (GPModel._observations (GPModel.this w)) →
  length (gp_samples g) ≤ rows (GPModel._observations (GPModel.this w)) →
  GPModel.save_data filename w
  = (Ok (),
     GPModel.write_file filename
       (Text (dump (gp_samples g) (coeffs (GPModel._observations (GPModel.this w)))))
       w).
Proof.
  intros Hg Hs Hwf Hrows.
  run GPModel.save_data.
  rewrite (vector_at_lookup _ _ _ Hg). simpl.
  rewrite (save_rows_eq _ _ n) by done.
  unfold GPModel.write_file. simpl. by rewrite insert_insert_eq.
Qed.



End SaveData.

Lemma insert_fill {A : Type} (l : list A) (n i : nat) (x y : A) :
  length l = i → i < n →
  <[i := y]> (l ++ replicate (n - i) x) = (l ++ [y]) ++ replicate (n - S i) x.
Proof.
  intros Hl Hi. replace (n - i) with (S (n - S i)) by lia. simpl.
  rewrite <- (Nat.add_0_r i) at 1. rewrite <- Hl at 1.
  rewrite insert_app_r. simpl. by rewrite <- app_assoc.
Qed.

(** ** [learn] returns *)

Lemma _to_vector_eq (m : MatrixXd) : GPModel._to_vector m = Ok (coeffs m).
Proof.
  unfold GPModel._to_vector, rows. set (n := length (coeffs m)).
  edestruct (for_inv
    (λ i result, result = take i (coeffs m) ++ replicate (n - i) []))
    as (rs & -> & Hrs).
  - by rewrite Nat.sub_0_r.
  - intros i result Hi ->.
    destruct (lookup_lt_is_Some_2 (coeffs m) i) as [r Hr]; [lia |].
    destruct (lookup_lt_is_Some_2 (take i (coeffs m) ++ replicate (n - i) []) i)
      as [r' Hr']; [rewrite length_app, length_take, length_replicate; lia |].
    rewrite (vector_at_lookup _ _ _ Hr'). unfold row. rewrite Hr. simpl.
    eexists. split; [done |].
    rewrite insert_fill by (rewrite ?length_take; lia).
    by rewrite (take_S_r _ _ _ Hr).
  - simpl in Hrs. replace (n - n) with 0 in Hrs by lia. simpl in Hrs.
    rewrite app_nil_r in Hrs. subst. unfold n. by rewrite firstn_all.
Qed.

Lemma set_block_row_returns (m : MatrixXd) (i j c : nat) (v : VectorXd) :
  i < rows m → j + c ≤ cols m → length v = c →
  ∃ m', set_block_row m i j c v = Ok m' ∧ cols m' = cols m ∧ rows m' = rows m.
Proof.
  intros Hi Hj Hv. unfold set_block_row, row.
  rewrite (ensure_true (i + 1 ≤ _)) by lia. simpl.
  rewrite (ensure_true (j + c ≤ _)) by lia. simpl.
  rewrite ensure_true by done. simpl.
  destruct (lookup_lt_is_Some_2 (coeffs m) i) as [r ->]; [done |]. simpl.
  eexists. split; [done |]. unfold rows. simpl. by rewrite length_insert.
Qed.

Section Completes.
Context `{Params} `{Indeterminate} `{BinaryMatrix} {G : Type} `{GP G}.
Context `{Schedule}.

Local Abbreviation D := (model_input_dim + action_dim).
Local Abbreviation World := (@GPModel.World G).
Local Abbreviation gps w := (GPModel._gp_models (GPModel.this w)).

Lemma snapshot_returns (samples : list VectorXd) (obs : MatrixXd) :
  samples ≠ [] → Forall (λ s, length s = D) samples →
  cols obs = model_pred_dim → wf obs → rows obs = length samples →
  ∃ data2, GPModel.snapshot samples obs = Ok data2.
Proof.
  intros Hne Hs Hc Hwf Hr. unfold GPModel.snapshot.
  destruct (head_nonempty samples Hne) as [s0 Hs0].
  rewrite (vector_at_lookup _ _ s0) by (by rewrite <- head_lookup). simpl.
  assert (length s0 = D) as ->.
  { rewrite Forall_forall in Hs. apply Hs. destruct samples; [done |].
    injection Hs0 as ->. by left. }
  edestruct (for_inv
    (λ (_ : nat) d, cols d = D + model_pred_dim ∧ rows d = length samples))
    as (d & -> & _); [| | by eexists].
  - rewrite Hc. unfold rows. simpl. by rewrite length_replicate.
  - intros i d Hi [Hcd Hrd].
    destruct (lookup_lt_is_Some_2 samples i) as [s Hsi]; [lia |].
    rewrite (vector_at_lookup _ _ _ Hsi). simpl.
    destruct (set_block_row_returns d i 0 D s) as (d1 & -> & Hc1 & Hr1); [lia | lia | |].
    { rewrite Forall_forall in Hs. apply Hs. by eapply list_elem_of_lookup_2. }
    simpl. destruct (lookup_lt_is_Some_2 (coeffs obs) i) as [r Hri];
      [unfold rows in Hr; lia |].
    unfold row. rewrite Hri. simpl.
    destruct (set_block_row_returns d1 i D model_pred_dim r) as (d2 & -> & Hc2 & Hr2);
      [lia | lia | |].
    { unfold wf in Hwf. rewrite Forall_forall in Hwf. rewrite <- Hc. apply Hwf.
      by eapply list_elem_of_lookup_2. }
    eexists. split; [done |]. split; congruence.
Qed.

Lemma fit_returns (samples : list VectorXd) (obs : MatrixXd) (noises : option VectorXd)
    (i : nat) (w : World) :
  wf obs → i < cols obs → i < length (gps w) →
  (∀ g s ys n, is_Some (gp_compute g s ys n false)) →
  (∀ g, is_Some (gp_optimize_hyperparams g)) →
  ∃ w', GPModel.fit samples obs noises i w = (Ok (), w') ∧
        length (gps w') = length (gps w).
Proof.
  intros Hwf Hi Hlen Hcomp Hopt.
  run GPModel.fit.
  destruct (lookup_lt_is_Some_2 (gps w) i) as [g Hg]; [done |].
  rewrite (vector_at_lookup _ _ _ Hg).
  destruct (col_ok obs i) as (c & -> & _); [done | done |].
  rewrite _to_vector_eq.
  destruct (Hcomp g samples (coeffs c) noises) as [g1 ->].
  destruct (Hopt g1) as [g2 ->]. simpl.
  eexists. split; [done |]. simpl. by rewrite !length_insert.
Qed.

(** X5. [learn] returns on a non-empty sequence of transitions of the
    dimensions of [Params] (each sample has [model_input_dim + action_dim]
    coefficients, each target [model_pred_dim]) when no regressor throws
    and the kernel has at least two hyperparameters, whatever the schedule
    of the parallel loop. *)
Lemma learn_completes `{!BinaryMatrixSpec} `{!ScheduleSpec}
    (observations : list transition) (w : World) :
  observations ≠ [] →
  Forall (λ o, length (sample_of o) = D) observations →
  Forall (λ o, length (target_of o) = model_pred_dim) observations →
  (∀ g s ys n, is_Some (gp_compute g s ys n false)) →
  (∀ g, is_Some (gp_optimize_hyperparams g)) →
  (∀ g, 2 ≤ length (gp_h_params g)) →
  ∃ w', GPModel.learn observations false w = (Ok (), w').
Proof.
  intros Hne Hs Ht Hcomp Hopt Hhp. rewrite learn_unfold.
  destruct (head_nonempty observations Hne) as [o0 Hhd].
  assert (length (target_of o0) = model_pred_dim) as Ho0.
  { rewrite Forall_forall in Ht. apply Ht. destruct observations; [done |].
    injection Hhd as ->. by left. }
  rewrite (assemble_eq _ o0 Hhd)
    by (intros o Ho; rewrite Forall_forall in Ht; rewrite Ho0; by apply Ht).
  rewrite Ho0.
  set (samples := sample_of <$> observations).
  set (obs := Matrix model_pred_dim (target_of <$> observations)).
  assert (wf obs) as Hwf by (unfold wf; simpl; by apply Forall_fmap).
  edestruct (statistics_eq samples (GPModel.set_observations obs w))
    as (means & _ & _ & ->).
  { by destruct observations. }
  { by apply Forall_fmap. }
  set (w1 := GPModel.set_limits _ _).
  destruct (snapshot_returns samples obs) as [data2 Hd]; try done.
  { by destruct observations. }
  { by apply Forall_fmap. }
  { unfold rows, samples. simpl. by rewrite !length_fmap. }
  run GPModel.refit. rewrite Hd. unfold parallel_for.
  set (w0 := GPModel.init _).
  set (noises := if MEDROPS_GP then None else _).
  destruct (par_each_ok (λ w', length (gps w') = model_pred_dim)
              (GPModel.fit samples obs noises)
              (schedule (cols obs)).1 (schedule (cols obs)).2 w0)
    as (w2 & -> & Hfit).
  { simpl. by rewrite length_replicate. }
  { intros j w' Hj Hlen. rewrite (schedule_perm (cols obs)), elem_of_seq in Hj.
    destruct (fit_returns samples obs noises j w') as (w'' & -> & Hl);
      [done | lia | simpl in Hj; lia | done | done |].
    exists w''. split; [done | congruence]. }
  pose proof (forM_inv (λ (_ : nat) w', w' = w2) (λ _ _, False)
    GPModel.print_h_params 0 (cols obs) w2) as Hp.
  destruct (forM_ GPModel.print_h_params 0 (cols obs) w2) as [[[]|e] w3];
    [by eexists |].
  destruct Hp; [done |].
  intros i ? Hi ->. run GPModel.print_h_params.
  destruct (lookup_lt_is_Some_2 (gps w2) i) as [g Hg]; [simpl in *; lia |].
  rewrite (vector_at_lookup _ _ _ Hg). by rewrite ensure_true by apply Hhp.
Qed.

End Completes.

(** ** [predictm] and [predict] *)

Section Predict.
Context `{Params} `{Indeterminate} `{BinaryMatrix} {G : Type} `{GP G}.
Context `{Schedule}.

Lemma predictm_eq (m : GPModel.t) (x : VectorXd) :
  Forall (λ g, (gp_query g x).1 ≠ []) (GPModel._gp_models m) →
  GPModel.predictm m x
  = Ok (mean0 x <$> GPModel._gp_models m,
        (λ g, (gp_query g x).2) <$> GPModel._gp_models m).
Proof.
  intros Hq. unfold GPModel.predictm.
  set (gs := GPModel._gp_models m) in *. set (n := length gs).
  edestruct (for_inv
    (λ i '(ms, ss),
       ms = (mean0 x <$> take i gs) ++ replicate (n - i) junk ∧
       ss = ((λ g, (gp_query g x).2) <$> take i gs) ++ replicate (n - i) junk))
    as ([ms ss] & -> & Hms & Hss).
  - unfold Vector. by rewrite Nat.sub_0_r.
  - intros i [ms ss] Hi [-> ->]. unfold GPModel.query_one. fold gs.
    destruct (lookup_lt_is_Some_2 gs i) as [g Hg]; [lia |].
    rewrite (vector_at_lookup _ _ _ Hg). simpl.
    assert ((gp_query g x).1 ≠ []) as Hne.
    { rewrite Forall_forall in Hq. apply Hq. by eapply list_elem_of_lookup_2. }
    destruct (gp_query g x) as [mu s] eqn:Eq. simpl in Hne.
    destruct mu as [|m0 mu]; [done |].
    unfold at_, set_at. simpl.
    rewrite ensure_true
      by (rewrite length_app, length_fmap, length_take, length_replicate; lia).
    simpl. rewrite ensure_true
      by (rewrite length_app, length_fmap, length_take, length_replicate; lia).
    simpl. eexists. split; [done |].
    rewrite (insert_fill _ n i junk m0), (insert_fill _ n i junk s)
      by (unfold n in *; rewrite ?length_fmap, ?length_take; lia).
    rewrite (take_S_r _ _ _ Hg), !fmap_app. simpl. unfold mean0.
    by rewrite Eq.
  - simpl in *. replace (n - n) with 0 in * by lia. simpl in *.
    rewrite app_nil_r in Hms, Hss. subst. unfold n. by rewrite firstn_all.
Qed.

(** C2. On an ensemble with at least one regressor, each answering a mean
    with a first coefficient, [predictm] returns the vector of those first
    coefficients and the vector of the variances, regressor by regressor,
    and [predict] returns the same means with the arithmetic mean of the
    variances: their sum, from the first one on, divided by their number. *)
Theorem predict_spec (m : GPModel.t) (x : VectorXd) :
  GPModel._gp_models m ≠ [] →
  Forall (λ g, (gp_query g x).1 ≠ []) (GPModel._gp_models m) →
  ∃ ms ss u,
    GPModel.predictm m x = Ok (ms, ss) ∧
    GPModel.predict m x = Ok (ms, u) ∧
    mean ss = Ok u ∧
    length ms = length (GPModel._gp_models m) ∧
    length ss = length (GPModel._gp_models m) ∧
    (∀ i g, GPModel._gp_models m !! i = Some g →
       head (gp_query g x).1 = ms !! i ∧ ss !! i = Some (gp_query g x).2) ∧
    ∃ s0 rest,
      ss = s0 :: rest ∧
      u = (foldl PrimFloat.add s0 rest
           / PrimFloat.of_uint63 (Uint63.of_Z (Z.of_nat (length ss))))%float.
Proof.
  intros Hne Hq. pose proof (predictm_eq m x Hq) as Hp.
  set (ss := (λ g, (gp_query g x).2) <$> GPModel._gp_models m) in *.
  assert (∃ s0 rest, ss = s0 :: rest) as (s0 & rest & Hss).
  { unfold ss. destruct (GPModel._gp_models m); [done |]. by eexists _, _. }
  assert (mean ss
          = Ok (foldl PrimFloat.add s0 rest
                / PrimFloat.of_uint63 (Uint63.of_Z (Z.of_nat (length ss))))%float) as Hu
    by (by rewrite Hss).
  eexists (mean0 x <$> GPModel._gp_models m), ss, _.
  split; [done |]. split; [unfold GPModel.predict; rewrite Hp; simpl; by rewrite Hu |].
  split; [done |]. split; [by rewrite length_fmap |].
  split; [unfold ss; by rewrite length_fmap |]. split; [| by exists s0, rest].
  intros i g Hg. unfold ss. rewrite !list_lookup_fmap, Hg. simpl. split; [| done].
  unfold mean0. rewrite Forall_forall in Hq.
  assert ((gp_query g x).1 ≠ []) as Hm by (apply Hq; by eapply list_elem_of_lookup_2).
  by destruct ((gp_query g x).1).
Qed.

(** *** The order of the iterations does not matter *)

Lemma for_for_each {A : Type} (body : nat → A → result A) (start n : nat) (a : A) :
  for_ body start n a = for_each body (seq start n) a.
Proof.
  revert start a. induction n as [|n IH]; intros start a; simpl; [done |].
  destruct (body start a); simpl; [apply IH | done].
Qed.

Lemma for_each_inv {A : Type} (I : list nat → A → Prop) (J : fault → Prop)
    (body : nat → A → result A) (order visited : list nat) (a : A) :
  I visited a →
  (∀ visited i a, i ∈ order → I visited a →
     match body i a with Ok a' => I (i :: visited) a' | Err e => J e end) →
  match for_each body order a with
  | Ok a' => I (reverse order ++ visited) a'
  | Err e => J e
  end.
Proof.
  revert visited a. induction order as [|i order IH]; intros visited a Ha Hstep; simpl.
  - done.
  - specialize (Hstep visited i a) as Hi. destruct (body i a) as [a'|e]; simpl.
    + rewrite reverse_cons, <- app_assoc. simpl. apply IH.
      * apply Hi; [by left | done].
      * intros v j b Hj. apply Hstep. by right.
    + apply Hi; [by left | done].
Qed.

Lemma filled_nil (f : G → float) (gs : list G) :
  filled [] f gs = replicate (length gs) junk.
Proof.
  apply list_eq. intros i. unfold filled. rewrite list_lookup_imap.
  destruct (gs !! i) as [g|] eqn:E; simpl.
  - rewrite lookup_replicate_2; [done | by eapply lookup_lt_Some].
  - symmetry. apply lookup_replicate_None. by apply lookup_ge_None.
Qed.

Lemma filled_insert (visited : list nat) (f : G → float) (gs : list G) (i : nat) (g : G) :
  gs !! i = Some g →
  <[i := f g]> (filled visited f gs) = filled (i :: visited) f gs.
Proof.
  intros Hg. apply list_eq. intros j. unfold filled.
  destruct (decide (j = i)) as [->|Hne].
  - rewrite list_lookup_insert_eq
      by (rewrite length_imap; by eapply lookup_lt_Some).
    rewrite list_lookup_imap, Hg. simpl.
    by rewrite bool_decide_eq_true_2 by (by left).
  - rewrite list_lookup_insert_ne by done. rewrite !list_lookup_imap.
    destruct (gs !! j); simpl; [| done].
    rewrite (bool_decide_ext (j ∈ i :: visited) (j ∈ visited)); [done |].
    rewrite elem_of_cons. split; [by intros [->|?] | by right].
Qed.

Lemma filled_all (visited : list nat) (f : G → float) (gs : list G) :
  (∀ i, i < length gs → i ∈ visited) → filled visited f gs = f <$> gs.
Proof.
  intros Hall. apply list_eq. intros i. unfold filled.
  rewrite list_lookup_imap, list_lookup_fmap.
  destruct (gs !! i) as [g|] eqn:E; simpl; [| done].
  rewrite bool_decide_eq_true_2; [done |]. apply Hall. by eapply lookup_lt_Some.
Qed.

Lemma query_one_filled (m : GPModel.t) (x : VectorXd) (gs : list G)
    (visited : list nat) (i : nat) (g : G) :
  GPModel._gp_models m = gs → gs !! i = Some g → (gp_query g x).1 ≠ [] →
  GPModel.query_one m x i
    (filled visited (mean0 x) gs, filled visited (λ g, (gp_query g x).2) gs)
  = Ok (filled (i :: visited) (mean0 x) gs,
        filled (i :: visited) (λ g, (gp_query g x).2) gs).
Proof.
  intros <- Hg Hne. unfold GPModel.query_one.
  rewrite (vector_at_lookup _ _ _ Hg). simpl.
  rewrite <- !(filled_insert visited _ _ i g Hg). unfold mean0.
  destruct (gp_query g x) as [mu s]. simpl in *.
  destruct mu as [|m0 mu]; [done |]. unfold at_, set_at. simpl.
  assert (i < length (GPModel._gp_models m)) by (by eapply lookup_lt_Some).
  by rewrite !ensure_true by (unfold filled; by rewrite length_imap).
Qed.

Lemma query_one_cases (m : GPModel.t) (x : VectorXd) (gs : list G) (i : nat) (g : G)
    (ms ss : VectorXd) :
  GPModel._gp_models m = gs → gs !! i = Some g →
  length ms = length gs → length ss = length gs →
  match GPModel.query_one m x i (ms, ss) with
  | Ok (ms', ss') => length ms' = length ms ∧ length ss' = length ss ∧
                     (gp_query g x).1 ≠ []
  | Err e => e = Assertion
  end.
Proof.
  intros <- Hg Hms Hss. unfold GPModel.query_one.
  rewrite (vector_at_lookup _ _ _ Hg). simpl.
  destruct (gp_query g x) as [mu s]. simpl.
  destruct mu as [|m0 mu]; [done |]. unfold at_, set_at. simpl.
  assert (i < length (GPModel._gp_models m)) by (by eapply lookup_lt_Some).
  rewrite !ensure_true by lia. simpl. by rewrite !length_insert.
Qed.

(** However the iterations are ordered, as long as every regressor is taken
    and no other index is, [predictm] returns the same vectors or fails. *)
Lemma predictm_in_closed (order : list nat) (m : GPModel.t) (x : VectorXd) :
  (∀ i, i ∈ order ↔ i < length (GPModel._gp_models m)) →
  GPModel.predictm_in order m x
  = if decide (Forall (λ g, (gp_query g x).1 ≠ []) (GPModel._gp_models m))
    then Ok (mean0 x <$> GPModel._gp_models m,
             (λ g, (gp_query g x).2) <$> GPModel._gp_models m)
    else Err Assertion.
Proof.
  intros Horder. unfold GPModel.predictm_in, Vector.
  remember (GPModel._gp_models m) as gs eqn:Hgs. symmetry in Hgs.
  replace (replicate (length gs) junk, replicate (length gs) junk)
    with (filled [] (mean0 x) gs, filled [] (λ g, (gp_query g x).2) gs)
    by (by rewrite !filled_nil).
  destruct (decide (Forall _ gs)) as [Hq|Hq].
  - set (I := λ visited '(ms, ss),
               ms = filled visited (mean0 x) gs ∧
               ss = filled visited (λ g, (gp_query g x).2) gs).
    assert (∀ visited i a, i ∈ order → I visited a →
            match GPModel.query_one m x i a with
            | Ok a' => I (i :: visited) a'
            | Err _ => False
            end) as Hstep.
    { intros visited i [ms ss] Hi [-> ->]. apply Horder in Hi.
      destruct (lookup_lt_is_Some_2 gs i) as [g Hg]; [done |].
      rewrite (query_one_filled m x gs visited i g Hgs Hg); [done |].
      rewrite Forall_forall in Hq. apply Hq. by eapply list_elem_of_lookup_2. }
    assert (I [] (filled [] (mean0 x) gs, filled [] (λ g, (gp_query g x).2) gs))
      as Hinit by done.
    pose proof (for_each_inv I (λ _, False) _ order [] _ Hinit Hstep) as Hfor.
    destruct (for_each _ order _) as [[ms ss]|e]; [| done].
    destruct Hfor as [-> ->].
    rewrite app_nil_r, !filled_all; [done | |];
      intros i Hi; apply elem_of_reverse; by apply Horder.
  - apply not_Forall_Exists in Hq; [| intros g; apply _].
    apply Exists_exists in Hq as (g & Hg & Hempty).
    apply list_elem_of_lookup in Hg as [k Hk].
    assert ((gp_query g x).1 = []) as Hmu.
    { unfold compose in Hempty. destruct ((gp_query g x).1); [done |].
      by destruct Hempty. }
    set (I := λ (visited : list nat) '((ms, ss) : VectorXd * VectorXd),
               length ms = length gs ∧ length ss = length gs ∧ k ∉ visited).
    assert (∀ visited i a, i ∈ order → I visited a →
            match GPModel.query_one m x i a with
            | Ok a' => I (i :: visited) a'
            | Err e => e = Assertion
            end) as Hstep.
    { intros visited i [ms ss] Hi (Hms & Hss & Hvis). apply Horder in Hi.
      destruct (lookup_lt_is_Some_2 gs i) as [g' Hg']; [done |].
      pose proof (query_one_cases m x gs i g' ms ss Hgs Hg' Hms Hss) as Hc.
      destruct (GPModel.query_one m x i (ms, ss)) as [[ms' ss']|e]; [| done].
      destruct Hc as (Hms' & Hss' & Hne). unfold I.
      split; [congruence |]. split; [congruence |].
      rewrite not_elem_of_cons. split; [| done].
      intros ->. rewrite Hk in Hg'. by injection Hg' as <-. }
    assert (I [] (filled [] (mean0 x) gs, filled [] (λ g, (gp_query g x).2) gs))
      as Hinit.
    { unfold I, filled. rewrite !length_imap. split; [done |]. split; [done |].
      apply not_elem_of_nil. }
    pose proof (for_each_inv I (λ e, e = Assertion) _ order [] _ Hinit Hstep) as Hfor.
    destruct (for_each _ order _) as [[ms ss]|e]; [| by subst].
    destruct Hfor as (_ & _ & []). rewrite app_nil_r. apply elem_of_reverse, Horder.
    by eapply lookup_lt_Some.
Qed.

(** X6. The iterations of the parallel loop of [predictm] commute: taken in
    any order that names every regressor, and no other index, they give
    what the loop in index order gives, failures included. *)
Lemma predictm_any_order (order : list nat) (m : GPModel.t) (x : VectorXd) :
  (∀ i, i ∈ order ↔ i < length (GPModel._gp_models m)) →
  GPModel.predictm_in order m x = GPModel.predictm m x.
Proof.
  intros Horder. rewrite (predictm_in_closed order) by done.
  unfold GPModel.predictm. rewrite for_for_each.
  symmetry. apply (predictm_in_closed (seq 0 _)).
  intros i. rewrite elem_of_seq. lia.
Qed.

End Predict.

(** ** What [learn], [predict] and [save_data] do not check *)

Section Unchecked.
Context `{Params} `{Indeterminate} `{BinaryMatrix} {G : Type} `{GP G}.
Context `{Schedule}.

Local Abbreviation D := (model_input_dim + action_dim).
Local Abbreviation World := (@GPModel.World G).

(** C4, as the code has it. A newly constructed ensemble is not rejected:
    with at least one predicted dimension and regressors that, before any
    fit, answer a mean with a first coefficient and hold no samples,
    [predictm] and [predict] return what the new regressors answer and
    [save_data] creates an empty file. *)
Theorem unfitted_not_rejected (d : gmap string file) (x : VectorXd) (filename : string) :
  0 < model_pred_dim →
  (gp_query (gp_new model_input_dim 1) x).1 ≠ [] →
  gp_samples (gp_new model_input_dim 1) = [] →
  let w := GPModel.new d in
  let g := gp_new model_input_dim 1 in
  let ms := replicate model_pred_dim (mean0 x g) in
  let ss := replicate model_pred_dim (gp_query g x).2 in
  GPModel.predictm (GPModel.this w) x = Ok (ms, ss) ∧
  (∃ u, mean ss = Ok u ∧ GPModel.predict (GPModel.this w) x = Ok (ms, u)) ∧
  GPModel.save_data filename w = (Ok (), GPModel.write_file filename (Text []) w).
Proof.
  intros Hpos Hq Hs w g ms ss.
  assert (GPModel.predictm (GPModel.this w) x = Ok (ms, ss)) as Hp.
  { rewrite predictm_eq; simpl; [by rewrite !fmap_replicate |].
    by apply Forall_replicate. }
  split; [done |]. split.
  - assert (∃ u, mean ss = Ok u) as [u Hu].
    { unfold ss. destruct model_pred_dim; [lia |]. by eexists. }
    exists u. split; [done |]. unfold GPModel.predict. rewrite Hp. simpl. by rewrite Hu.
  - run GPModel.save_data. simpl.
    destruct model_pred_dim as [|n] eqn:E; [lia |]. simpl.
    rewrite Hs. simpl.
    unfold GPModel.write_file. simpl. by rewrite insert_insert_eq.
Qed.

(** C5, as the code has it. [learn] validates nothing by itself. An empty
    sequence makes it index the first element of an empty vector; a target
    whose length is not that of the first target fails the assignment of
    its row; in both cases no field was written. State and action lengths
    are not compared: a sample (state followed by action) whose length is
    not that of the first sample fails when the sample matrix is built,
    after the cached targets were replaced and before the statistics, the
    file and the regressors are touched. *)
Theorem learn_unchecked (observations : list transition) (only_limits : bool)
    (w : World) :
  (observations = [] →
   GPModel.learn observations only_limits w = (Err (Abort OutOfRange), w)) ∧
  (∀ o0, head observations = Some o0 →
   Exists (λ o, length (target_of o) ≠ length (target_of o0)) observations →
   GPModel.learn observations only_limits w = (Err (Abort Assertion), w)) ∧
  (∀ o0, head observations = Some o0 →
   Forall (λ o, length (target_of o) = length (target_of o0)) observations →
   Exists (λ o, length (sample_of o) ≠ length (sample_of o0)) observations →
   GPModel.learn observations only_limits w
   = (Err (Abort Assertion),
      GPModel.set_observations
        (Matrix (length (target_of o0)) (target_of <$> observations)) w)).
Proof.
  split; [| split].
  - intros ->. by rewrite learn_unfold.
  - intros o0 Hhd Hex. rewrite learn_unfold.
    pose proof (assemble_total observations o0 Hhd) as Ha.
    destruct (GPModel.assemble observations) as [[samples obs]|e]; [| by subst].
    apply Exists_exists in Hex as (o & Ho & Hlen).
    rewrite Forall_forall in Ha. by destruct Hlen; apply Ha.
  - intros o0 Hhd Hall Hex. rewrite learn_unfold.
    rewrite (assemble_eq observations o0 Hhd)
      by (intros o Ho; rewrite Forall_forall in Hall; by apply Hall).
    assert (head (sample_of <$> observations) = Some (sample_of o0)) as Hhd'.
    { destruct observations; [done |]. by injection Hhd as ->. }
    pose proof (_to_matrix_total _ _ Hhd') as Hm.
    run GPModel.statistics.
    destruct (GPModel._to_matrix (sample_of <$> observations)) as [data|e]; [| by subst].
    apply Exists_exists in Hex as (o & Ho & Hlen).
    rewrite Forall_forall in Hm. destruct Hlen. apply Hm.
    apply list_elem_of_fmap. by exists o.
Qed.

End Unchecked.

(** ** MIModel *)

Section MIModelPredict.
Context {F : Type} `{MeanFunction F}.

(** C8. [predict] of the mean-function model returns the mean function at
    the query (called on the query twice) and a vector of zeros of the same
    length. *)
Theorem MIModel_predict_spec (m : MIModel.t) (x : VectorXd) (b : bool) :
  (MIModel.predict m x b).1 = mf_eval (MIModel._mean m) x x ∧
  length (MIModel.predict m x b).2 = length (MIModel.predict m x b).1 ∧
  ∀ i, i < length (MIModel.predict m x b).1 →
    (MIModel.predict m x b).2 !! i = Some 0%float.
Proof.
  unfold MIModel.predict, Zero. simpl. split; [done |].
  split; [by rewrite length_replicate |].
  intros i Hi. by apply lookup_replicate_2.
Qed.

End MIModelPredict.

(** * Further properties of the members *)

(** ** [_to_matrix] and [_to_vector] *)

Lemma to_matrix_rows `{Indeterminate} (xs : list VectorXd) (m : MatrixXd) :
  GPModel._to_matrix xs = Ok m → coeffs m = xs.
Proof.
  intros Hm. destruct xs as [|x0 l] eqn:E; [done |]. rewrite <- E in *.
  assert (head xs = Some x0) as Hhd by (by subst).
  pose proof (_to_matrix_total xs x0 Hhd) as Ht. rewrite Hm in Ht.
  rewrite (_to_matrix_eq xs x0 Hhd Ht) in Hm. by injection Hm as <-.
Qed.

Section Conversions.
Context `{Indeterminate}.

(** X1. [_to_matrix] returns exactly on a non-empty list of vectors that all
    have the length of the first one, and then returns the matrix whose rows
    are these vectors. On an empty list it reads the first element of an
    empty [std::vector]; on vectors of different lengths the assignment of
    a row fails an Eigen assertion. *)
Theorem to_matrix_cases (xs : list VectorXd) :
  match GPModel._to_matrix xs with
  | Ok m => xs ≠ [] ∧ wf m ∧ cols m = length (default [] (head xs)) ∧ coeffs m = xs
  | Err OutOfRange => xs = []
  | Err Assertion => ∃ x0 x, head xs = Some x0 ∧ x ∈ xs ∧ length x ≠ length x0
  end.
Proof.
  destruct xs as [|x0 l] eqn:E; [done |]. rewrite <- E.
  assert (head xs = Some x0) as Hhd by (by subst).
  pose proof (_to_matrix_total xs x0 Hhd) as Ht.
  destruct (decide (Forall (λ x, length x = length x0) xs)) as [Hall|Hex].
  - rewrite (_to_matrix_eq xs x0 Hhd Hall). rewrite Hhd. simpl.
    split; [by subst |]. done.
  - destruct (GPModel._to_matrix xs) as [m|e]; [done |]. subst e.
    apply not_Forall_Exists in Hex; [| intros x; apply _].
    apply Exists_exists in Hex as (x & Hx & Hlen).
    by exists x0, x.
Qed.

(** X2. The two conversions are inverse to each other: on a matrix with at
    least one row, all of whose rows have its column count, [_to_matrix]
    returns the matrix for a list of vectors exactly when [_to_vector]
    returns that list for the matrix. *)
Theorem matrix_round_trip (xs : list VectorXd) (m : MatrixXd) :
  wf m → rows m ≠ 0 →
  GPModel._to_matrix xs = Ok m ↔ GPModel._to_vector m = Ok xs.
Proof.
  intros Hwf Hrows. rewrite _to_vector_eq. split.
  - intros Hm. pose proof (to_matrix_rows xs m Hm) as Hxs. by rewrite Hxs.
  - intros [= <-]. destruct m as [c rs]. unfold wf, rows in *. simpl in *.
    destruct rs as [|r0 rs]; [done |].
    rewrite (_to_matrix_eq (r0 :: rs) r0); [| done |].
    + do 2 f_equal. by apply Forall_cons in Hwf as [-> _].
    + apply Forall_cons in Hwf as [Hr0 Hrs]. rewrite Hr0.
      by apply Forall_cons.
Qed.

End Conversions.

(** ** The accessors *)

Section Accessors.
Context `{Params} `{Indeterminate} `{BinaryMatrix} {G : Type} `{GP G}.
Context `{Schedule}.

Local Abbreviation D := (model_input_dim + action_dim).
Local Abbreviation World := (@GPModel.World G).

(** X3. On a newly constructed ensemble whose regressors hold no samples,
    [samples] reads the first element of an empty [std::vector] (of the
    regressors when there is no predicted dimension, of the samples
    otherwise), while [observations] returns the 0 x 0 matrix and [limits]
    the empty vector. *)
Theorem accessors_unfitted (d : gmap string file) :
  gp_samples (gp_new model_input_dim 1) = [] →
  let m := GPModel.this (GPModel.new d) in
  GPModel.samples m = Err OutOfRange ∧
  GPModel.observations m = Matrix0 ∧
  GPModel.limits m = [].
Proof.
  intros Hs m. split; [| done]. unfold GPModel.samples, m. simpl.
  destruct model_pred_dim; simpl; [done |]. by rewrite Hs.
Qed.

(** X4. After a completed [learn] (with at least one predicted dimension and
    a regressor that keeps its samples), [samples] returns the matrix whose
    row [i] is the state of transition [i] followed by its action, and
    [observations] the matrix whose row [i] is its target: the two have one
    row per transition. *)
Theorem learn_then_accessors `{!GPSpec} `{!ScheduleSpec}
    (observations : list transition) (w w' : World) :
  0 < model_pred_dim →
  GPModel.learn observations false w = (Ok (), w') →
  GPModel.samples (GPModel.this w') = Ok (Matrix D (sample_of <$> observations)) ∧
  GPModel.observations (GPModel.this w')
  = Matrix model_pred_dim (target_of <$> observations) ∧
  rows (GPModel.observations (GPModel.this w')) = length observations.
Proof.
  intros Hpos Hl.
  destruct (learn_fitted observations w w' Hpos Hl) as (Hne & Hs & _ & Ho & g & Hg & Hgs).
  split; [| split].
  - unfold GPModel.samples. rewrite (vector_at_lookup _ _ _ Hg). simpl. rewrite Hgs.
    destruct observations as [|o0 l] eqn:E; [done |]. rewrite <- E in *.
    assert (length (sample_of o0) = D) as Ho0.
    { rewrite Forall_forall in Hs. apply Hs. subst. by left. }
    rewrite (_to_matrix_eq _ (sample_of o0)).
    + by rewrite Ho0.
    + by subst.
    + rewrite Ho0. by apply Forall_fmap.
  - done.
  - unfold GPModel.observations. rewrite Ho. unfold rows. simpl. by rewrite length_fmap.
Qed.

(** X7. [predict] returns exactly when the ensemble has a regressor and every
    regressor answers a mean with a first coefficient; it then returns these
    first coefficients with the mean of the variances. Otherwise an Eigen
    assertion fails: that of [mean] on an empty vector when there is no
    regressor, that of [m(0)] on an empty mean. *)
Theorem predict_cases (m : GPModel.t) (x : VectorXd) :
  let gs := GPModel._gp_models m in
  match GPModel.predict m x with
  | Ok (ms, u) =>
      gs ≠ [] ∧ Forall (λ g, (gp_query g x).1 ≠ []) gs ∧
      ms = mean0 x <$> gs ∧ mean ((λ g, (gp_query g x).2) <$> gs) = Ok u
  | Err e =>
      e = Assertion ∧ (gs = [] ∨ Exists (λ g, (gp_query g x).1 = []) gs)
  end.
Proof.
  intros gs. unfold GPModel.predict, GPModel.predictm.
  rewrite for_for_each.
  pose proof (predictm_in_closed (seq 0 (length (GPModel._gp_models m))) m x) as Hp.
  unfold GPModel.predictm_in in Hp. rewrite Hp by (intros i; rewrite elem_of_seq; lia).
  clear Hp. fold gs.
  destruct (decide (Forall _ gs)) as [Hq|Hq]; simpl.
  - destruct gs as [|g gs'] eqn:E; simpl; [split; [done | by left] |]. done.
  - split; [done |]. right.
    apply not_Forall_Exists in Hq; [| intros g; apply _].
    eapply Exists_impl; [exact Hq |]. intros g Hg. simpl in Hg.
    destruct ((gp_query g x).1); [done |]. by destruct Hg.
Qed.

End Accessors.

(** ** More on [learn] *)

Lemma set_block_row_fill (c i j k : nat) (done_ rest : list VectorXd) (old v : VectorXd) :
  length done_ = i → j + k ≤ c → length v = k →
  set_block_row (Matrix c (done_ ++ old :: rest)) i j k v
  = Ok (Matrix c (done_ ++ (take j old ++ v ++ drop (j + k) old) :: rest)).
Proof.
  intros Hd Hj Hv. unfold set_block_row, row, rows. simpl.
  rewrite (ensure_true (i + 1 ≤ _)) by (rewrite length_app; simpl; lia). simpl.
  rewrite (ensure_true (j + k ≤ _)) by done. simpl.
  rewrite ensure_true by done. simpl.
  rewrite (list_lookup_middle done_ rest old i) by done. simpl.
  do 2 f_equal. rewrite insert_app_r_alt by lia.
  by replace (i - length done_) with 0 by lia.
Qed.

Lemma col_ext (c1 c2 : nat) (r1 r2 : list VectorXd) (j : nat) :
  j < c1 → j < c2 → (λ r, r !! j) <$> r1 = (λ r, r !! j) <$> r2 →
  col (Matrix c1 r1) j = col (Matrix c2 r2) j.
Proof.
  intros H1 H2 Hr. unfold col. simpl. rewrite !ensure_true by done. simpl.
  assert (mapM (λ r, x ← at_ r j; Ok [x]) r1 = mapM (λ r, x ← at_ r j; Ok [x]) r2)
    as ->; [| done].
  revert r2 Hr. induction r1 as [|a r1 IH]; intros [|b r2] Hr; try done.
  simpl in Hr. injection Hr as Hab Hr. simpl. rewrite (IH r2 Hr).
  unfold at_. by rewrite Hab.
Qed.

Section LearnMore.
Context `{Params} `{Indeterminate} `{BinaryMatrix} {G : Type} `{GP G}.
Context `{Schedule}.

Local Abbreviation D := (model_input_dim + action_dim).
Local Abbreviation World := (@GPModel.World G).
Local Abbreviation gps w := (GPModel._gp_models (GPModel.this w)).

Lemma same_cache_fields (w w' : World) :
  same_cache w w' →
  GPModel._initialized (GPModel.this w') = GPModel._initialized (GPModel.this w) ∧
  GPModel._observations (GPModel.this w') = GPModel._observations (GPModel.this w) ∧
  GPModel._means (GPModel.this w') = GPModel._means (GPModel.this w) ∧
  GPModel._sigmas (GPModel.this w') = GPModel._sigmas (GPModel.this w) ∧
  GPModel._limits (GPModel.this w') = GPModel._limits (GPModel.this w) ∧
  GPModel.disk w' = GPModel.disk w.
Proof.
  unfold same_cache. intros Hc. injection Hc; intros; repeat split; congruence.
Qed.

Lemma statistics_initialized (samples : list VectorXd) (w : World) :
  GPModel._initialized (GPModel.this (GPModel.statistics samples w).2)
  = GPModel._initialized (GPModel.this w).
Proof.
  run GPModel.statistics. simpl.
  destruct (GPModel._to_matrix samples) as [data|]; [| done].
  destruct (block data 0 0 _ _) as [samp|]; [| done].
  destruct (colwise_mean samp) as [means|]; [| done].
  by destruct (cwise_max _ _).
Qed.

(** What a [statistics] that returns stores does not depend on the state. *)
Lemma statistics_run (samples : list VectorXd) (w w1 : World) :
  GPModel.statistics samples w = (Ok (), w1) →
  ∃ means sigmas limits, ∀ v : World,
    GPModel.statistics samples v
    = (Ok (), GPModel.set_limits limits
                (GPModel.set_sigmas sigmas (GPModel.set_means means v))).
Proof.
  run GPModel.statistics.
  destruct (GPModel._to_matrix samples) as [data|]; [| done].
  destruct (block data 0 0 _ _) as [samp|]; [| done].
  destruct (colwise_mean samp) as [means|]; [| done].
  destruct (cwise_max _ _) as [limits|]; [| done]. intros _.
  by exists means, (colwise_sig samp), limits.
Qed.

(** The matrix of the snapshot file: row [i] is sample [i] followed by row
    [i] of the targets. *)
Lemma snapshot_eq (samples : list VectorXd) (obs : MatrixXd) :
  samples ≠ [] → Forall (λ s, length s = D) samples →
  cols obs = model_pred_dim → wf obs → rows obs = length samples →
  GPModel.snapshot samples obs
  = Ok (Matrix (D + model_pred_dim) (zip_with app samples (coeffs obs))).
Proof.
  intros Hne Hs Hc Hwf Hr. unfold GPModel.snapshot.
  destruct (head_nonempty samples Hne) as [s0 Hs0].
  rewrite (vector_at_lookup _ _ s0) by (by rewrite <- head_lookup). simpl.
  assert (length s0 = D) as ->.
  { rewrite Forall_forall in Hs. apply Hs. destruct samples; [done |].
    injection Hs0 as ->. by left. }
  rewrite Hc. set (n := length samples). set (c := D + model_pred_dim).
  edestruct (for_inv
    (λ i d, d = Matrix c (zip_with app (take i samples) (take i (coeffs obs))
                          ++ replicate (n - i) (replicate c junk))))
    as (d & -> & Hd).
  - unfold Matrix_. by rewrite Nat.sub_0_r.
  - intros i d Hi ->.
    destruct (lookup_lt_is_Some_2 samples i) as [s Hsi]; [lia |].
    destruct (lookup_lt_is_Some_2 (coeffs obs) i) as [r Hri];
      [unfold rows in Hr; lia |].
    assert (length s = D) as Hls.
    { rewrite Forall_forall in Hs. apply Hs. by eapply list_elem_of_lookup_2. }
    assert (length r = model_pred_dim) as Hlr.
    { unfold wf in Hwf. rewrite Forall_forall in Hwf. rewrite <- Hc. apply Hwf.
      by eapply list_elem_of_lookup_2. }
    rewrite (vector_at_lookup _ _ _ Hsi). simpl.
    replace (n - i) with (S (n - S i)) by lia. simpl.
    assert (length (zip_with app (take i samples) (take i (coeffs obs))) = i) as Hlen.
    { rewrite length_zip_with, !length_take. unfold rows in Hr. lia. }
    rewrite set_block_row_fill by (done || (unfold c; lia)). simpl.
    unfold row. rewrite Hri. simpl.
    rewrite set_block_row_fill by (done || (unfold c; lia)).
    eexists. split; [done |]. f_equal.
    rewrite (take_S_r _ _ _ Hsi), (take_S_r _ _ _ Hri).
    rewrite zip_with_app by (rewrite !length_take; unfold rows in Hr; lia).
    rewrite <- app_assoc. simpl. do 2 f_equal.
    rewrite drop_replicate, take_app_length' by done.
    rewrite drop_ge; [by rewrite app_nil_r |].
    rewrite length_app, length_replicate. unfold c. lia.
  - simpl in Hd. replace (n - n) with 0 in Hd by lia. simpl in Hd.
    rewrite app_nil_r in Hd. subst d. unfold n.
    rewrite firstn_all. unfold rows in Hr. by rewrite <- Hr, firstn_all.
Qed.

(** Where a [learn] stands that came past the snapshot. *)
Lemma learn_inv (observations : list transition) (w w' : World) (r : outcome error unit) :
  GPModel.learn observations false w = (r, w') →
  (∀ f, r ≠ Err (Abort f)) →
  ∃ o0 w1 data2,
    let samples := sample_of <$> observations in
    let obs := Matrix (length (target_of o0)) (target_of <$> observations) in
    head observations = Some o0 ∧
    Forall (λ o, length (target_of o) = length (target_of o0)) observations ∧
    GPModel.statistics samples (GPModel.set_observations obs w) = (Ok (), w1) ∧
    GPModel.snapshot samples obs = Ok data2 ∧
    same_cache (GPModel.write_file "medrops_data.bin" (Binary data2) w1) w' ∧
    length (gps w') = model_pred_dim ∧
    (ScheduleSpec → r = Ok () → fit_upto samples obs (length (target_of o0)) w').
Proof.
  rewrite learn_unfold. intros Hl Hr.
  destruct (GPModel.assemble observations) as [[samples obs]|f] eqn:Ha.
  2:{ injection Hl as <- _. by destruct (Hr f). }
  apply assemble_inv in Ha as (o0 & Hhd & Hlen & -> & ->).
  destruct (GPModel.statistics _ _) as [[[]|e] w1] eqn:Hs.
  2:{ injection Hl as <- <-. apply statistics_abort in Hs as [f ->]. by destruct (Hr f). }
  pose proof (refit_total (sample_of <$> observations)
    (Matrix (length (target_of o0)) (target_of <$> observations)) w1) as Ht.
  rewrite Hl in Ht. exists o0, w1. destruct r as [[]|e].
  - destruct Ht as (data2 & Hd & Hc & Hn & Hfit). exists data2. simpl.
    repeat (split; [done |]). intros Hspec ?. by apply Hfit.
  - destruct Ht as [(_ & f & -> & _)|(data2 & Hd & Hc & Hn & _)]; [by destruct (Hr f) |].
    exists data2. simpl. repeat (split; [done |]). done.
Qed.

(** The dimensions a [learn] that came past the snapshot has checked. *)
Lemma learn_inv_dims (observations : list transition) (o0 : transition) (data2 : MatrixXd) :
  head observations = Some o0 →
  GPModel.snapshot (sample_of <$> observations)
    (Matrix (length (target_of o0)) (target_of <$> observations)) = Ok data2 →
  observations ≠ [] ∧ length (target_of o0) = model_pred_dim ∧
  Forall (λ o, length (sample_of o) = D) observations ∧
  Forall (λ o, length (target_of o) = model_pred_dim) observations.
Proof.
  intros Hhd Hd. apply snapshot_inv in Hd as [Hsl Htl]. simpl in Htl.
  rewrite length_fmap, <- (length_fmap target_of), firstn_all in Htl.
  apply Forall_fmap in Hsl, Htl.
  split; [by destruct observations |]. split; [| done].
  rewrite Forall_forall in Htl. apply (Htl o0).
  destruct observations; [done |]. injection Hhd as ->. by left.
Qed.

(** X8. A [learn] that fits returns only on a non-empty sequence of
    transitions in which every sample (state followed by action) has
    [model_input_dim + action_dim] coefficients and every target
    [model_pred_dim]: on any other input it fails. It then leaves
    [model_pred_dim] regressors. *)
Theorem learn_needs_dims (observations : list transition) (w w' : World) :
  GPModel.learn observations false w = (Ok (), w') →
  observations ≠ [] ∧
  Forall (λ o, length (sample_of o) = D) observations ∧
  Forall (λ o, length (target_of o) = model_pred_dim) observations ∧
  length (gps w') = model_pred_dim.
Proof.
  intros Hl.
  destruct (learn_inv observations w w' (Ok ()) Hl) as
    (o0 & w1 & data2 & Hhd & _ & _ & Hd & _ & Hn & _); [done |].
  destruct (learn_inv_dims observations o0 data2 Hhd Hd) as (Hne & _ & Hs & Ht).
  done.
Qed.

(** X10. A [learn] that came to the fit, whether it returned or a regressor
    threw, has written to medrops_data.bin the matrix with one row per
    transition: the sample followed by the target; no other file was
    touched. *)
Theorem learn_snapshot_file (observations : list transition) (w w' : World)
    (r : outcome error unit) :
  GPModel.learn observations false w = (r, w') →
  (∀ f, r ≠ Err (Abort f)) →
  GPModel.disk w'
  = <["medrops_data.bin" :=
        Binary (Matrix (D + model_pred_dim)
                  (zip_with app (sample_of <$> observations) (target_of <$> observations)))]>
      (GPModel.disk w).
Proof.
  intros Hl Hr.
  destruct (learn_inv observations w w' r Hl Hr) as
    (o0 & w1 & data2 & Hhd & _ & Hs & Hd & Hc & _).
  destruct (learn_inv_dims observations o0 data2 Hhd Hd) as (Hne & Ho0 & Hsl & Htl).
  pose proof (statistics_frame (sample_of <$> observations)
    (GPModel.set_observations
       (Matrix (length (target_of o0)) (target_of <$> observations)) w)) as (_ & _ & Hdisk).
  rewrite Hs in Hdisk. simpl in Hdisk.
  apply same_cache_fields in Hc as (_ & _ & _ & _ & _ & ->). simpl. rewrite Hdisk.
  rewrite snapshot_eq in Hd.
  - by injection Hd as <-.
  - by destruct observations.
  - by apply Forall_fmap.
  - done.
  - unfold wf. simpl. rewrite Ho0. by apply Forall_fmap.
  - unfold rows. simpl. by rewrite !length_fmap.
Qed.

End LearnMore.

(** ** What the members leave alone, and how calls compose *)

Section Compose.
Context `{Params} `{Indeterminate} `{BinaryMatrix} {G : Type} `{GP G}.
Context `{Schedule}.

Local Abbreviation D := (model_input_dim + action_dim).
Local Abbreviation World := (@GPModel.World G).
Local Abbreviation gps w := (GPModel._gp_models (GPModel.this w)).

Lemma learn_leaves (observations : list transition) (only_limits : bool) (w : World) :
  let w' := (GPModel.learn observations only_limits w).2 in
  GPModel._initialized (GPModel.this w') = GPModel._initialized (GPModel.this w) ∧
  (length (gps w) = model_pred_dim → length (gps w') = model_pred_dim) ∧
  (∀ f, f ≠ "medrops_data.bin" → GPModel.disk w' !! f = GPModel.disk w !! f).
Proof.
  intros w'. unfold w'. rewrite learn_unfold.
  destruct (GPModel.assemble observations) as [[samples obs]|f]; [| done].
  pose proof (statistics_frame samples (GPModel.set_observations obs w)) as (Hg & _ & Hd).
  pose proof (statistics_initialized samples (GPModel.set_observations obs w)) as Hi.
  destruct (GPModel.statistics samples _) as [[[]|e] w1]; simpl in *.
  2:{ rewrite Hi, Hg, Hd. done. }
  destruct only_limits; simpl; [by rewrite Hi, Hg, Hd |].
  pose proof (refit_total samples obs w1) as Hr.
  destruct (GPModel.refit samples obs w1) as [[[]|e] w2]; simpl.
  - destruct Hr as (data2 & _ & Hc & Hlen & _).
    apply same_cache_fields in Hc as (Hi2 & _ & _ & _ & _ & Hd2). simpl in *.
    rewrite Hi2, Hd2, Hi, Hd. split; [done |]. split; [done |].
    intros f Hf. by rewrite lookup_insert_ne.
  - destruct Hr as [[-> _]|(data2 & _ & Hc & Hlen & _)]; [by rewrite Hi, Hg, Hd |].
    apply same_cache_fields in Hc as (Hi2 & _ & _ & _ & _ & Hd2). simpl in *.
    rewrite Hi2, Hd2, Hi, Hd. split; [done |]. split; [done |].
    intros f Hf. by rewrite lookup_insert_ne.
Qed.

(** X11. Whatever the transitions, the flag and the outcome, [learn] never
    changes [_initialized], touches no file but medrops_data.bin, and keeps
    the number of regressors at [model_pred_dim] once it is; [save_data]
    changes nothing of the object and no file but the one it is given. *)
Theorem members_frame (observations : list transition) (only_limits : bool)
    (filename : string) (w : World) :
  let w' := (GPModel.learn observations only_limits w).2 in
  let w'' := (GPModel.save_data filename w).2 in
  GPModel._initialized (GPModel.this w') = GPModel._initialized (GPModel.this w) ∧
  (length (gps w) = model_pred_dim → length (gps w') = model_pred_dim) ∧
  (∀ f, f ≠ "medrops_data.bin" → GPModel.disk w' !! f = GPModel.disk w !! f) ∧
  GPModel.this w'' = GPModel.this w ∧
  (∀ f, f ≠ filename → GPModel.disk w'' !! f = GPModel.disk w !! f).
Proof.
  intros w' w''.
  destruct (learn_leaves observations only_limits w) as (Hi & Hn & Hd).
  repeat (split; [done |]). unfold w''. run GPModel.save_data.
  destruct (vector_at (gps w) 0) as [g|]; simpl; [| done].
  destruct (GPModel.save_rows _ _) as [out|]; simpl.
  - split; [done |]. intros f Hf. by rewrite !lookup_insert_ne.
  - split; [done |]. intros f Hf. by rewrite lookup_insert_ne.
Qed.

(** X22. In every state a new ensemble can be brought to by calls of [learn],
    whatever their arguments and however they ended, there are
    [model_pred_dim] regressors, [_initialized] is still false, no file but
    medrops_data.bin has changed, and [predictm] either returns two vectors
    of [model_pred_dim] entries or fails the assertion of [m(0)]: it never
    reads past the end of the regressors. *)
Theorem reachable_invariant (d : gmap string file) (calls : list (list transition * bool)) :
  let w := after_learns d calls in
  length (gps w) = model_pred_dim ∧
  GPModel._initialized (GPModel.this w) = false ∧
  (∀ f, f ≠ "medrops_data.bin" → GPModel.disk w !! f = d !! f) ∧
  ∀ x, match GPModel.predictm (GPModel.this w) x with
       | Ok (ms, ss) => length ms = model_pred_dim ∧ length ss = model_pred_dim
       | Err e => e = Assertion
       end.
Proof.
  intros w.
  assert (length (gps w) = model_pred_dim ∧
          GPModel._initialized (GPModel.this w) = false ∧
          (∀ f, f ≠ "medrops_data.bin" → GPModel.disk w !! f = d !! f))
    as (Hn & Hi & Hd).
  { unfold w, after_learns.
    assert (length (gps (GPModel.new d)) = model_pred_dim ∧
            GPModel._initialized (GPModel.this (GPModel.new d)) = false ∧
            (∀ f, f ≠ "medrops_data.bin" → GPModel.disk (GPModel.new d) !! f = d !! f))
      as Hnew by (simpl; by rewrite length_replicate).
    revert Hnew. generalize (GPModel.new d). induction calls as [|c calls IH]; [done |].
    intros w0 (Hn & Hi & Hd). simpl. apply IH.
    destruct (learn_leaves c.1 c.2 w0) as (Hi' & Hn' & Hd').
    split; [by apply Hn' |]. split; [by rewrite Hi' |].
    intros f Hf. by rewrite Hd', Hd. }
  repeat (split; [done |]). intros x.
  unfold GPModel.predictm. rewrite for_for_each.
  pose proof (predictm_in_closed (seq 0 (length (gps w))) (GPModel.this w) x) as Hp.
  unfold GPModel.predictm_in in Hp. rewrite Hp by (intros i; rewrite elem_of_seq; lia).
  destruct (decide _); [| done]. by rewrite !length_fmap.
Qed.

(** X19. After a [learn] that returned, with or without the fit, a [learn]
    on the same transitions with [only_limits] set returns and changes
    nothing. *)
Theorem refresh_is_idempotent (observations : list transition) (only_limits : bool)
    (w w' : World) :
  GPModel.learn observations only_limits w = (Ok (), w') →
  GPModel.learn observations true w' = (Ok (), w').
Proof.
  rewrite !learn_unfold. intros Hl.
  destruct (GPModel.assemble observations) as [[samples obs]|f]; [| done].
  pose proof (statistics_frame samples (GPModel.set_observations obs w)) as (_ & Ho & _).
  destruct (GPModel.statistics samples (GPModel.set_observations obs w))
    as [[[]|e] w1] eqn:Hs; [| done].
  destruct (statistics_run _ _ _ Hs) as (means & sigmas & limits & Hrun).
  rewrite Hrun in Hs. injection Hs as <-. rewrite Hrun. f_equal. simpl in Ho.
  destruct only_limits.
  - injection Hl as <-. done.
  - pose proof (refit_cache samples obs
      (GPModel.set_limits limits (GPModel.set_sigmas sigmas
         (GPModel.set_means means (GPModel.set_observations obs w))))) as Hc.
    rewrite Hl in Hc. simpl in Hc. destruct Hc as (Hc1 & Hc2 & Hc3 & Hc4).
    destruct w' as [[gs i o m sg l] d]. simpl in *. by subst.
Qed.

Lemma fit_with_disk (d : gmap string file) (samples : list VectorXd) (obs : MatrixXd)
    (noises : option VectorXd) (i : nat) (w : World) :
  GPModel.fit samples obs noises i (with_disk d w)
  = let '(r, w') := GPModel.fit samples obs noises i w in (r, with_disk d w').
Proof.
  run GPModel.fit. simpl.
  destruct (vector_at (gps w) i) as [g|]; [| done].
  destruct (col obs i) as [c|]; [| done].
  destruct (GPModel._to_vector c) as [ys|]; [| done].
  destruct (gp_compute g samples ys noises false) as [g1|]; [| done]. simpl.
  by destruct (gp_optimize_hyperparams g1).
Qed.

Lemma print_with_disk (d : gmap string file) (i : nat) (w : World) :
  GPModel.print_h_params i (with_disk d w)
  = let '(r, w') := GPModel.print_h_params i w in (r, with_disk d w').
Proof.
  run GPModel.print_h_params. simpl.
  destruct (vector_at (gps w) i) as [g|]; [| done].
  by destruct (ensure _ _).
Qed.

Lemma forM_with_disk (d : gmap string file) (body : nat → M World unit)
    (start n : nat) (w : World) :
  (∀ i w, body i (with_disk d w) = let '(r, w') := body i w in (r, with_disk d w')) →
  forM_ body start n (with_disk d w)
  = let '(r, w') := forM_ body start n w in (r, with_disk d w').
Proof.
  intros Hb. revert start w. induction n as [|n IH]; intros start w; simpl; [done |].
  unfold mbind, M_bind. rewrite Hb.
  destruct (body start w) as [[[]|e] w1]; [apply IH | done].
Qed.

Lemma drain_with_disk (d : gmap string file) (body : nat → M World unit)
    (l : list nat) (w : World) :
  (∀ i w, body i (with_disk d w) = let '(r, w') := body i w in (r, with_disk d w')) →
  drain body l (with_disk d w) = with_disk d (drain body l w).
Proof.
  intros Hb. revert w. induction l as [|i l IH]; intros w; simpl; [done |].
  rewrite Hb. destruct (body i w) as [r w1]. simpl. apply IH.
Qed.

Lemma par_each_with_disk (d : gmap string file) (body : nat → M World unit)
    (order : list nat) (started : nat) (w : World) :
  (∀ i w, body i (with_disk d w) = let '(r, w') := body i w in (r, with_disk d w')) →
  par_each body order started (with_disk d w)
  = let '(r, w') := par_each body order started w in (r, with_disk d w').
Proof.
  intros Hb. revert w. induction order as [|i order IH]; intros w; simpl; [done |].
  rewrite Hb. destruct (body i w) as [[[]|e] w1]; [apply IH |].
  by rewrite drain_with_disk.
Qed.

(** X9. [learn] is not incremental: when it returns from a state, it returns
    from every other state (with the same unused [_initialized], under the
    same schedule) with the same object, regressors included, and the same
    snapshot file; nothing of an earlier fit survives. *)
Theorem learn_not_incremental (observations : list transition) (w v w' : World) :
  GPModel._initialized (GPModel.this v) = GPModel._initialized (GPModel.this w) →
  GPModel.learn observations false w = (Ok (), w') →
  ∃ v', GPModel.learn observations false v = (Ok (), v') ∧
    GPModel.this v' = GPModel.this w' ∧
    GPModel.disk v' !! "medrops_data.bin" = GPModel.disk w' !! "medrops_data.bin" ∧
    ∀ f, f ≠ "medrops_data.bin" → GPModel.disk v' !! f = GPModel.disk v !! f.
Proof.
  intros Hi. rewrite !learn_unfold. intros Hl.
  destruct (GPModel.assemble observations) as [[samples obs]|f]; [| done].
  destruct (GPModel.statistics samples (GPModel.set_observations obs w))
    as [[[]|e] w1] eqn:Hs; [| done].
  destruct (statistics_run _ _ _ Hs) as (means & sigmas & limits & Hrun).
  rewrite Hrun in Hs. injection Hs as <-. rewrite Hrun.
  revert Hl. run GPModel.refit.
  destruct (GPModel.snapshot samples obs) as [data2|]; [| done].
  set (noises := if MEDROPS_GP then None else _).
  set (w0 := GPModel.init (GPModel.write_file _ _ (GPModel.set_limits _ (_ (_ (_ w)))))).
  set (v0 := GPModel.init (GPModel.write_file _ _ (GPModel.set_limits _ (_ (_ (_ v)))))).
  assert (v0 = with_disk (<["medrops_data.bin" := Binary data2]> (GPModel.disk v)) w0)
    as ->.
  { unfold v0, w0, with_disk. simpl. by rewrite <- Hi. }
  unfold parallel_for.
  rewrite (par_each_with_disk _ _ _ _ _ (fit_with_disk _ samples obs noises)).
  pose proof (fit_par_frame samples obs (schedule (cols obs)).1 (schedule (cols obs)).2 w0)
    as [Hc _].
  unfold noises_of in Hc. fold noises in Hc.
  destruct (par_each (GPModel.fit samples obs noises) _ _ w0) as [[[]|e] w2]; [| done].
  simpl in Hc.
  rewrite (forM_with_disk _ _ _ _ _ (print_with_disk _)).
  pose proof (print_loop (cols obs) w2) as Hp.
  destruct (forM_ GPModel.print_h_params 0 (cols obs) w2) as [[[]|e] w3]; [| done].
  intros [= <-]. subst w3. eexists. split; [done |]. split; [done |].
  apply same_cache_fields in Hc as (_ & _ & _ & _ & _ & ->). simpl.
  split; [by rewrite !lookup_insert_eq |]. intros f Hf. by rewrite lookup_insert_ne.
Qed.

(** X13. The regressor of a predicted dimension depends on the targets only
    through its own column: two calls of [learn] that return, on sequences
    with the same samples and the same coefficient [j] in every target,
    leave the same regressor at index [j], whatever the schedule of the
    parallel loop. *)
Theorem fit_by_column `{Hsched : !ScheduleSpec} (obs1 obs2 : list transition)
    (w1 w2 w1' w2' : World) (j : nat) :
  GPModel.learn obs1 false w1 = (Ok (), w1') →
  GPModel.learn obs2 false w2 = (Ok (), w2') →
  sample_of <$> obs1 = sample_of <$> obs2 →
  (λ o, target_of o !! j) <$> obs1 = (λ o, target_of o !! j) <$> obs2 →
  gps w1' !! j = gps w2' !! j.
Proof.
  intros Hl1 Hl2 Hs Ht.
  destruct (learn_inv obs1 w1 w1' (Ok ()) Hl1) as
    (o1 & ? & d1 & Hhd1 & _ & _ & Hd1 & _ & Hn1 & Hf1); [done |].
  destruct (learn_inv obs2 w2 w2' (Ok ()) Hl2) as
    (o2 & ? & d2 & Hhd2 & _ & _ & Hd2 & _ & Hn2 & Hf2); [done |].
  destruct (learn_inv_dims obs1 o1 d1 Hhd1 Hd1) as (_ & Ho1 & _).
  destruct (learn_inv_dims obs2 o2 d2 Hhd2 Hd2) as (_ & Ho2 & _).
  specialize (Hf1 Hsched eq_refl). specialize (Hf2 Hsched eq_refl). simpl in Hf1, Hf2.
  rewrite Ho1 in Hf1. rewrite Ho2 in Hf2. rewrite <- Hs in Hf2.
  destruct (decide (j < model_pred_dim)) as [Hj|Hj].
  2:{ rewrite !lookup_ge_None_2; [done | lia | lia]. }
  destruct (lookup_lt_is_Some_2 (gps w1') j) as [g1 Hg1]; [lia |].
  destruct (lookup_lt_is_Some_2 (gps w2') j) as [g2 Hg2]; [lia |].
  rewrite Hg1, Hg2. f_equal.
  destruct Hf1 as [_ Hf1]. destruct (Hf1 j g1 Hg1) as [Hfit1 _].
  destruct Hf2 as [_ Hf2]. destruct (Hf2 j g2 Hg2) as [Hfit2 _].
  destruct (Hfit1 Hj) as (a1 & (c1 & ys1 & Hc1 & Hy1 & Ha1) & Hb1).
  destruct (Hfit2 Hj) as (a2 & (c2 & ys2 & Hc2 & Hy2 & Ha2) & Hb2).
  rewrite (col_ext _ model_pred_dim _ (target_of <$> obs2) j) in Hc1; [| done | done |].
  - rewrite Hc1 in Hc2. injection Hc2 as <-. rewrite Hy1 in Hy2. injection Hy2 as <-.
    rewrite Ha1 in Ha2. injection Ha2 as <-. rewrite Hb1 in Hb2. by injection Hb2.
  - by rewrite <- !list_fmap_compose.
Qed.

(** X12. After a completed [learn] (with at least one predicted dimension and
    a regressor that keeps its samples), a [learn] with [only_limits] set
    on fewer transitions that returns leaves fewer rows of targets than the
    regressors hold samples: [save_data] then fails the Eigen assertion of
    [observations(i, j)] at the first missing row. *)
Theorem save_after_shorter_refresh `{!GPSpec} `{!ScheduleSpec} (filename : string)
    (observations new : list transition) (w w1 w2 : World) :
  0 < model_pred_dim →
  GPModel.learn observations false w = (Ok (), w1) →
  GPModel.learn new true w1 = (Ok (), w2) →
  length new < length observations →
  (∀ o0, head new = Some o0 → target_of o0 ≠ []) →
  (GPModel.save_data filename w2).1 = Err (Abort Assertion).
Proof.
  intros Hpos Hl1 Hl2 Hlen Hne0.
  destruct (learn_fitted observations w w1 Hpos Hl1) as (Hne & Hs & _ & _ & g & Hg & Hgs).
  pose proof (only_limits_frame new w1) as Hframe.
  rewrite Hl2 in Hframe. simpl in Hframe. destruct Hframe as [Hgps _].
  rewrite only_limits_unfold in Hl2.
  destruct (GPModel.assemble new) as [[samples obs]|] eqn:Ha; [| done].
  apply assemble_inv in Ha as (o0 & Hhd & Hnl & -> & ->).
  pose proof (statistics_frame (sample_of <$> new)
    (GPModel.set_observations (Matrix (length (target_of o0)) (target_of <$> new)) w1))
    as (_ & Ho & _).
  rewrite Hl2 in Ho. simpl in Ho. rewrite <- Hgps in Hg.
  run GPModel.save_data. rewrite (vector_at_lookup _ _ _ Hg). simpl.
  rewrite Hgs, Ho. rewrite (save_rows_short _ _ D); [done | | | |].
  - by apply Forall_fmap.
  - unfold wf. simpl. by apply Forall_fmap.
  - simpl. specialize (Hne0 o0 Hhd). destruct (target_of o0); [done | simpl; lia].
  - unfold rows. simpl. by rewrite !length_fmap.
Qed.

End Compose.

(** ** More on MIModel *)

Section MIModelMore.
Context `{Indeterminate} {F : Type} `{MeanFunction F} `{Optimizer}.

(** The loop of [learn] in closed form: it checks nothing. *)
Lemma MIModel_assemble_eq (observations : list transition) :
  MIModel.assemble observations
  = Ok (sample_of <$> observations, target_of <$> observations).
Proof.
  unfold MIModel.assemble.
  edestruct (for_inv
    (λ i '(samples, observs),
       samples = sample_of <$> take i observations ∧
       observs = target_of <$> take i observations))
    as ([samples observs] & -> & Hs & Ho).
  - done.
  - intros i [samples observs] Hi [-> ->].
    destruct (lookup_lt_is_Some_2 observations i) as [[[st act] pred] Ho]; [lia |].
    rewrite (vector_at_lookup _ _ _ Ho). simpl.
    pose proof (head_tail st act) as Hht. simpl in Hht.
    destruct (set_head _ st) as [s|]; [| done]. simpl in *. rewrite Hht. simpl.
    eexists. split; [done |]. by rewrite (take_S_r _ _ _ Ho), !fmap_app.
  - simpl in *. rewrite firstn_all in Hs, Ho. by subst.
Qed.

Lemma MIModel_learn_unfold (observations : list transition) (only_limits : bool)
    (m : MIModel.t) :
  MIModel.learn observations only_limits m
  = let samples := sample_of <$> observations in
    let targets := target_of <$> observations in
    match (if MIModel._init m then Ok (MIModel._mean m)
           else s0 ← vector_at samples 0; Ok (mf_new (length s0))) with
    | Err f => (Err (Abort f), MIModel.Build samples targets (MIModel._mean m) false)
    | Ok mean =>
        let m2 := MIModel.Build samples targets mean true in
        match optimizer (MIModel._optimize_model m2) (mf_h_params mean) true with
        | Ok best =>
            (Ok (), MIModel.Build samples targets (mf_set_h_params mean best) true)
        | Err f => (Err (Abort f), m2)
        end
    end.
Proof.
  unfold MIModel.learn, mbind, M_bind, lift, modify, get.
  rewrite MIModel_assemble_eq. simpl.
  destruct (MIModel._init m) eqn:Ei; simpl.
  - by destruct (optimizer _ _ _).
  - destruct (vector_at (sample_of <$> observations) 0) as [s0|]; simpl; [| done].
    by destruct (optimizer _ _ _).
Qed.

(** X14. [learn] of the mean-function model checks no dimension and ignores
    [only_limits]: whatever the transitions and however the call ends, the
    stored samples are the states followed by the actions and the stored
    targets are the targets, in the order given; the model is left
    uninitialised only when it was so and no transition was given. *)
Theorem MIModel_learn_stores (observations : list transition) (only_limits : bool)
    (m : MIModel.t) :
  let m' := (MIModel.learn observations only_limits m).2 in
  MIModel._samples m' = sample_of <$> observations ∧
  MIModel._observations m' = target_of <$> observations ∧
  (MIModel._init m' = false ↔ MIModel._init m = false ∧ observations = []) ∧
  MIModel.learn observations only_limits m = MIModel.learn observations false m.
Proof.
  intros m'. unfold m'. rewrite !MIModel_learn_unfold. simpl.
  destruct (MIModel._init m) eqn:Ei; simpl.
  - destruct (optimizer _ _ _); simpl; repeat split; try done; by intros [? _].
  - destruct observations as [|o l]; simpl; [done |].
    destruct (optimizer _ _ _); simpl; repeat split; try done; by intros [_ ?].
Qed.

(** X15. The mean function is constructed by the first [learn] only, with
    the length of the first sample of that call; a later call keeps the
    one it has, whatever the length of the new samples. Either way the
    optimiser starts from the hyperparameters of that mean function and a
    call that returns has set the ones the optimiser answered. *)
Theorem MIModel_mean_sized_once (observations : list transition) (only_limits : bool)
    (m m' : MIModel.t) :
  MIModel.learn observations only_limits m = (Ok (), m') →
  let samples := sample_of <$> observations in
  let targets := target_of <$> observations in
  ∃ mean best,
    (if MIModel._init m then mean = MIModel._mean m
     else ∃ s0, head samples = Some s0 ∧ mean = mf_new (length s0)) ∧
    optimizer (MIModel._optimize_model (MIModel.Build samples targets mean true))
              (mf_h_params mean) true = Ok best ∧
    m' = MIModel.Build samples targets (mf_set_h_params mean best) true.
Proof.
  rewrite MIModel_learn_unfold. simpl.
  destruct (MIModel._init m) eqn:Ei; simpl.
  - destruct (optimizer _ _ _) as [best|] eqn:Eo; [| done]. intros [= <-].
    by exists (MIModel._mean m), best.
  - unfold vector_at. rewrite <- head_lookup.
    destruct (head (sample_of <$> observations)) as [s0|] eqn:Eh; simpl; [| done].
    destruct (optimizer _ _ _) as [best|] eqn:Eo; [| done]. intros [= <-].
    exists (mf_new (length s0)), best. split; [by exists s0 | done].
Qed.

(** X16. The objective the optimiser maximises: on a model with at least one
    sample, a target for every sample, and a mean function whose value has
    the length of the target, [_optimize_model] returns, without a
    gradient whatever [eval_grad], minus the sum over the samples of the
    squared distance between the mean function (newly constructed with the
    length of the first sample and given the parameters) and the target. *)
Theorem optimize_model_value (m : MIModel.t) (params : VectorXd) (eval_grad : bool) :
  MIModel._samples m ≠ [] →
  length (MIModel._samples m) ≤ length (MIModel._observations m) →
  let mean :=
    mf_set_h_params (mf_new (length (default [] (head (MIModel._samples m))))) params in
  let pairs := zip (MIModel._samples m) (MIModel._observations m) in
  Forall (λ p, length (mf_eval mean p.1 p.1) = length p.2) pairs →
  MIModel._optimize_model m params eval_grad
  = Ok (- foldl (λ mse p, mse + sq_dist (mf_eval mean p.1 p.1) p.2) 0 pairs, None)%float.
Proof.
  intros Hne Hlen mean pairs Hall. unfold MIModel._optimize_model.
  rewrite ensure_true by (by destruct (MIModel._samples m)). simpl.
  destruct (head_nonempty _ Hne) as [s0 Hs0]. unfold mean in *. rewrite Hs0 in *.
  simpl in *. rewrite (vector_at_lookup _ _ s0) by (by rewrite <- head_lookup). simpl.
  set (mean' := mf_set_h_params (mf_new (length s0)) params) in *.
  edestruct (for_inv
    (λ i mse, mse = foldl (λ mse p, mse + sq_dist (mf_eval mean' p.1 p.1) p.2)%float
                      0%float (take i pairs)))
    as (mse & -> & Hmse).
  - done.
  - intros i mse Hi ->.
    destruct (lookup_lt_is_Some_2 (MIModel._samples m) i) as [s Hs]; [lia |].
    destruct (lookup_lt_is_Some_2 (MIModel._observations m) i) as [v Hv]; [lia |].
    assert (pairs !! i = Some (s, v)) as Hp.
    { unfold pairs. apply lookup_zip_with_Some. by exists s, v. }
    rewrite (vector_at_lookup _ _ _ Hs). simpl.
    rewrite (vector_at_lookup _ _ _ Hv). simpl.
    unfold squaredNorm_diff. rewrite ensure_true.
    2:{ rewrite Forall_forall in Hall. apply (Hall (s, v)).
        by eapply list_elem_of_lookup_2. }
    simpl. eexists. split; [done |].
    by rewrite (take_S_r _ _ _ Hp), foldl_app.
  - simpl in Hmse. rewrite take_ge in Hmse; [by subst |].
    unfold pairs. rewrite length_zip_with. lia.
Qed.

Lemma MIModel_save_rows_eq (m : @MIModel.t F) (n k : nat) :
  Forall (λ s, length s = n) (MIModel._samples m) →
  Forall (λ o, length o = k) (MIModel._observations m) →
  length (MIModel._samples m) ≤ length (MIModel._observations m) →
  MIModel.save_rows m = Ok (mi_dump (MIModel._samples m) (MIModel._observations m)).
Proof.
  intros Hs Ho Hlen. unfold MIModel.save_rows.
  set (samples := MIModel._samples m) in *. set (targets := MIModel._observations m) in *.
  edestruct (for_inv (λ i out, out = mi_dump (take i samples) (take i targets)))
    as (out & -> & Hout).
  - done.
  - intros i out Hi ->.
    destruct (lookup_lt_is_Some_2 samples i) as [s Hsi]; [lia |].
    destruct (lookup_lt_is_Some_2 targets i) as [o Hoi]; [lia |].
    destruct (lookup_lt_is_Some_2 samples 0) as [s0 Hs0]; [lia |].
    destruct (lookup_lt_is_Some_2 targets 0) as [o0 Ho0]; [lia |].
    rewrite (vector_at_lookup _ _ _ Hs0). simpl.
    assert (length s0 = length s) as ->.
    { rewrite Forall_forall in Hs.
      rewrite (Hs s0), (Hs s); [done | |]; by eapply list_elem_of_lookup_2. }
    rewrite (save_samples_loop _ _ _ _ Hsi). simpl.
    rewrite (vector_at_lookup _ _ _ Ho0). simpl.
    assert (length o0 = length o) as ->.
    { rewrite Forall_forall in Ho.
      rewrite (Ho o0), (Ho o); [done | |]; by eapply list_elem_of_lookup_2. }
    rewrite (save_samples_loop _ _ _ _ Hoi).
    eexists. split; [done |].
    unfold mi_dump. rewrite (take_S_r _ _ _ Hsi), (take_S_r _ _ _ Hoi).
    rewrite zip_with_app by (rewrite !length_take; lia).
    change (zip_with mi_line [s] [o]) with [mi_line s o]. rewrite unlines_snoc.
    assert (mi_line s o = flat_map (λ x, [Num x; Str " "]) s
                          ++ flat_map (λ x, [Num x; Str " "]) o) as ->
      by (unfold mi_line; apply flat_map_app).
    destruct i as [|i]; case_bool_decide; try done.
    destruct samples as [|s1 samples']; [done |].
    destruct targets as [|o1 targets']; [done |]. simpl.
    generalize (zip_with mi_line (take i samples') (take i targets')). intros zs.
    by rewrite <- !app_assoc.
  - simpl in Hout. rewrite firstn_all in Hout. subst. unfold mi_dump.
    by rewrite zip_with_take_r.
Qed.

(** X17. [save_data] of the mean-function model after a [learn] (however it
    ended) on transitions whose samples have one length and whose targets
    have one length: the file holds one line per transition, the
    components of the sample and then those of the target, every value
    (the last of a line included) followed by a blank, a line end between
    two lines. *)
Theorem MIModel_save_after_learn (observations : list transition) (only_limits : bool)
    (m : MIModel.t) (filename : string) (d : gmap string file) (n k : nat) :
  Forall (λ o, length (sample_of o) = n) observations →
  Forall (λ o, length (target_of o) = k) observations →
  MIModel.save_data (MIModel.learn observations only_limits m).2 filename d
  = (Ok (),
     <[filename := Text (mi_dump (sample_of <$> observations)
                                 (target_of <$> observations))]> d).
Proof.
  intros Hs Ht.
  assert (MIModel._samples (MIModel.learn observations only_limits m).2
          = sample_of <$> observations ∧
          MIModel._observations (MIModel.learn observations only_limits m).2
          = target_of <$> observations) as [Hsm Hom].
  { rewrite MIModel_learn_unfold. simpl.
    destruct (MIModel._init m); simpl.
    - by destruct (optimizer _ _ _).
    - destruct (vector_at _ 0); simpl; [| done]. by destruct (optimizer _ _ _). }
  unfold MIModel.save_data, mbind, M_bind, lift, modify.
  rewrite (MIModel_save_rows_eq _ n k).
  - rewrite Hsm, Hom. by rewrite insert_insert_eq.
  - rewrite Hsm. by apply Forall_fmap.
  - rewrite Hom. by apply Forall_fmap.
  - by rewrite Hsm, Hom, !length_fmap.
Qed.

End MIModelMore.

(** ** The two text formats *)

Lemma mi_line_dump_line (s o : VectorXd) :
  o ≠ [] → mi_line s o = dump_line s o ++ [Str " "].
Proof.
  intros Ho. unfold mi_line, dump_line. rewrite flat_map_app, <- app_assoc. f_equal.
  induction o as [|x o IH]; [done |]. simpl.
  destruct o as [|y o]; [done |]. rewrite IH by done. done.
Qed.

Section Formats.
Context `{Indeterminate} {F : Type} `{MeanFunction F}.

(** X23. The files of the two [save_data] differ by a trailing blank: on the
    same samples (of one length) and the same non-empty targets (of one
    length), both write one line per sample, and each line of the
    mean-function model is the line of the ensemble followed by a blank. *)
Theorem save_data_formats (samples targets : list VectorXd) (n k : nat)
    (f : F) (b : bool) :
  Forall (λ s, length s = n) samples → Forall (λ o, length o = k) targets →
  0 < k → length samples ≤ length targets →
  ∃ lines,
    length lines = length samples ∧
    GPModel.save_rows samples (Matrix k targets) = Ok (unlines lines) ∧
    MIModel.save_rows (MIModel.Build samples targets f b)
    = Ok (unlines ((λ l, l ++ [Str " "]) <$> lines)).
Proof.
  intros Hs Ht Hk Hlen. exists (zip_with dump_line samples targets).
  split; [rewrite length_zip_with; lia |]. split.
  - by rewrite (save_rows_eq samples (Matrix k targets) n).
  - rewrite (MIModel_save_rows_eq _ n k) by done. simpl. unfold mi_dump. do 2 f_equal.
    clear Hs Hlen. revert samples. induction Ht as [|o targets Ho _ IH];
      intros [|s samples]; try done.
    simpl. rewrite IH, mi_line_dump_line; [done |].
    destruct o; [simpl in Ho; lia | done].
Qed.

End Formats.

(** ** Samples wider than [Params] says *)

Lemma block_take (L c : nat) (xs : list VectorXd) :
  c ≤ L → block (Matrix L xs) 0 0 (rows (Matrix L xs)) c = Ok (Matrix c (take c <$> xs)).
Proof.
  intros Hc. unfold block, rows. simpl.
  rewrite (ensure_true (_ ≤ length xs)) by done. simpl.
  rewrite ensure_true by done. simpl. by rewrite firstn_all.
Qed.

Section Wider.
Context `{Params} `{Indeterminate} `{BinaryMatrix} {G : Type} `{GP G}.
Context `{Schedule}.

Local Abbreviation D := (model_input_dim + action_dim).
Local Abbreviation World := (@GPModel.World G).
Local Abbreviation gps w := (GPModel._gp_models (GPModel.this w)).

(** X18. Samples of one length above [model_input_dim + action_dim] are not
    rejected by the statistics: [learn] with [only_limits] set returns,
    with the means, deviations and limits of the first
    [model_input_dim + action_dim] coefficients of every sample, the
    others being dropped. Without the flag the same call stores these
    statistics and then fails the Eigen assertion of the first block
    assignment of the snapshot: no file is written, no regressor touched. *)
Theorem wider_samples_truncated `{!BinaryMatrixSpec} (observations : list transition)
    (L : nat) (w : World) :
  observations ≠ [] → targets_agree observations = true →
  Forall (λ o, length (sample_of o) = L) observations → D < L →
  let samp := Matrix D (take D <$> (sample_of <$> observations)) in
  let w' := (GPModel.learn observations true w).2 in
  GPModel.learn observations true w = (Ok (), w') ∧
  colwise_mean samp = Ok (GPModel._means (GPModel.this w')) ∧
  GPModel._sigmas (GPModel.this w') = colwise_sig samp ∧
  cwise_max (percentile (cwise_abs samp) 5) (percentile (cwise_abs samp) 95)
  = Ok (GPModel._limits (GPModel.this w')) ∧
  GPModel.learn observations false w = (Err (Abort Assertion), w').
Proof.
  intros Hne Hc Hlen HL samp.
  destruct (head_nonempty observations Hne) as [o0 Hhd].
  assert (length (sample_of o0) = L) as Ho0.
  { rewrite Forall_forall in Hlen. apply Hlen. destruct observations; [done |].
    injection Hhd as ->. by left. }
  assert (head (sample_of <$> observations) = Some (sample_of o0)) as Hhd'.
  { destruct observations; [done |]. by injection Hhd as ->. }
  assert (wf samp) as Hwf.
  { unfold wf, samp. simpl. apply Forall_fmap, Forall_fmap.
    eapply Forall_impl; [exact Hlen |]. intros o Ho. simpl in *.
    rewrite length_take, Ho. lia. }
  destruct (colwise_mean_ok samp Hwf) as (means & Hm & Hml).
  { unfold rows, samp. simpl. rewrite !length_fmap. by destruct observations. }
  assert (∀ v : World, GPModel.statistics (sample_of <$> observations) v
    = (Ok (), GPModel.set_limits
         (zip_with maxi (percentile (cwise_abs samp) 5) (percentile (cwise_abs samp) 95))
         (GPModel.set_sigmas (colwise_sig samp) (GPModel.set_means means v)))) as Hstat.
  { intros v. run GPModel.statistics.
    rewrite (_to_matrix_eq _ (sample_of o0) Hhd')
      by (rewrite Ho0; by apply Forall_fmap).
    rewrite Ho0, block_take by lia. fold samp. rewrite Hm.
    unfold cwise_max. by rewrite ensure_true by (by rewrite !percentile_length). }
  rewrite !learn_unfold.
  rewrite (assemble_eq _ o0 Hhd) by (intros o; by apply targets_agree_spec).
  rewrite Hstat. simpl.
  split; [done |]. split; [done |]. split; [done |].
  split; [unfold cwise_max; by rewrite ensure_true by (by rewrite !percentile_length) |].
  run GPModel.refit. unfold GPModel.snapshot.
  rewrite (vector_at_lookup _ _ (sample_of o0)) by (by rewrite <- head_lookup). simpl.
  destruct observations as [|o1 l]; [done |]. injection Hhd as ->. simpl.
  unfold set_block_row, rows. simpl.
  rewrite (ensure_true (_ ≤ _ + _)) by lia. simpl.
  rewrite (bool_decide_eq_false_2 (length (sample_of o0) = D)) by lia. done.
Qed.

End Wider.

(** ** The objective of the mean-function model *)

Section Objective.
Context `{Indeterminate} {F : Type} `{MeanFunction F} `{Optimizer}.

(** X20. Every way [_optimize_model] ends. It returns, never with a
    gradient, only when there is a sample, a target for every sample, and
    the mean function answers a vector of the length of the target at
    every sample. It reads past the end of the targets when they are fewer
    than the samples, and fails an assertion when there is no sample or
    when a value of the mean function and its target differ in length. *)
Theorem optimize_model_cases (m : @MIModel.t F) (params : VectorXd) (eval_grad : bool) :
  let mean :=
    mf_set_h_params (mf_new (length (default [] (head (MIModel._samples m))))) params in
  let pairs := zip (MIModel._samples m) (MIModel._observations m) in
  match MIModel._optimize_model m params eval_grad with
  | Ok (_, grad) =>
      grad = None ∧ MIModel._samples m ≠ [] ∧
      length (MIModel._samples m) ≤ length (MIModel._observations m) ∧
      Forall (λ p, length (mf_eval mean p.1 p.1) = length p.2) pairs
  | Err OutOfRange =>
      length (MIModel._observations m) < length (MIModel._samples m)
  | Err Assertion =>
      MIModel._samples m = [] ∨
      Exists (λ p, length (mf_eval mean p.1 p.1) ≠ length p.2) pairs
  end.
Proof.
  intros mean pairs. unfold MIModel._optimize_model.
  destruct (decide (MIModel._samples m = [])) as [Ee|Hne].
  { rewrite Ee. simpl. by left. }
  destruct (head_nonempty _ Hne) as [s0 Hs0].
  rewrite ensure_true by (by destruct (MIModel._samples m)). simpl.
  rewrite (vector_at_lookup _ _ s0) by (by rewrite <- head_lookup). simpl.
  assert (mean = mf_set_h_params (mf_new (length s0)) params) as Hmean
    by (unfold mean; by rewrite Hs0).
  clearbody mean. subst mean.
  set (mean' := mf_set_h_params (mf_new (length s0)) params) in *.
  set (I := λ i (_ : float),
              i ≤ length (MIModel._observations m) ∧
              Forall (λ p, length (mf_eval mean' p.1 p.1) = length p.2) (take i pairs)).
  set (J := λ e : fault, match e with
              | OutOfRange => length (MIModel._observations m) < length (MIModel._samples m)
              | Assertion => MIModel._samples m = [] ∨
                  Exists (λ p, length (mf_eval mean' p.1 p.1) ≠ length p.2) pairs
              end).
  match goal with |- context [for_ ?b 0 ?n ?a] =>
    assert (match for_ b 0 n a with Ok a' => I (0 + n) a' | Err e => J e end) as Hfor
  end.
  { apply for_inv_total; [unfold I; split; [lia | done] |].
    intros i mse Hi [Hle Hall].
    destruct (lookup_lt_is_Some_2 (MIModel._samples m) i) as [s Hs]; [lia |].
    rewrite (vector_at_lookup _ _ _ Hs). simpl. unfold vector_at.
    destruct (MIModel._observations m !! i) as [v|] eqn:Hv; simpl.
    2:{ apply lookup_ge_None in Hv. lia. }
    assert (pairs !! i = Some (s, v)) as Hp.
    { unfold pairs. apply lookup_zip_with_Some. by exists s, v. }
    unfold squaredNorm_diff, ensure. case_bool_decide as Hlen; simpl.
    - split; [apply lookup_lt_Some in Hv; lia |].
      rewrite (take_S_r _ _ _ Hp). apply Forall_app. split; [done |].
      by apply Forall_singleton.
    - right. apply Exists_exists. exists (s, v).
      split; [by eapply list_elem_of_lookup_2 | done]. }
  destruct (for_ _ 0 _ _) as [mse|e]; simpl.
  - destruct Hfor as [Hle Hall]. simpl in Hle. split; [done |].
    split; [done |]. split; [done |].
    rewrite take_ge in Hall; [done |]. unfold pairs. rewrite length_zip_with. lia.
  - unfold J in Hfor. by destruct e.
Qed.

End Objective.

(** ** The order of the iterations of the fit *)

Lemma forM_forM_each {St : Type} (body : nat → M St unit) (start n : nat) (s : St) :
  forM_ body start n s = forM_each body (seq start n) s.
Proof.
  revert start s. induction n as [|n IH]; intros start s; simpl; [done |].
  unfold mbind, M_bind. destruct (body start s) as [[[]|e] s']; [apply IH | done].
Qed.

(** A loop whose iterations commute two by two returns the same in every
    order of the same iterations. *)
Lemma forM_each_perm {St : Type} (body : nat → M St unit) (l k : list nat) :
  (∀ i j s s', (body i ≫= λ _, body j) s = (Ok (), s') →
               (body j ≫= λ _, body i) s = (Ok (), s')) →
  l ≡ₚ k →
  ∀ s s', forM_each body l s = (Ok (), s') → forM_each body k s = (Ok (), s').
Proof.
  intros Hcomm Hperm. induction Hperm as [|x l k _ IH|x y l|l k k' _ IH1 _ IH2];
    intros s s'; simpl.
  - done.
  - unfold mbind, M_bind. destruct (body x s) as [[[]|e] s1]; [apply IH | done].
  - intros Hs. specialize (Hcomm y x s). unfold mbind, M_bind in *.
    destruct (body y s) as [[[]|e] s1]; [| done].
    destruct (body x s1) as [[[]|e] s2] eqn:Hx; [| done].
    specialize (Hcomm s2 eq_refl).
    destruct (body x s) as [[[]|e] s3]; [| done].
    destruct (body y s3) as [[[]|e] s4]; [| done].
    injection Hcomm as ->. done.
  - intros Hs. by apply IH2, IH1.
Qed.

Section FitOrder.
Context `{Params} `{Indeterminate} `{BinaryMatrix} {G : Type} `{GP G}.
Context `{Schedule}.

Local Abbreviation World := (@GPModel.World G).
Local Abbreviation gps w := (GPModel._gp_models (GPModel.this w)).

(** One iteration of the fit that returns has replaced its own regressor. *)
Lemma fit_iff (samples : list VectorXd) (obs : MatrixXd) (noises : option VectorXd)
    (i : nat) (w w' : World) :
  GPModel.fit samples obs noises i w = (Ok (), w') ↔
  ∃ g c ys g1 g2,
    gps w !! i = Some g ∧ col obs i = Ok c ∧ GPModel._to_vector c = Ok ys ∧
    gp_compute g samples ys noises false = Some g1 ∧
    gp_optimize_hyperparams g1 = Some g2 ∧
    w' = GPModel.set_gp_models (<[i := g2]> (gps w)) w.
Proof.
  run GPModel.fit. unfold vector_at.
  destruct (gps w !! i) as [g|] eqn:Hg; simpl.
  2:{ split; [done |]. by intros (? & ? & ? & ? & ? & ? & _). }
  destruct (col obs i) as [c|] eqn:Hc; simpl.
  2:{ split; [done |]. by intros (? & ? & ? & ? & ? & _ & ? & _). }
  destruct (GPModel._to_vector c) as [ys|] eqn:Hy; simpl.
  2:{ split; [done |]. intros (? & ? & ? & ? & ? & _ & [= <-] & Hy' & _).
      by rewrite Hy in Hy'. }
  destruct (gp_compute g samples ys noises false) as [g1|] eqn:Hq1; simpl.
  2:{ split; [done |]. intros (? & ? & ? & ? & ? & [= <-] & [= <-] & Hy' & Hq1' & _).
      rewrite Hy in Hy'. injection Hy' as <-. by rewrite Hq1 in Hq1'. }
  destruct (gp_optimize_hyperparams g1) as [g2|] eqn:Hq2; simpl.
  2:{ split; [done |].
      intros (? & ? & ? & ? & ? & [= <-] & [= <-] & Hy' & Hq1' & Hq2' & _).
      rewrite Hy in Hy'. injection Hy' as <-. rewrite Hq1 in Hq1'. injection Hq1' as <-.
      by rewrite Hq2 in Hq2'. }
  rewrite list_insert_insert_eq. split.
  - intros [= <-]. by exists g, c, ys, g1, g2.
  - intros (? & ? & ? & ? & ? & [= <-] & [= <-] & Hy' & Hq1' & Hq2' & ->).
    rewrite Hy in Hy'. injection Hy' as <-. rewrite Hq1 in Hq1'. injection Hq1' as <-.
    rewrite Hq2 in Hq2'. by injection Hq2' as <-.
Qed.

Lemma fit_commute (samples : list VectorXd) (obs : MatrixXd) (noises : option VectorXd)
    (i j : nat) (w w' : World) :
  (GPModel.fit samples obs noises i ≫= λ _, GPModel.fit samples obs noises j) w
  = (Ok (), w') →
  (GPModel.fit samples obs noises j ≫= λ _, GPModel.fit samples obs noises i) w
  = (Ok (), w').
Proof.
  destruct (decide (i = j)) as [->|Hne]; [done |].
  unfold mbind, M_bind.
  destruct (GPModel.fit samples obs noises i w) as [[[]|e] w1] eqn:Hi; [| done].
  intros Hj.
  apply fit_iff in Hi as (g & c & ys & g1 & g2 & Hg & Hc & Hy & Hq1 & Hq2 & ->).
  apply fit_iff in Hj as (h & d & zs & h1 & h2 & Hh & Hd & Hz & Hq3 & Hq4 & ->).
  simpl in Hh. rewrite list_lookup_insert_ne in Hh by done.
  assert (GPModel.fit samples obs noises j w
          = (Ok (), GPModel.set_gp_models (<[j := h2]> (gps w)) w)) as ->.
  { apply fit_iff. by exists h, d, zs, h1, h2. }
  apply fit_iff. exists g, c, ys, g1, g2. simpl.
  rewrite list_lookup_insert_ne by done.
  repeat (split; [done |]). unfold GPModel.set_gp_models. simpl.
  by rewrite list_insert_insert_ne.
Qed.

(** X21. The iterations of the parallel loop of [learn] that fits the
    regressors commute: when the loop taken in index order returns, it
    returns with the same regressors in every order that takes each
    predicted dimension once. *)
Theorem fit_any_order (order : list nat) (samples : list VectorXd) (obs : MatrixXd)
    (noises : option VectorXd) (w w' : World) :
  NoDup order → (∀ i, i ∈ order ↔ i < cols obs) →
  forM_ (GPModel.fit samples obs noises) 0 (cols obs) w = (Ok (), w') →
  GPModel.fit_in order samples obs noises w = (Ok (), w').
Proof.
  intros Hnd Horder. rewrite forM_forM_each. unfold GPModel.fit_in.
  apply forM_each_perm.
  - intros i j s s'. apply fit_commute.
  - apply NoDup_Permutation; [apply NoDup_seq | done |].
    intros i. rewrite elem_of_seq, Horder. lia.
Qed.

End FitOrder.

(** * The models at work *)

Module Run.
Import Example.

#[export] Instance stats_spec : @BinaryMatrixSpec stats.
Proof. intros m p. simpl. unfold nearest_rank. by rewrite length_fmap, length_seq. Qed.

#[export] Instance in_order_spec : @ScheduleSpec in_order.
Proof. by intros n. Qed.

Lemma reversed_spec : @ScheduleSpec reversed.
Proof. intros n. apply reverse_Permutation. Qed.

#[export] Instance avg_gp_spec : @GPSpec avg avg_gp.
Proof.
  split.
  - intros g s o n b g'. simpl. destruct (existsb _ _); [done |]. by intros [= <-].
  - intros g g'. simpl. by intros [= <-].
Qed.

Lemma learn_three : GPModel.learn three false fresh = (Ok (), fitted).
Proof. vm_compute. reflexivity. Qed.

Lemma learn_later : GPModel.learn later true fitted = (Ok (), refreshed).
Proof. vm_compute. reflexivity. Qed.

Lemma learn_later_full : GPModel.learn later false fitted = (Ok (), relearned).
Proof. vm_compute. reflexivity. Qed.

Lemma learn_shorter : GPModel.learn shorter true fitted = (Ok (), shortened).
Proof. vm_compute. reflexivity. Qed.

Lemma learn_two_dims :
  @GPModel.learn p211 _ _ avg avg_gp in_order two_dims false fresh2 = (Ok (), fitted2).
Proof. vm_compute. reflexivity. Qed.

Lemma learn_two_dims_b :
  @GPModel.learn p211 _ _ avg avg_gp in_order two_dims_b false fitted2
  = (Ok (), fitted2_b).
Proof. vm_compute. reflexivity. Qed.

Lemma learn_broken2 :
  @GPModel.learn p211 _ _ avg avg_gp reversed broken2 false fitted2
  = (Err (Thrown 0), interrupted).
Proof. vm_compute. reflexivity. Qed.

Lemma learn_doubled : MIModel.learn doubled false MIModel.new = (Ok (), learned_mi).
Proof. vm_compute. reflexivity. Qed.

End Run.

Section Instances.
Import Example Run.

Lemma assemble_spec_witness :
  ∃ samples obs,
    GPModel.assemble three = Ok (samples, obs) ∧
    length samples = length three ∧
    rows obs = length three ∧
    ∀ i (o : transition), three !! i = Some o →
      samples !! i = Some (o.1.1 ++ o.1.2) ∧ row obs i = Ok o.2.
Proof. apply (assemble_spec three); [done | reflexivity]. Defined.

Lemma predict_spec_witness :
  (∃ ms ss u,
     @GPModel.predictm _ kept echo_gp (GPModel.this echoed) query = Ok (ms, ss) ∧
     @GPModel.predict _ kept echo_gp (GPModel.this echoed) query = Ok (ms, u) ∧
     mean ss = Ok u ∧
     length ms = length (GPModel._gp_models (GPModel.this echoed)) ∧
     length ss = length (GPModel._gp_models (GPModel.this echoed)) ∧
     (∀ i g, GPModel._gp_models (GPModel.this echoed) !! i = Some g →
        head (@gp_query kept echo_gp g query).1 = ms !! i ∧
        ss !! i = Some (@gp_query kept echo_gp g query).2) ∧
     ∃ s0 rest,
       ss = s0 :: rest ∧
       u = (foldl PrimFloat.add s0 rest
            / PrimFloat.of_uint63 (Uint63.of_Z (Z.of_nat (length ss))))%float) ∧
  @GPModel.predict _ kept echo_gp (GPModel.this echoed) query
  = Ok ([2%float; 4%float; 9%float], 5%float).
Proof.
  split.
  - apply (@predict_spec _ kept echo_gp (GPModel.this echoed) query).
    + vm_compute. discriminate.
    + vm_compute. repeat constructor; discriminate.
  - vm_compute. reflexivity.
Defined.

Lemma learn_thrown_witness :
  ∃ o0 w1 data2,
    let samples := sample_of <$> broken2 in
    let obs := Matrix (length (target_of o0)) (target_of <$> broken2) in
    head broken2 = Some o0 ∧
    @GPModel.statistics p211 _ _ avg samples (GPModel.set_observations obs fitted2)
    = (Ok (), w1) ∧
    @GPModel.snapshot p211 _ samples obs = Ok data2 ∧
    same_cache (GPModel.write_file "medrops_data.bin" (Binary data2) w1) interrupted ∧
    GPModel._observations (GPModel.this interrupted) = obs ∧
    @fit_interrupted p211 avg avg_gp samples obs 0 interrupted ∧
    GPModel._gp_models (GPModel.this interrupted)
    = [Avg [] []; Avg [[3%float; 0%float]] [[1%float]]].
Proof.
  destruct (@learn_thrown p211 _ _ avg avg_gp reversed broken2 fitted2 interrupted 0
              reversed_spec learn_broken2) as (o0 & w1 & data2 & Hw).
  exists o0, w1, data2. simpl in *.
  destruct Hw as (Ha & Hb & Hc & Hd & He & Hf). by repeat (split; [assumption |]).
Defined.

Lemma unfitted_not_rejected_witness :
  GPModel.predictm (GPModel.this fresh) query = Ok ([0%float], [1%float]) ∧
  (∃ u, mean [1%float] = Ok u ∧
        GPModel.predict (GPModel.this fresh) query = Ok ([0%float], u)) ∧
  GPModel.save_data "dump.txt" fresh
  = (Ok (), GPModel.write_file "dump.txt" (Text []) fresh).
Proof.
  pose proof (unfitted_not_rejected ∅ query "dump.txt") as Hw.
  vm_compute in Hw |- *. apply Hw; [lia | discriminate | reflexivity].
Defined.

Lemma learn_unchecked_witness :
  GPModel.learn [] false fitted = (Err (Abort OutOfRange), fitted) ∧
  GPModel.learn (three ++ [([3%float], [0%float], [])]) false fitted
  = (Err (Abort Assertion), fitted) ∧
  GPModel.learn (three ++ [([3%float], [], [3%float])]) false fitted
  = (Err (Abort Assertion),
     GPModel.set_observations
       (Matrix 1 (target_of <$> three ++ [([3%float], [], [3%float])])) fitted).
Proof.
  split; [| split].
  - by apply (learn_unchecked [] false fitted).
  - apply (proj1 (proj2
             (learn_unchecked (three ++ [([3%float], [0%float], [])]) false fitted))
             ([0%float], [0%float], [0%float])); [done |].
    repeat first [apply Exists_cons_hd; simpl; lia | apply Exists_cons_tl].
  - apply (proj2 (proj2
             (learn_unchecked (three ++ [([3%float], [], [3%float])]) false fitted))
             ([0%float], [0%float], [0%float])); [done | by repeat constructor |].
    repeat first [apply Exists_cons_hd; simpl; lia | apply Exists_cons_tl].
Defined.

Lemma learn_only_limits_witness :
  GPModel._gp_models (GPModel.this refreshed) = GPModel._gp_models (GPModel.this fitted) ∧
  GPModel.disk refreshed = GPModel.disk fitted ∧
  GPModel.learn later true fitted = (Ok (), refreshed) ∧
  colwise_mean (Matrix 2 (sample_of <$> later))
  = Ok (GPModel._means (GPModel.this refreshed)) ∧
  GPModel._sigmas (GPModel.this refreshed)
  = colwise_sig (Matrix 2 (sample_of <$> later)) ∧
  cwise_max (percentile (cwise_abs (Matrix 2 (sample_of <$> later))) 5)
            (percentile (cwise_abs (Matrix 2 (sample_of <$> later))) 95)
  = Ok (GPModel._limits (GPModel.this refreshed)) ∧
  (∀ j x0 xs,
     (λ s, s !! j) <$> (sample_of <$> later) = Some <$> (x0 :: xs) →
     GPModel._means (GPModel.this refreshed) !! j
     = Some (foldl PrimFloat.add x0 xs
             / PrimFloat.of_uint63 (Uint63.of_Z (Z.of_nat (length later))))%float) ∧
  (∀ j a b,
     percentile (Matrix 2 (map PrimFloat.abs <$> (sample_of <$> later))) 5 !! j = Some a →
     percentile (Matrix 2 (map PrimFloat.abs <$> (sample_of <$> later))) 95 !! j = Some b →
     GPModel._limits (GPModel.this refreshed) !! j
     = Some (if (a <? b)%float then b else a)).
Proof.
  destruct (learn_only_limits later fitted) as (Hg & Hd & Hr).
  split; [exact Hg |]. split; [exact Hd |].
  apply Hr; [exact stats_spec | done | reflexivity | by repeat constructor].
Defined.

Lemma learn_limits_witness :
  (let abs_samp := Matrix 2 (map PrimFloat.abs <$> (sample_of <$> signed)) in
   let pl := percentile abs_samp 5 in
   let ph := percentile abs_samp 95 in
   let w' := (GPModel.learn signed false fresh).2 in
   length (GPModel.limits (GPModel.this w')) = 2 ∧
   length pl = 2 ∧ length ph = 2 ∧
   ∀ j a b, pl !! j = Some a → ph !! j = Some b →
     GPModel.limits (GPModel.this w') !! j = Some (if (a <? b)%float then b else a)) ∧
  percentile (Matrix 2 (map PrimFloat.abs <$> (sample_of <$> signed))) 5
  = [1%float; 0.5%float] ∧
  percentile (Matrix 2 (map PrimFloat.abs <$> (sample_of <$> signed))) 95
  = [3%float; 2%float] ∧
  GPModel.limits (GPModel.this (GPModel.learn signed false fresh).2)
  = [3%float; 2%float].
Proof.
  split; [| vm_compute; by repeat split].
  refine (learn_limits signed false fresh stats_spec _ _ _);
    [done | reflexivity | by repeat constructor].
Defined.

Lemma MIModel_predict_witness :
  (MIModel.predict (MIModel.Build [] [] (Scale 2 2%float) true) [1%float; 2%float] true).2
    !! 1 = Some 0%float.
Proof.
  apply (MIModel_predict_spec (MIModel.Build [] [] (Scale 2 2%float) true)
           [1%float; 2%float] true).
  simpl. lia.
Defined.



(** What the code does against C3: an ensemble fitted on the three
    transitions answers 1 with no variance; after a [learn] whose only
    regressor throws it answers like a new one, and its cached targets are
    those of the failed call. *)
Lemma learn_thrown_not_restored :
  GPModel.learn three false fresh = (Ok (), fitted) ∧
  GPModel.predict (GPModel.this fitted) query = Ok ([1%float], 0%float) ∧
  (GPModel.learn broken false fitted).1 = Err (Thrown 0) ∧
  GPModel.predict (GPModel.this (GPModel.learn broken false fitted).2) query
  = Ok ([0%float], 1%float) ∧
  GPModel.observations (GPModel.this (GPModel.learn broken false fitted).2)
  = Matrix 1 [[nan]].
Proof. vm_compute. repeat split. Qed.

(** What the code does against C4: a new ensemble answers a query and
    writes an empty file. *)
Lemma unfitted_answers :
  GPModel.predictm (GPModel.this fresh) query = Ok ([0%float], [1%float]) ∧
  GPModel.predict (GPModel.this fresh) query = Ok ([0%float], 1%float) ∧
  (GPModel.save_data "dump.txt" fresh).1 = Ok () ∧
  GPModel.disk (GPModel.save_data "dump.txt" fresh).2 !! "dump.txt" = Some (Text []).
Proof. vm_compute. repeat split. Qed.

(** What the code does against C5: states and actions of different
    lengths are accepted and fitted when each sample has the expected
    length. *)
Lemma uneven_lengths_accepted :
  consistent uneven = false ∧
  (@GPModel.learn (params 1 2 1) _ _ _ _ _ uneven false
     (@GPModel.new (params 1 2 1) _ _ ∅)).1
  = Ok () ∧
  gp_samples <$>
    GPModel._gp_models (GPModel.this
      (@GPModel.learn (params 1 2 1) _ _ _ _ _ uneven false
         (@GPModel.new (params 1 2 1) _ _ ∅)).2)
  = [[[1%float; 2%float; 3%float]; [5%float; 6%float; 7%float]]].
Proof. vm_compute. repeat split. Qed.



End Instances.

(** ** The further properties at work *)

Section FurtherInstances.
Import Example Run.

Lemma matrix_round_trip_witness :
  GPModel._to_matrix [[1%float; 2%float]; [3%float; 4%float]]
  = Ok (Matrix 2 [[1%float; 2%float]; [3%float; 4%float]])
  ↔ GPModel._to_vector (Matrix 2 [[1%float; 2%float]; [3%float; 4%float]])
    = Ok [[1%float; 2%float]; [3%float; 4%float]].
Proof.
  apply (matrix_round_trip [[1%float; 2%float]; [3%float; 4%float]]
           (Matrix 2 [[1%float; 2%float]; [3%float; 4%float]])).
  - unfold wf. simpl. by repeat constructor.
  - unfold rows. simpl. lia.
Defined.

Lemma accessors_unfitted_witness :
  GPModel.samples (GPModel.this fresh) = Err OutOfRange ∧
  GPModel.observations (GPModel.this fresh) = Matrix0 ∧
  GPModel.limits (GPModel.this fresh) = [].
Proof. apply (accessors_unfitted ∅). reflexivity. Defined.

Lemma learn_then_accessors_witness :
  GPModel.samples (GPModel.this fitted) = Ok (Matrix 2 (sample_of <$> three)) ∧
  GPModel.observations (GPModel.this fitted) = Matrix 1 (target_of <$> three) ∧
  rows (GPModel.observations (GPModel.this fitted)) = length three.
Proof.
  refine (learn_then_accessors three fresh fitted _ learn_three). simpl. lia.
Defined.

Lemma learn_completes_witness :
  ∃ w', @GPModel.learn p111 _ _ kept kept_gp in_order three false fresh_kept
        = (Ok (), w').
Proof.
  apply (@learn_completes p111 junk_nan stats kept kept_gp in_order stats_spec
           in_order_spec three fresh_kept).
  - done.
  - by repeat constructor.
  - by repeat constructor.
  - intros g s ys n. by eexists.
  - intros g. by eexists.
  - intros g. simpl. lia.
Defined.

Lemma predictm_any_order_witness :
  GPModel.predictm_in [1; 0] (GPModel.this fitted2) query
  = GPModel.predictm (GPModel.this fitted2) query.
Proof.
  apply (predictm_any_order [1; 0] (GPModel.this fitted2) query).
  intros i.
  assert (length (GPModel._gp_models (GPModel.this fitted2)) = 2) as ->
    by (vm_compute; reflexivity).
  rewrite !elem_of_cons, elem_of_nil. lia.
Defined.

Lemma learn_needs_dims_witness :
  three ≠ [] ∧
  Forall (λ o, length (sample_of o) = 2) three ∧
  Forall (λ o, length (target_of o) = 1) three ∧
  length (GPModel._gp_models (GPModel.this fitted)) = 1.
Proof. exact (learn_needs_dims three fresh fitted learn_three). Defined.

Lemma learn_not_incremental_witness :
  ∃ v', GPModel.learn later false fresh = (Ok (), v') ∧
    GPModel.this v' = GPModel.this relearned ∧
    GPModel.disk v' !! "medrops_data.bin" = GPModel.disk relearned !! "medrops_data.bin" ∧
    ∀ f, f ≠ "medrops_data.bin" → GPModel.disk v' !! f = GPModel.disk fresh !! f.
Proof.
  apply (learn_not_incremental later fitted fresh relearned);
    [reflexivity | exact learn_later_full].
Defined.

Lemma learn_snapshot_file_witness :
  GPModel.disk fitted
  = <["medrops_data.bin" :=
        Binary (Matrix 3 (zip_with app (sample_of <$> three) (target_of <$> three)))]> ∅.
Proof.
  refine (learn_snapshot_file three fresh fitted (Ok ()) learn_three _). done.
Defined.

Lemma members_frame_witness :
  length (GPModel._gp_models (GPModel.this relearned)) = 1.
Proof.
  pose proof (proj1 (proj2 (members_frame later false "data.txt" fitted))) as Hw.
  apply Hw. reflexivity.
Defined.

Lemma refresh_is_idempotent_witness : GPModel.learn three true fitted = (Ok (), fitted).
Proof. exact (refresh_is_idempotent three false fresh fitted learn_three). Defined.

Lemma fit_by_column_witness :
  GPModel._gp_models (GPModel.this fitted2) !! 0
  = GPModel._gp_models (GPModel.this fitted2_b) !! 0.
Proof.
  refine (@fit_by_column p211 _ _ avg avg_gp in_order in_order_spec two_dims two_dims_b
            fresh2 fitted2 fitted2 fitted2_b 0 learn_two_dims learn_two_dims_b _ _);
    reflexivity.
Defined.

Lemma save_after_shorter_refresh_witness :
  (GPModel.save_data "data.txt" shortened).1 = Err (Abort Assertion).
Proof.
  refine (save_after_shorter_refresh "data.txt" three shorter fresh fitted shortened
            _ learn_three learn_shorter _ _).
  - simpl. lia.
  - simpl. lia.
  - intros o0 [= <-]. discriminate.
Defined.

Lemma MIModel_mean_sized_once_witness :
  ∃ mean best,
    (∃ s0, head (sample_of <$> doubled) = Some s0 ∧ mean = mf_new (length s0)) ∧
    optimizer
      (MIModel._optimize_model
         (MIModel.Build (sample_of <$> doubled) (target_of <$> doubled) mean true))
      (mf_h_params mean) true = Ok best ∧
    learned_mi
    = MIModel.Build (sample_of <$> doubled) (target_of <$> doubled)
        (mf_set_h_params mean best) true.
Proof. exact (MIModel_mean_sized_once doubled false MIModel.new learned_mi learn_doubled). Defined.

Lemma optimize_model_value_witness :
  MIModel._optimize_model learned_mi [2%float] false
  = Ok (- foldl (λ mse p, mse + sq_dist (mf_eval (Scale 2 2%float) p.1 p.1) p.2) 0
            (zip (sample_of <$> doubled) (target_of <$> doubled)), None)%float.
Proof.
  refine (optimize_model_value learned_mi [2%float] false _ _ _).
  - discriminate.
  - simpl. lia.
  - by repeat constructor.
Defined.

Lemma MIModel_save_after_learn_witness :
  MIModel.save_data learned_mi "data.txt" ∅
  = (Ok (),
     <["data.txt" := Text (mi_dump (sample_of <$> doubled) (target_of <$> doubled))]> ∅).
Proof.
  refine (MIModel_save_after_learn doubled false MIModel.new "data.txt" ∅ 2 2 _ _);
    by repeat constructor.
Defined.

Lemma wider_samples_truncated_witness :
  GPModel.learn wide true fitted = (Ok (), (GPModel.learn wide true fitted).2) ∧
  colwise_mean (Matrix 2 (take 2 <$> (sample_of <$> wide)))
  = Ok (GPModel._means (GPModel.this (GPModel.learn wide true fitted).2)) ∧
  GPModel._sigmas (GPModel.this (GPModel.learn wide true fitted).2)
  = colwise_sig (Matrix 2 (take 2 <$> (sample_of <$> wide))) ∧
  cwise_max (percentile (cwise_abs (Matrix 2 (take 2 <$> (sample_of <$> wide)))) 5)
            (percentile (cwise_abs (Matrix 2 (take 2 <$> (sample_of <$> wide)))) 95)
  = Ok (GPModel._limits (GPModel.this (GPModel.learn wide true fitted).2)) ∧
  GPModel.learn wide false fitted
  = (Err (Abort Assertion), (GPModel.learn wide true fitted).2).
Proof.
  refine (wider_samples_truncated wide 3 fitted _ _ _ _);
    [done | reflexivity | by repeat constructor | simpl; lia].
Defined.

Lemma fit_any_order_witness :
  let samples := sample_of <$> two_dims in
  let obs := Matrix 2 (target_of <$> two_dims) in
  let noises := Some (Constant 2 0.25%float) in
  GPModel.fit_in [1; 0] samples obs noises fresh2
  = (Ok (), (forM_ (GPModel.fit samples obs noises) 0 2 fresh2).2).
Proof.
  apply (fit_any_order [1; 0] (sample_of <$> two_dims) (Matrix 2 (target_of <$> two_dims))
           (Some (Constant 2 0.25%float)) fresh2).
  - repeat constructor; rewrite ?elem_of_cons, ?elem_of_nil; lia.
  - intros i. simpl. rewrite !elem_of_cons, elem_of_nil. lia.
  - vm_compute. reflexivity.
Defined.

Lemma save_data_formats_witness :
  ∃ lines,
    length lines = length (sample_of <$> doubled) ∧
    GPModel.save_rows (sample_of <$> doubled) (Matrix 2 (target_of <$> doubled))
    = Ok (unlines lines) ∧
    MIModel.save_rows
      (MIModel.Build (sample_of <$> doubled) (target_of <$> doubled) (Scale 2 2%float) true)
    = Ok (unlines ((λ l, l ++ [Str " "]) <$> lines)).
Proof.
  refine (save_data_formats (sample_of <$> doubled) (target_of <$> doubled) 2 2
            (Scale 2 2%float) true _ _ _ _);
    [by repeat constructor | by repeat constructor | lia | simpl; lia].
Defined.

End FurtherInstances.
